(** * Traffic Director resource managers

    A shallow embedding of
    [tools/run_tests/xds_k8s_test_driver/framework/infrastructure/traffic_director.py]:
    the three manager classes ([TrafficDirectorManager],
    [TrafficDirectorAppNetManager], [TrafficDirectorSecureManager]), their
    per-resource create/delete methods, the composite setup and cleanup
    sequences, backend attachment and the forwarding-rule port search.

    Methods are computations in a state-and-exception monad.  The state is the
    manager object (its attributes); the GCP API clients ([self.compute],
    [self.netsec], [self.netsvc]) are external collaborators, represented by
    an oracle that answers every request either with a value or with an
    exception, and every request is appended to a log.  Attribute updates made
    before an exception is raised stay in the state, as in Python.

    Left out, as nothing below depends on them: the firewall rule methods,
    the [*_remove_all_backends] and [wait_for_*] methods, the
    [*_with_content] variants, and the loading and backend attachment of the
    alternative and affinity services, which repeat those of the primary
    one. *)

From Stdlib Require Import ZArith List String Lia.
From stdpp Require Import base option list strings gmap pretty.

#[local] Set Warnings "-register-all".

Open Scope string_scope.
Open Scope Z_scope.

(** ** Remote resource handles *)

(** Modelled from the spec: the dataclasses of [framework.infrastructure.gcp]
    are not part of this file; a handle carries the derived name and the
    remote identity (URL), the two attributes the managers read. *)
Record GcpResource : Type := { name : string; url : string }.

(** Modelled from the spec: a zonal backend is keyed by name, URL and zone. *)
Record ZonalGcpResource : Type :=
  { zonal_name : string; zonal_url : string; zone : string }.

Record ServerTlsPolicy : Type := { server_policy_name : string; server_policy_url : string }.
Record ClientTlsPolicy : Type := { client_policy_name : string; client_policy_url : string }.
Record EndpointConfigSelector : Type := { ecs_name : string; ecs_url : string }.
Record GrpcRoute : Type := { route_name : string; route_url : string }.
Record Router : Type := { router_name : string; router_url : string }.

#[global] Instance ZonalGcpResource_eq_dec : EqDecision ZonalGcpResource.
Proof. solve_decision. Defined.

#[global] Instance ZonalGcpResource_countable : Countable ZonalGcpResource.
Proof.
  refine (inj_countable'
            (fun z => (zonal_name z, zonal_url z, zone z))
            (fun t => {| zonal_name := t.1.1; zonal_url := t.1.2; zone := t.2 |}) _).
  intros []; reflexivity.
Defined.

(** Modelled from the spec: [BackendServiceProtocol] is an enum
    "{GRPC, HTTP2, ...}"; further members are kept apart by their name. *)
Inductive BackendServiceProtocol : Type :=
| GRPC
| HTTP2
| OtherBackendProtocol (member : string).

(** Only the [GRPC] member of [HealthCheckProtocol] is named by this file. *)
Inductive HealthCheckProtocol : Type :=
| HealthCheckGRPC
| OtherHealthCheckProtocol (member : string).

Definition _BackendGRPC : BackendServiceProtocol := GRPC.
Definition _HealthCheckGRPC : HealthCheckProtocol := HealthCheckGRPC.
Definition TEST_AFFINITY_METADATA_KEY : string := "xds_md".

(** Request bodies are Python dicts, lists and strings; a dict keeps its keys
    in insertion order. *)
Inductive json : Type :=
| JStr (s : string)
| JList (items : list json)
| JDict (entries : list (string * json)).

(** [d[key] = value] on a dict that does not hold [key] yet. *)
Definition dict_set (key : string) (value : json) (d : list (string * json)) :
  list (string * json) := d ++ [(key, value)].

(** ** Exceptions *)

Inductive exn : Type :=
| ValueError (msg : string)
| TypeError (msg : string)
| RuntimeError (msg : string)
| AttributeError (msg : string)
| RemoteError (what : string).

(** ** Requests to the API clients *)

Inductive call : Type :=
(* self.compute *)
| compute_create_health_check (nm : string) (protocol : HealthCheckProtocol) (port : option Z)
| compute_delete_health_check (nm : string)
| compute_create_backend_service_traffic_director
    (nm : string) (health_check : option GcpResource)
    (protocol : BackendServiceProtocol) (affinity_header : option string)
| compute_get_backend_service_traffic_director (nm : string)
| compute_delete_backend_service (nm : string)
| compute_wait_for_network_endpoint_group (nm : string) (zn : string)
| compute_backend_service_add_backends (backend_service : GcpResource) (backends : gset ZonalGcpResource)
| compute_patch_backend_service (backend_service : GcpResource) (body : json)
| compute_create_url_map (nm matcher_name : string) (src_hosts : list string) (dst : GcpResource)
| compute_delete_url_map (nm : string)
| compute_create_target_grpc_proxy (nm : string) (url_map : GcpResource)
| compute_create_target_http_proxy (nm : string) (url_map : GcpResource)
| compute_delete_target_grpc_proxy (nm : string)
| compute_delete_target_http_proxy (nm : string)
| compute_exists_forwarding_rule (src_port : Z)
| compute_create_forwarding_rule (nm : string) (src_port : Z) (target_proxy : GcpResource) (network_url : string)
| compute_delete_forwarding_rule (nm : string)
(* self.netsec *)
| netsec_create_server_tls_policy (nm : string) (policy : json)
| netsec_get_server_tls_policy (nm : string)
| netsec_delete_server_tls_policy (nm : string)
| netsec_create_client_tls_policy (nm : string) (policy : json)
| netsec_get_client_tls_policy (nm : string)
| netsec_delete_client_tls_policy (nm : string)
(* self.netsvc *)
| netsvc_create_endpoint_config_selector (nm : string) (config : json)
| netsvc_get_endpoint_config_selector (nm : string)
| netsvc_delete_endpoint_config_selector (nm : string)
| netsvc_create_router (nm : string) (body : json)
| netsvc_get_router (nm : string)
| netsvc_delete_router (nm : string)
| netsvc_create_grpc_route (nm : string) (body : json)
| netsvc_get_grpc_route (nm : string)
| netsvc_delete_grpc_route (nm : string).

(** What a request returns when it does not raise. *)
Definition response (c : call) : Type :=
  match c with
  | compute_create_health_check _ _ _
  | compute_create_backend_service_traffic_director _ _ _ _
  | compute_get_backend_service_traffic_director _
  | compute_create_url_map _ _ _ _
  | compute_create_target_grpc_proxy _ _
  | compute_create_target_http_proxy _ _
  | compute_create_forwarding_rule _ _ _ _
  | netsvc_create_router _ _
  | netsvc_create_grpc_route _ _ => GcpResource
  | compute_wait_for_network_endpoint_group _ _ => ZonalGcpResource
  | compute_exists_forwarding_rule _ => bool
  | netsec_get_server_tls_policy _ => ServerTlsPolicy
  | netsec_get_client_tls_policy _ => ClientTlsPolicy
  | netsvc_get_endpoint_config_selector _ => EndpointConfigSelector
  | netsvc_get_router _ => Router
  | netsvc_get_grpc_route _ => GrpcRoute
  | _ => unit
  end.

(** ** The monad *)

(** The collaborators: the API answers a request knowing the requests made so
    far; [entropy] is the stream behind [random]. *)
Record env : Type :=
  { remote : list call -> forall c : call, exn + response c;
    entropy : nat -> Z }.

(** What lies outside the manager object: the requests made so far, oldest
    first, and the number of random samples drawn. *)
Record world : Type := { log : list call; draws : nat }.

Record outcome (S A : Type) : Type :=
  { res : exn + A; st : S; wld : world }.
Arguments res {S A} _.
Arguments st {S A} _.
Arguments wld {S A} _.

Definition M (S A : Type) : Type := env -> world -> S -> outcome S A.

Definition ret {S A} (a : A) : M S A :=
  fun _ w s => {| res := inr a; st := s; wld := w |}.

Definition bind {S A B} (m : M S A) (k : A -> M S B) : M S B :=
  fun e w s =>
    let r := m e w s in
    match res r with
    | inl x => {| res := inl x; st := st r; wld := wld r |}
    | inr a => k a e (wld r) (st r)
    end.

#[global] Instance M_ret {S} : MRet (M S) := fun A a => ret a.
#[global] Instance M_bind {S} : MBind (M S) := fun A B k m => bind m k.

Definition raise {S A} (x : exn) : M S A :=
  fun _ w s => {| res := inl x; st := s; wld := w |}.

Definition get {S} : M S S :=
  fun _ w s => {| res := inr s; st := s; wld := w |}.

Definition modify {S} (f : S -> S) : M S unit :=
  fun _ w s => {| res := inr tt; st := f s; wld := w |}.

(** One request to an API client: logged, then answered by the oracle. *)
Definition request {S} (c : call) : M S (response c) :=
  fun e w s =>
    {| res := remote e (log w) c;
       st := s;
       wld := {| log := log w ++ [c]; draws := draws w |} |}.

(** [random.randint(lo, hi)]: an empty range raises [ValueError] (its message
    varies with the Python version), otherwise the next sample of the stream
    is brought into [lo, hi]. *)
Definition randint {S} (lo hi : Z) : M S Z :=
  fun e w s =>
    if hi <? lo then
      {| res := inl (ValueError "empty range for randrange()"); st := s; wld := w |}
    else
      {| res := inr (lo + entropy e (draws w) mod (hi - lo + 1));
         st := s;
         wld := {| log := log w; draws := Datatypes.S (draws w) |} |}.

(** A method of a base class run on an instance of a subclass. *)
Definition lift {S T A} (proj : T -> S) (inj : S -> T -> T) (m : M S A) : M T A :=
  fun e w t =>
    let r := m e w (proj t) in
    {| res := res r; st := inj (st r) t; wld := wld r |}.

(** Reading [x.field] where [x] may be [None]: the handle itself when it is
    there, Python's [AttributeError] otherwise. *)
Definition deref {S R} (field : string) (x : option R) : M S R :=
  match x with
  | Some r => ret r
  | None => raise (AttributeError ("'NoneType' object has no attribute '" ++ field ++ "'"))
  end.

(** Python truthiness of a [str] or [None]. *)
Definition truthy (s : option string) : bool :=
  match s with
  | Some s => negb (String.eqb s "")
  | None => false
  end.

(** ** TrafficDirectorManager *)

(** The attributes set by [__init__], and the table of
    [functools.lru_cache] for [make_resource_name] restricted to this
    instance (the cache key is the pair of [self] and the argument). *)
Record TrafficDirectorManager : Type :=
  { project : string;
    network : string;
    resource_prefix : string;
    resource_suffix : option string;
    health_check : option GcpResource;
    backend_service : option GcpResource;
    backend_service_protocol : option BackendServiceProtocol;
    url_map : option GcpResource;
    firewall_rule : option GcpResource;
    target_proxy : option GcpResource;
    target_proxy_is_http : bool;
    forwarding_rule : option GcpResource;
    backends : gset ZonalGcpResource;
    alternative_backend_service : option GcpResource;
    alternative_backend_service_protocol : option BackendServiceProtocol;
    alternative_backends : gset ZonalGcpResource;
    affinity_backend_service : option GcpResource;
    affinity_backend_service_protocol : option BackendServiceProtocol;
    affinity_backends : gset ZonalGcpResource;
    make_resource_name_cache : gmap string string }.


(** Attribute assignment [self.x = v], one function per assigned attribute. *)

Definition set_health_check (v : option GcpResource)
  (self : TrafficDirectorManager) : TrafficDirectorManager :=
  {| project := project self; network := network self; resource_prefix :=
     resource_prefix self; resource_suffix := resource_suffix self; health_check := v;
     backend_service := backend_service self; backend_service_protocol :=
     backend_service_protocol self; url_map := url_map self; firewall_rule :=
     firewall_rule self; target_proxy := target_proxy self; target_proxy_is_http :=
     target_proxy_is_http self; forwarding_rule := forwarding_rule self; backends :=
     backends self; alternative_backend_service := alternative_backend_service self;
     alternative_backend_service_protocol := alternative_backend_service_protocol self;
     alternative_backends := alternative_backends self; affinity_backend_service :=
     affinity_backend_service self; affinity_backend_service_protocol :=
     affinity_backend_service_protocol self; affinity_backends := affinity_backends
     self; make_resource_name_cache := make_resource_name_cache self |}.

Definition set_backend_service (v : option GcpResource)
  (self : TrafficDirectorManager) : TrafficDirectorManager :=
  {| project := project self; network := network self; resource_prefix :=
     resource_prefix self; resource_suffix := resource_suffix self; health_check :=
     health_check self; backend_service := v; backend_service_protocol :=
     backend_service_protocol self; url_map := url_map self; firewall_rule :=
     firewall_rule self; target_proxy := target_proxy self; target_proxy_is_http :=
     target_proxy_is_http self; forwarding_rule := forwarding_rule self; backends :=
     backends self; alternative_backend_service := alternative_backend_service self;
     alternative_backend_service_protocol := alternative_backend_service_protocol self;
     alternative_backends := alternative_backends self; affinity_backend_service :=
     affinity_backend_service self; affinity_backend_service_protocol :=
     affinity_backend_service_protocol self; affinity_backends := affinity_backends
     self; make_resource_name_cache := make_resource_name_cache self |}.

Definition set_backend_service_protocol (v : option BackendServiceProtocol)
  (self : TrafficDirectorManager) : TrafficDirectorManager :=
  {| project := project self; network := network self; resource_prefix :=
     resource_prefix self; resource_suffix := resource_suffix self; health_check :=
     health_check self; backend_service := backend_service self;
     backend_service_protocol := v; url_map := url_map self; firewall_rule :=
     firewall_rule self; target_proxy := target_proxy self; target_proxy_is_http :=
     target_proxy_is_http self; forwarding_rule := forwarding_rule self; backends :=
     backends self; alternative_backend_service := alternative_backend_service self;
     alternative_backend_service_protocol := alternative_backend_service_protocol self;
     alternative_backends := alternative_backends self; affinity_backend_service :=
     affinity_backend_service self; affinity_backend_service_protocol :=
     affinity_backend_service_protocol self; affinity_backends := affinity_backends
     self; make_resource_name_cache := make_resource_name_cache self |}.

Definition set_url_map (v : option GcpResource)
  (self : TrafficDirectorManager) : TrafficDirectorManager :=
  {| project := project self; network := network self; resource_prefix :=
     resource_prefix self; resource_suffix := resource_suffix self; health_check :=
     health_check self; backend_service := backend_service self;
     backend_service_protocol := backend_service_protocol self; url_map := v;
     firewall_rule := firewall_rule self; target_proxy := target_proxy self;
     target_proxy_is_http := target_proxy_is_http self; forwarding_rule :=
     forwarding_rule self; backends := backends self; alternative_backend_service :=
     alternative_backend_service self; alternative_backend_service_protocol :=
     alternative_backend_service_protocol self; alternative_backends :=
     alternative_backends self; affinity_backend_service := affinity_backend_service
     self; affinity_backend_service_protocol := affinity_backend_service_protocol self;
     affinity_backends := affinity_backends self; make_resource_name_cache :=
     make_resource_name_cache self |}.

Definition set_target_proxy (v : option GcpResource)
  (self : TrafficDirectorManager) : TrafficDirectorManager :=
  {| project := project self; network := network self; resource_prefix :=
     resource_prefix self; resource_suffix := resource_suffix self; health_check :=
     health_check self; backend_service := backend_service self;
     backend_service_protocol := backend_service_protocol self; url_map := url_map self;
     firewall_rule := firewall_rule self; target_proxy := v; target_proxy_is_http :=
     target_proxy_is_http self; forwarding_rule := forwarding_rule self; backends :=
     backends self; alternative_backend_service := alternative_backend_service self;
     alternative_backend_service_protocol := alternative_backend_service_protocol self;
     alternative_backends := alternative_backends self; affinity_backend_service :=
     affinity_backend_service self; affinity_backend_service_protocol :=
     affinity_backend_service_protocol self; affinity_backends := affinity_backends
     self; make_resource_name_cache := make_resource_name_cache self |}.

Definition set_target_proxy_is_http (v : bool)
  (self : TrafficDirectorManager) : TrafficDirectorManager :=
  {| project := project self; network := network self; resource_prefix :=
     resource_prefix self; resource_suffix := resource_suffix self; health_check :=
     health_check self; backend_service := backend_service self;
     backend_service_protocol := backend_service_protocol self; url_map := url_map self;
     firewall_rule := firewall_rule self; target_proxy := target_proxy self;
     target_proxy_is_http := v; forwarding_rule := forwarding_rule self; backends :=
     backends self; alternative_backend_service := alternative_backend_service self;
     alternative_backend_service_protocol := alternative_backend_service_protocol self;
     alternative_backends := alternative_backends self; affinity_backend_service :=
     affinity_backend_service self; affinity_backend_service_protocol :=
     affinity_backend_service_protocol self; affinity_backends := affinity_backends
     self; make_resource_name_cache := make_resource_name_cache self |}.

Definition set_forwarding_rule (v : option GcpResource)
  (self : TrafficDirectorManager) : TrafficDirectorManager :=
  {| project := project self; network := network self; resource_prefix :=
     resource_prefix self; resource_suffix := resource_suffix self; health_check :=
     health_check self; backend_service := backend_service self;
     backend_service_protocol := backend_service_protocol self; url_map := url_map self;
     firewall_rule := firewall_rule self; target_proxy := target_proxy self;
     target_proxy_is_http := target_proxy_is_http self; forwarding_rule := v; backends
     := backends self; alternative_backend_service := alternative_backend_service self;
     alternative_backend_service_protocol := alternative_backend_service_protocol self;
     alternative_backends := alternative_backends self; affinity_backend_service :=
     affinity_backend_service self; affinity_backend_service_protocol :=
     affinity_backend_service_protocol self; affinity_backends := affinity_backends
     self; make_resource_name_cache := make_resource_name_cache self |}.

Definition set_backends (v : gset ZonalGcpResource)
  (self : TrafficDirectorManager) : TrafficDirectorManager :=
  {| project := project self; network := network self; resource_prefix :=
     resource_prefix self; resource_suffix := resource_suffix self; health_check :=
     health_check self; backend_service := backend_service self;
     backend_service_protocol := backend_service_protocol self; url_map := url_map self;
     firewall_rule := firewall_rule self; target_proxy := target_proxy self;
     target_proxy_is_http := target_proxy_is_http self; forwarding_rule :=
     forwarding_rule self; backends := v; alternative_backend_service :=
     alternative_backend_service self; alternative_backend_service_protocol :=
     alternative_backend_service_protocol self; alternative_backends :=
     alternative_backends self; affinity_backend_service := affinity_backend_service
     self; affinity_backend_service_protocol := affinity_backend_service_protocol self;
     affinity_backends := affinity_backends self; make_resource_name_cache :=
     make_resource_name_cache self |}.

Definition set_alternative_backend_service (v : option GcpResource)
  (self : TrafficDirectorManager) : TrafficDirectorManager :=
  {| project := project self; network := network self; resource_prefix :=
     resource_prefix self; resource_suffix := resource_suffix self; health_check :=
     health_check self; backend_service := backend_service self;
     backend_service_protocol := backend_service_protocol self; url_map := url_map self;
     firewall_rule := firewall_rule self; target_proxy := target_proxy self;
     target_proxy_is_http := target_proxy_is_http self; forwarding_rule :=
     forwarding_rule self; backends := backends self; alternative_backend_service := v;
     alternative_backend_service_protocol := alternative_backend_service_protocol self;
     alternative_backends := alternative_backends self; affinity_backend_service :=
     affinity_backend_service self; affinity_backend_service_protocol :=
     affinity_backend_service_protocol self; affinity_backends := affinity_backends
     self; make_resource_name_cache := make_resource_name_cache self |}.

Definition set_alternative_backend_service_protocol (v : option BackendServiceProtocol)
  (self : TrafficDirectorManager) : TrafficDirectorManager :=
  {| project := project self; network := network self; resource_prefix :=
     resource_prefix self; resource_suffix := resource_suffix self; health_check :=
     health_check self; backend_service := backend_service self;
     backend_service_protocol := backend_service_protocol self; url_map := url_map self;
     firewall_rule := firewall_rule self; target_proxy := target_proxy self;
     target_proxy_is_http := target_proxy_is_http self; forwarding_rule :=
     forwarding_rule self; backends := backends self; alternative_backend_service :=
     alternative_backend_service self; alternative_backend_service_protocol := v;
     alternative_backends := alternative_backends self; affinity_backend_service :=
     affinity_backend_service self; affinity_backend_service_protocol :=
     affinity_backend_service_protocol self; affinity_backends := affinity_backends
     self; make_resource_name_cache := make_resource_name_cache self |}.

Definition set_affinity_backend_service (v : option GcpResource)
  (self : TrafficDirectorManager) : TrafficDirectorManager :=
  {| project := project self; network := network self; resource_prefix :=
     resource_prefix self; resource_suffix := resource_suffix self; health_check :=
     health_check self; backend_service := backend_service self;
     backend_service_protocol := backend_service_protocol self; url_map := url_map self;
     firewall_rule := firewall_rule self; target_proxy := target_proxy self;
     target_proxy_is_http := target_proxy_is_http self; forwarding_rule :=
     forwarding_rule self; backends := backends self; alternative_backend_service :=
     alternative_backend_service self; alternative_backend_service_protocol :=
     alternative_backend_service_protocol self; alternative_backends :=
     alternative_backends self; affinity_backend_service := v;
     affinity_backend_service_protocol := affinity_backend_service_protocol self;
     affinity_backends := affinity_backends self; make_resource_name_cache :=
     make_resource_name_cache self |}.

Definition set_affinity_backend_service_protocol (v : option BackendServiceProtocol)
  (self : TrafficDirectorManager) : TrafficDirectorManager :=
  {| project := project self; network := network self; resource_prefix :=
     resource_prefix self; resource_suffix := resource_suffix self; health_check :=
     health_check self; backend_service := backend_service self;
     backend_service_protocol := backend_service_protocol self; url_map := url_map self;
     firewall_rule := firewall_rule self; target_proxy := target_proxy self;
     target_proxy_is_http := target_proxy_is_http self; forwarding_rule :=
     forwarding_rule self; backends := backends self; alternative_backend_service :=
     alternative_backend_service self; alternative_backend_service_protocol :=
     alternative_backend_service_protocol self; alternative_backends :=
     alternative_backends self; affinity_backend_service := affinity_backend_service
     self; affinity_backend_service_protocol := v; affinity_backends :=
     affinity_backends self; make_resource_name_cache := make_resource_name_cache self
     |}.

Definition set_make_resource_name_cache (v : gmap string string)
  (self : TrafficDirectorManager) : TrafficDirectorManager :=
  {| project := project self; network := network self; resource_prefix :=
     resource_prefix self; resource_suffix := resource_suffix self; health_check :=
     health_check self; backend_service := backend_service self;
     backend_service_protocol := backend_service_protocol self; url_map := url_map self;
     firewall_rule := firewall_rule self; target_proxy := target_proxy self;
     target_proxy_is_http := target_proxy_is_http self; forwarding_rule :=
     forwarding_rule self; backends := backends self; alternative_backend_service :=
     alternative_backend_service self; alternative_backend_service_protocol :=
     alternative_backend_service_protocol self; alternative_backends :=
     alternative_backends self; affinity_backend_service := affinity_backend_service
     self; affinity_backend_service_protocol := affinity_backend_service_protocol self;
     affinity_backends := affinity_backends self; make_resource_name_cache := v |}.

Definition BACKEND_SERVICE_NAME : string := "backend-service".
Definition ALTERNATIVE_BACKEND_SERVICE_NAME : string := "backend-service-alt".
Definition AFFINITY_BACKEND_SERVICE_NAME : string := "backend-service-affinity".
Definition HEALTH_CHECK_NAME : string := "health-check".
Definition URL_MAP_NAME : string := "url-map".
Definition URL_MAP_PATH_MATCHER_NAME : string := "path-matcher".
Definition TARGET_PROXY_NAME : string := "target-proxy".
Definition FORWARDING_RULE_NAME : string := "forwarding-rule".
Definition FIREWALL_RULE_NAME : string := "allow-health-checks".

(** [__init__]: the settings are stored, nothing is managed yet and nothing
    has been memoized. *)
Definition new_manager (project_id resource_prefix_arg : string)
  (resource_suffix_arg : option string) (network_arg : string) : TrafficDirectorManager :=
  {| project := project_id; network := network_arg;
     resource_prefix := resource_prefix_arg; resource_suffix := resource_suffix_arg;
     health_check := None; backend_service := None; backend_service_protocol := None;
     url_map := None; firewall_rule := None; target_proxy := None;
     target_proxy_is_http := false; forwarding_rule := None; backends := ∅;
     alternative_backend_service := None; alternative_backend_service_protocol := None;
     alternative_backends := ∅; affinity_backend_service := None;
     affinity_backend_service_protocol := None; affinity_backends := ∅;
     make_resource_name_cache := ∅ |}.

Definition network_url (self : TrafficDirectorManager) : string :=
  "global/networks/" ++ network self.

(** The body of [make_resource_name], without its decorator. *)
Definition make_resource_name_body (self : TrafficDirectorManager) (nm : string) : string :=
  let parts := [resource_prefix self; nm] in
  let parts :=
    if truthy (resource_suffix self)
    then (parts ++ [default "" (resource_suffix self)])%list
    else parts in
  String.concat "-" parts.

(** [@functools.lru_cache(None)]: a call whose argument is in the table
    returns the stored string; otherwise the body runs and its result is
    stored. *)
Definition make_resource_name (nm : string) : M TrafficDirectorManager string :=
  self ← get;
  match make_resource_name_cache self !! nm with
  | Some cached => mret cached
  | None =>
      let result := make_resource_name_body self nm in
      modify (set_make_resource_name_cache (<[nm := result]> (make_resource_name_cache self)));;
      mret result
  end.

(** The shape shared by every [delete_*] method:
<<
    if force:            name = self.make_resource_name(BASE_NAME)
    elif <tracked>:      name = self.<attribute>.name
    else:                return
    <client>.delete_*(name)
    self.<attribute> = None
>>
    [make_name] is [self.make_resource_name], [tracked] reads the name of the
    recorded handle when the [elif] test holds, [delete_call] is the client
    request and [forget] the assignments that follow it. *)
Definition delete_resource {S} (make_name : string -> M S string) (base_name : string)
  (tracked : S -> option string) (delete_call : string -> call) (forget : S -> S)
  (force : bool) : M S unit :=
  self ← get;
  nm ← (if force then nm ← make_name base_name; mret (Some nm)
        else mret (tracked self));
  match nm with
  | Some nm => request (delete_call nm);; modify forget
  | None => mret tt
  end.

Definition create_health_check (protocol : option HealthCheckProtocol) (port : option Z) :
  M TrafficDirectorManager unit :=
  self ← get;
  match health_check self with
  | Some hc =>
      raise (ValueError ("Health check " ++ name hc ++ " already created, delete it first"))
  | None =>
      let protocol := default _HealthCheckGRPC protocol in
      nm ← make_resource_name HEALTH_CHECK_NAME;
      resource ← request (compute_create_health_check nm protocol port);
      modify (set_health_check (Some resource))
  end.

Definition delete_health_check : bool -> M TrafficDirectorManager unit :=
  delete_resource make_resource_name HEALTH_CHECK_NAME
    (fun self => name <$> health_check self)
    compute_delete_health_check
    (set_health_check None).

Definition create_backend_service (protocol : option BackendServiceProtocol) :
  M TrafficDirectorManager unit :=
  let protocol := default _BackendGRPC protocol in
  nm ← make_resource_name BACKEND_SERVICE_NAME;
  self ← get;
  resource ← request (compute_create_backend_service_traffic_director
                        nm (health_check self) protocol None);
  modify (set_backend_service (Some resource));;
  modify (set_backend_service_protocol (Some protocol)).

Definition load_backend_service : M TrafficDirectorManager unit :=
  nm ← make_resource_name BACKEND_SERVICE_NAME;
  resource ← request (compute_get_backend_service_traffic_director nm);
  modify (set_backend_service (Some resource)).

Definition delete_backend_service : bool -> M TrafficDirectorManager unit :=
  delete_resource make_resource_name BACKEND_SERVICE_NAME
    (fun self => name <$> backend_service self)
    compute_delete_backend_service
    (set_backend_service None).

(** [for x in xs: body(x)] *)
Fixpoint for_each {S A} (xs : list A) (body : A -> M S unit) : M S unit :=
  match xs with
  | [] => mret tt
  | x :: xs => body x;; for_each xs body
  end.

(** The log message reads [self.backend_service.name] before the request is
    made. *)
Definition backend_service_add_backends : M TrafficDirectorManager unit :=
  self ← get;
  bs ← deref "name" (backend_service self);
  request (compute_backend_service_add_backends bs (backends self)).

Definition backend_service_add_neg_backends (nm : string) (zones : list string) :
  M TrafficDirectorManager unit :=
  for_each zones (fun zn =>
    backend ← request (compute_wait_for_network_endpoint_group nm zn);
    modify (fun self => set_backends (backends self ∪ {[ backend ]}) self));;
  backend_service_add_backends.

Definition create_alternative_backend_service (protocol : option BackendServiceProtocol) :
  M TrafficDirectorManager unit :=
  let protocol := default _BackendGRPC protocol in
  nm ← make_resource_name ALTERNATIVE_BACKEND_SERVICE_NAME;
  self ← get;
  resource ← request (compute_create_backend_service_traffic_director
                        nm (health_check self) protocol None);
  modify (set_alternative_backend_service (Some resource));;
  modify (set_alternative_backend_service_protocol (Some protocol)).

Definition delete_alternative_backend_service : bool -> M TrafficDirectorManager unit :=
  delete_resource make_resource_name ALTERNATIVE_BACKEND_SERVICE_NAME
    (fun self => name <$> alternative_backend_service self)
    compute_delete_backend_service
    (set_alternative_backend_service None).

Definition create_affinity_backend_service (protocol : option BackendServiceProtocol) :
  M TrafficDirectorManager unit :=
  let protocol := default _BackendGRPC protocol in
  nm ← make_resource_name AFFINITY_BACKEND_SERVICE_NAME;
  self ← get;
  resource ← request (compute_create_backend_service_traffic_director
                        nm (health_check self) protocol (Some TEST_AFFINITY_METADATA_KEY));
  modify (set_affinity_backend_service (Some resource));;
  modify (set_affinity_backend_service_protocol (Some protocol)).

Definition delete_affinity_backend_service : bool -> M TrafficDirectorManager unit :=
  delete_resource make_resource_name AFFINITY_BACKEND_SERVICE_NAME
    (fun self => name <$> affinity_backend_service self)
    compute_delete_backend_service
    (set_affinity_backend_service None).

(** [f'{src_host}:{src_port}'] *)
Definition host_port (src_host : string) (src_port : Z) : string :=
  src_host ++ ":" ++ pretty src_port.

Definition create_url_map (src_host : string) (src_port : Z) :
  M TrafficDirectorManager GcpResource :=
  let src_address := host_port src_host src_port in
  nm ← make_resource_name URL_MAP_NAME;
  matcher_name ← make_resource_name URL_MAP_PATH_MATCHER_NAME;
  self ← get;
  bs ← deref "name" (backend_service self);
  resource ← request (compute_create_url_map nm matcher_name [src_address] bs);
  modify (set_url_map (Some resource));;
  mret resource.

Definition delete_url_map : bool -> M TrafficDirectorManager unit :=
  delete_resource make_resource_name URL_MAP_NAME
    (fun self => name <$> url_map self)
    compute_delete_url_map
    (set_url_map None).

(** The two branches of [create_target_proxy]: [target_proxy_type] together
    with the [create_proxy_fn] it stands for. *)
Inductive target_proxy_type : Type := GRPC_PROXY | HTTP_PROXY.

Definition create_proxy_fn (t : target_proxy_type) (nm : string) (um : GcpResource) :
  M TrafficDirectorManager GcpResource :=
  match t with
  | GRPC_PROXY => request (compute_create_target_grpc_proxy nm um)
  | HTTP_PROXY => request (compute_create_target_http_proxy nm um)
  end.

Definition create_target_proxy : M TrafficDirectorManager unit :=
  nm ← make_resource_name TARGET_PROXY_NAME;
  self ← get;
  t ← match backend_service_protocol self with
      | Some GRPC => modify (set_target_proxy_is_http false);; mret GRPC_PROXY
      | Some HTTP2 => modify (set_target_proxy_is_http true);; mret HTTP_PROXY
      | _ => raise (TypeError "Unexpected backend service protocol")
      end;
  self ← get;
  um ← deref "name" (url_map self);
  resource ← create_proxy_fn t nm um;
  modify (set_target_proxy (Some resource)).

Definition delete_target_grpc_proxy : bool -> M TrafficDirectorManager unit :=
  delete_resource make_resource_name TARGET_PROXY_NAME
    (fun self => name <$> target_proxy self)
    compute_delete_target_grpc_proxy
    (fun self => set_target_proxy_is_http false (set_target_proxy None self)).

Definition delete_target_http_proxy : bool -> M TrafficDirectorManager unit :=
  delete_resource make_resource_name TARGET_PROXY_NAME
    (fun self => if target_proxy_is_http self then name <$> target_proxy self else None)
    compute_delete_target_http_proxy
    (fun self => set_target_proxy_is_http false (set_target_proxy None self)).

(** [for attempts in range(attempts): ...] followed by the [raise]. *)
Fixpoint find_unused_forwarding_rule_port_loop (remaining : nat) (lo hi : Z) :
  M TrafficDirectorManager Z :=
  match remaining with
  | O => raise (RuntimeError "Couldn't find unused forwarding rule port")
  | Datatypes.S remaining =>
      src_port ← randint lo hi;
      occupied ← request (compute_exists_forwarding_rule src_port);
      if negb occupied then mret src_port
      else find_unused_forwarding_rule_port_loop remaining lo hi
  end.

Definition find_unused_forwarding_rule_port (lo hi attempts : Z) :
  M TrafficDirectorManager Z :=
  find_unused_forwarding_rule_port_loop (Z.to_nat attempts) lo hi.

Definition create_forwarding_rule (src_port : Z) : M TrafficDirectorManager GcpResource :=
  nm ← make_resource_name FORWARDING_RULE_NAME;
  self ← get;
  tp ← deref "url" (target_proxy self);
  resource ← request (compute_create_forwarding_rule nm src_port tp (network_url self));
  modify (set_forwarding_rule (Some resource));;
  mret resource.

Definition delete_forwarding_rule : bool -> M TrafficDirectorManager unit :=
  delete_resource make_resource_name FORWARDING_RULE_NAME
    (fun self => name <$> forwarding_rule self)
    compute_delete_forwarding_rule
    (set_forwarding_rule None).

Definition setup_backend_for_grpc (protocol : option BackendServiceProtocol)
  (health_check_port : option Z) : M TrafficDirectorManager unit :=
  create_health_check (Some _HealthCheckGRPC) health_check_port;;
  create_backend_service protocol.

Definition setup_routing_rule_map_for_grpc (service_host : string) (service_port : Z) :
  M TrafficDirectorManager unit :=
  create_url_map service_host service_port;;
  create_target_proxy;;
  create_forwarding_rule service_port;;
  mret tt.

Definition setup_for_grpc (service_host : string) (service_port : Z)
  (backend_protocol : option BackendServiceProtocol) (health_check_port : option Z) :
  M TrafficDirectorManager unit :=
  setup_backend_for_grpc backend_protocol health_check_port;;
  setup_routing_rule_map_for_grpc service_host service_port.

Definition cleanup (force : bool) : M TrafficDirectorManager unit :=
  delete_forwarding_rule force;;
  delete_target_http_proxy force;;
  delete_target_grpc_proxy force;;
  delete_url_map force;;
  delete_backend_service force;;
  delete_alternative_backend_service force;;
  delete_affinity_backend_service force;;
  delete_health_check force.

(** ** TrafficDirectorAppNetManager *)

Module AppNet.

Definition GRPC_ROUTE_NAME : string := "grpc-route".
Definition ROUTER_NAME : string := "router".

Record TrafficDirectorAppNetManager : Type :=
  { super : TrafficDirectorManager;
    grpc_route : option GrpcRoute;
    router : option Router }.

Definition set_super (v : TrafficDirectorManager) (self : TrafficDirectorAppNetManager) :=
  {| super := v; grpc_route := grpc_route self; router := router self |}.
Definition set_grpc_route (v : option GrpcRoute) (self : TrafficDirectorAppNetManager) :=
  {| super := super self; grpc_route := v; router := router self |}.
Definition set_router (v : option Router) (self : TrafficDirectorAppNetManager) :=
  {| super := super self; grpc_route := grpc_route self; router := v |}.

Definition new_manager (project_id resource_prefix_arg : string)
  (resource_suffix_arg : option string) (network_arg : string) :
  TrafficDirectorAppNetManager :=
  {| super := new_manager project_id resource_prefix_arg resource_suffix_arg network_arg;
     grpc_route := None; router := None |}.

(** An inherited method run on this instance. *)
Definition inherited {A} (m : M TrafficDirectorManager A) : M TrafficDirectorAppNetManager A :=
  lift super set_super m.

Definition create_router : M TrafficDirectorAppNetManager GcpResource :=
  nm ← inherited (make_resource_name ROUTER_NAME);
  self ← get;
  route ← deref "url" (grpc_route self);
  let body := JDict [("type", JStr "PROXYLESS_GRPC");
                     ("routes", JList [JStr (route_url route)]);
                     ("network", JStr "default")] in
  resource ← request (netsvc_create_router nm body);
  loaded ← request (netsvc_get_router nm);
  modify (set_router (Some loaded));;
  mret resource.

Definition delete_router : bool -> M TrafficDirectorAppNetManager unit :=
  delete_resource (fun nm => inherited (make_resource_name nm)) ROUTER_NAME
    (fun self => router_name <$> router self)
    netsvc_delete_router
    (set_router None).

Definition create_grpc_route (src_host : string) (src_port : Z) :
  M TrafficDirectorAppNetManager GcpResource :=
  let host := host_port src_host src_port in
  self ← get;
  bs ← deref "name" (backend_service (super self));
  let body :=
    JDict [("hostnames", JStr host);
           ("rules", JList [JDict [("action",
                JDict [("destination", JDict [("serviceName", JStr (name bs))])])]])] in
  nm ← inherited (make_resource_name GRPC_ROUTE_NAME);
  resource ← request (netsvc_create_grpc_route nm body);
  loaded ← request (netsvc_get_grpc_route nm);
  modify (set_grpc_route (Some loaded));;
  mret resource.

Definition delete_grpc_route : bool -> M TrafficDirectorAppNetManager unit :=
  delete_resource (fun nm => inherited (make_resource_name nm)) GRPC_ROUTE_NAME
    (fun self => route_name <$> grpc_route self)
    netsvc_delete_grpc_route
    (set_grpc_route None).

Definition cleanup (force : bool) : M TrafficDirectorAppNetManager unit :=
  delete_router force;;
  delete_grpc_route force;;
  inherited (cleanup force).

End AppNet.

(** ** TrafficDirectorSecureManager *)

Module Secure.

Definition SERVER_TLS_POLICY_NAME : string := "server-tls-policy".
Definition CLIENT_TLS_POLICY_NAME : string := "client-tls-policy".
Definition ENDPOINT_CONFIG_SELECTOR_NAME : string := "endpoint-policy".
Definition CERTIFICATE_PROVIDER_INSTANCE : string := "google_cloud_private_spiffe".

Record TrafficDirectorSecureManager : Type :=
  { super : TrafficDirectorManager;
    server_tls_policy : option ServerTlsPolicy;
    ecs : option EndpointConfigSelector;
    client_tls_policy : option ClientTlsPolicy }.

Definition set_super (v : TrafficDirectorManager) (self : TrafficDirectorSecureManager) :=
  {| super := v; server_tls_policy := server_tls_policy self; ecs := ecs self;
     client_tls_policy := client_tls_policy self |}.
Definition set_server_tls_policy (v : option ServerTlsPolicy)
  (self : TrafficDirectorSecureManager) :=
  {| super := super self; server_tls_policy := v; ecs := ecs self;
     client_tls_policy := client_tls_policy self |}.
Definition set_ecs (v : option EndpointConfigSelector) (self : TrafficDirectorSecureManager) :=
  {| super := super self; server_tls_policy := server_tls_policy self; ecs := v;
     client_tls_policy := client_tls_policy self |}.
Definition set_client_tls_policy (v : option ClientTlsPolicy)
  (self : TrafficDirectorSecureManager) :=
  {| super := super self; server_tls_policy := server_tls_policy self; ecs := ecs self;
     client_tls_policy := v |}.

Definition new_manager (project_id resource_prefix_arg : string)
  (resource_suffix_arg : option string) (network_arg : string) :
  TrafficDirectorSecureManager :=
  {| super := new_manager project_id resource_prefix_arg resource_suffix_arg network_arg;
     server_tls_policy := None; ecs := None; client_tls_policy := None |}.

(** An inherited method run on this instance. *)
Definition inherited {A} (m : M TrafficDirectorManager A) : M TrafficDirectorSecureManager A :=
  lift super set_super m.

Definition _get_certificate_provider : json :=
  JDict [("certificateProviderInstance",
          JDict [("pluginInstance", JStr CERTIFICATE_PROVIDER_INSTANCE)])].

Definition create_server_tls_policy (tls mtls : bool) : M TrafficDirectorSecureManager unit :=
  nm ← inherited (make_resource_name SERVER_TLS_POLICY_NAME);
  if negb tls && negb mtls then mret tt
  else
    let certificate_provider := _get_certificate_provider in
    let policy := [] in
    let policy :=
      if tls then dict_set "serverCertificate" certificate_provider policy else policy in
    let policy :=
      if mtls
      then dict_set "mtlsPolicy"
             (JDict [("clientValidationCa", JList [certificate_provider])]) policy
      else policy in
    request (netsec_create_server_tls_policy nm (JDict policy));;
    loaded ← request (netsec_get_server_tls_policy nm);
    modify (set_server_tls_policy (Some loaded)).

Definition delete_server_tls_policy : bool -> M TrafficDirectorSecureManager unit :=
  delete_resource (fun nm => inherited (make_resource_name nm)) SERVER_TLS_POLICY_NAME
    (fun self => server_policy_name <$> server_tls_policy self)
    netsec_delete_server_tls_policy
    (set_server_tls_policy None).

Definition create_endpoint_config_selector (server_namespace server_name : string)
  (server_port : Z) : M TrafficDirectorSecureManager unit :=
  nm ← inherited (make_resource_name ENDPOINT_CONFIG_SELECTOR_NAME);
  let endpoint_matcher_labels :=
    JList [JDict [("labelName", JStr "app");
                  ("labelValue", JStr (server_namespace ++ "-" ++ server_name))]] in
  let port_selector := JDict [("ports", JList [JStr (pretty server_port)])] in
  let label_matcher_all :=
    JDict [("metadataLabelMatchCriteria", JStr "MATCH_ALL");
           ("metadataLabels", endpoint_matcher_labels)] in
  let config :=
    [("type", JStr "GRPC_SERVER");
     ("httpFilters", JDict []);
     ("trafficPortSelector", port_selector);
     ("endpointMatcher", JDict [("metadataLabelMatcher", label_matcher_all)])] in
  self ← get;
  let config :=
    match server_tls_policy self with
    | Some policy => dict_set "serverTlsPolicy" (JStr (server_policy_name policy)) config
    | None => config
    end in
  request (netsvc_create_endpoint_config_selector nm (JDict config));;
  loaded ← request (netsvc_get_endpoint_config_selector nm);
  modify (set_ecs (Some loaded)).

Definition delete_endpoint_config_selector : bool -> M TrafficDirectorSecureManager unit :=
  delete_resource (fun nm => inherited (make_resource_name nm)) ENDPOINT_CONFIG_SELECTOR_NAME
    (fun self => ecs_name <$> ecs self)
    netsvc_delete_endpoint_config_selector
    (set_ecs None).

Definition create_client_tls_policy (tls mtls : bool) : M TrafficDirectorSecureManager unit :=
  nm ← inherited (make_resource_name CLIENT_TLS_POLICY_NAME);
  if negb tls && negb mtls then mret tt
  else
    let certificate_provider := _get_certificate_provider in
    let policy := [] in
    let policy :=
      if tls then dict_set "serverValidationCa" (JList [certificate_provider]) policy
      else policy in
    let policy :=
      if mtls then dict_set "clientCertificate" certificate_provider policy else policy in
    request (netsec_create_client_tls_policy nm (JDict policy));;
    loaded ← request (netsec_get_client_tls_policy nm);
    modify (set_client_tls_policy (Some loaded)).

Definition delete_client_tls_policy : bool -> M TrafficDirectorSecureManager unit :=
  delete_resource (fun nm => inherited (make_resource_name nm)) CLIENT_TLS_POLICY_NAME
    (fun self => client_policy_name <$> client_tls_policy self)
    netsec_delete_client_tls_policy
    (set_client_tls_policy None).

(** Both branches read [self.backend_service.name] for their log message. *)
Definition backend_service_apply_client_mtls_policy (server_namespace server_name : string) :
  M TrafficDirectorSecureManager unit :=
  self ← get;
  match client_tls_policy self with
  | None =>
      _ ← deref "name" (backend_service (super self));
      mret tt
  | Some policy =>
      let server_spiffe :=
        "spiffe://" ++ project (super self) ++ ".svc.id.goog/" ++
        "ns/" ++ server_namespace ++ "/sa/" ++ server_name in
      bs ← deref "name" (backend_service (super self));
      request (compute_patch_backend_service bs
                 (JDict [("securitySettings",
                          JDict [("clientTlsPolicy", JStr (client_policy_url policy));
                                 ("subjectAltNames", JList [JStr server_spiffe])])]))
  end.

Definition setup_server_security (server_namespace server_name : string) (server_port : Z)
  (tls mtls : bool) : M TrafficDirectorSecureManager unit :=
  create_server_tls_policy tls mtls;;
  create_endpoint_config_selector server_namespace server_name server_port.

Definition setup_client_security (server_namespace server_name : string)
  (tls mtls : bool) : M TrafficDirectorSecureManager unit :=
  create_client_tls_policy tls mtls;;
  backend_service_apply_client_mtls_policy server_namespace server_name.

Definition cleanup (force : bool) : M TrafficDirectorSecureManager unit :=
  inherited (cleanup force);;
  delete_endpoint_config_selector force;;
  delete_server_tls_policy force;;
  delete_client_tls_policy force.

End Secure.

(** ** API doubles and sample instances *)

(** The answer of an API that serves every request: creates and gets answer
    with a handle of the requested name, no forwarding rule is in use. *)
Definition served (c : call) : response c :=
  match c return response c with
  | compute_create_health_check nm _ _
  | compute_create_backend_service_traffic_director nm _ _ _
  | compute_get_backend_service_traffic_director nm
  | compute_create_url_map nm _ _ _
  | compute_create_target_grpc_proxy nm _
  | compute_create_target_http_proxy nm _
  | compute_create_forwarding_rule nm _ _ _
  | netsvc_create_router nm _
  | netsvc_create_grpc_route nm _ => {| name := nm; url := "global/" ++ nm |}
  | compute_wait_for_network_endpoint_group nm zn =>
      {| zonal_name := nm; zonal_url := "zones/" ++ zn ++ "/" ++ nm; zone := zn |}
  | compute_exists_forwarding_rule _ => false
  | netsec_get_server_tls_policy nm =>
      {| server_policy_name := nm; server_policy_url := "global/" ++ nm |}
  | netsec_get_client_tls_policy nm =>
      {| client_policy_name := nm; client_policy_url := "global/" ++ nm |}
  | netsvc_get_endpoint_config_selector nm => {| ecs_name := nm; ecs_url := "global/" ++ nm |}
  | netsvc_get_router nm => {| router_name := nm; router_url := "global/" ++ nm |}
  | netsvc_get_grpc_route nm => {| route_name := nm; route_url := "global/" ++ nm |}
  | compute_delete_health_check _ | compute_delete_backend_service _
  | compute_backend_service_add_backends _ _ | compute_patch_backend_service _ _
  | compute_delete_url_map _ | compute_delete_target_grpc_proxy _
  | compute_delete_target_http_proxy _ | compute_delete_forwarding_rule _
  | netsec_create_server_tls_policy _ _ | netsec_delete_server_tls_policy _
  | netsec_create_client_tls_policy _ _ | netsec_delete_client_tls_policy _
  | netsvc_create_endpoint_config_selector _ _ | netsvc_delete_endpoint_config_selector _
  | netsvc_delete_router _ | netsvc_delete_grpc_route _ => tt
  end.

(** An API on which no request fails. *)
Definition serving : env :=
  {| remote := fun _ c => inr (served c); entropy := fun n => Z.of_nat n |}.


(** An API on which every port already carries a forwarding rule. *)
Definition all_ports_taken : env :=
  {| remote := fun _ c =>
       match c return exn + response c with
       | compute_exists_forwarding_rule p => inr true
       | c => inr (served c)
       end;
     entropy := fun n => Z.of_nat n |}.

Definition fresh_world : world := {| log := []; draws := O |}.

(** ** Vocabulary of the statements *)

(** From here on [++] appends lists; strings are appended with [+:+]. *)
Open Scope list_scope.

(** The resource kinds of the three managers and the base name of each. *)
Inductive ResourceKind : Type :=
| KHealthCheck | KBackendService | KAlternativeBackendService | KAffinityBackendService
| KUrlMap | KTargetProxy | KForwardingRule | KFirewallRule
| KRouter | KGrpcRoute | KServerTlsPolicy | KClientTlsPolicy | KEndpointConfigSelector.

Definition base_name (k : ResourceKind) : string :=
  match k with
  | KHealthCheck => HEALTH_CHECK_NAME
  | KBackendService => BACKEND_SERVICE_NAME
  | KAlternativeBackendService => ALTERNATIVE_BACKEND_SERVICE_NAME
  | KAffinityBackendService => AFFINITY_BACKEND_SERVICE_NAME
  | KUrlMap => URL_MAP_NAME
  | KTargetProxy => TARGET_PROXY_NAME
  | KForwardingRule => FORWARDING_RULE_NAME
  | KFirewallRule => FIREWALL_RULE_NAME
  | KRouter => AppNet.ROUTER_NAME
  | KGrpcRoute => AppNet.GRPC_ROUTE_NAME
  | KServerTlsPolicy => Secure.SERVER_TLS_POLICY_NAME
  | KClientTlsPolicy => Secure.CLIENT_TLS_POLICY_NAME
  | KEndpointConfigSelector => Secure.ENDPOINT_CONFIG_SELECTOR_NAME
  end.

(** What [make_resource_name nm] answers on the instance [self]. *)
Definition resource_name (self : TrafficDirectorManager) (nm : string) : string :=
  default (make_resource_name_body self nm) (make_resource_name_cache self !! nm).

(** The instance after [make_resource_name nm] has run on it. *)
Definition memoize (nm : string) (self : TrafficDirectorManager) : TrafficDirectorManager :=
  set_make_resource_name_cache
    (<[nm := resource_name self nm]> (make_resource_name_cache self)) self.

(** Every memoized name is the one the body would compute now. *)
Definition cache_coherent (self : TrafficDirectorManager) : Prop :=
  forall nm, resource_name self nm = make_resource_name_body self nm.

(** Two instances that derive the same names. *)
Definition same_naming (s s' : TrafficDirectorManager) : Prop :=
  resource_prefix s' = resource_prefix s /\
  resource_suffix s' = resource_suffix s /\
  forall nm, resource_name s' nm = resource_name s nm.

(** A computation that leaves name derivation as it found it. *)
Definition keeps_naming {A} (m : M TrafficDirectorManager A) : Prop :=
  forall e w s, same_naming s (st (m e w s)).

(** The requests made by a run that started in world [w]. *)
Definition new_calls {S A} (w : world) (r : outcome S A) : list call :=
  drop (length (log w)) (log (wld r)).

Fixpoint last_char (s : string) : option Ascii.ascii :=
  match s with
  | EmptyString => None
  | String c EmptyString => Some c
  | String _ rest => last_char rest
  end.

Definition dash : Ascii.ascii := Ascii.Ascii true false true true false true false false.

(** The exception an answer carries, if it is one. *)
Definition failure_of {A} (a : exn + A) : option exn :=
  match a with inl x => Some x | inr _ => None end.


(** No handle is recorded for any kind that [cleanup] deletes. *)
Definition nothing_recorded (self : TrafficDirectorManager) : Prop :=
  forwarding_rule self = None /\ target_proxy self = None /\ url_map self = None /\
  backend_service self = None /\ alternative_backend_service self = None /\
  affinity_backend_service self = None /\ health_check self = None.

Definition appnet_nothing_recorded (self : AppNet.TrafficDirectorAppNetManager) : Prop :=
  AppNet.router self = None /\ AppNet.grpc_route self = None /\
  nothing_recorded (AppNet.super self).

Definition secure_nothing_recorded (self : Secure.TrafficDirectorSecureManager) : Prop :=
  Secure.ecs self = None /\ Secure.server_tls_policy self = None /\
  Secure.client_tls_policy self = None /\ nothing_recorded (Secure.super self).

(** The request one [delete_*] method makes, if any: by derived name when
    forced, by recorded name otherwise. *)
Definition deletion (force : bool) (derived : string) (tracked : option string)
  (delete_call : string -> call) : list call :=
  match (if force then Some derived else tracked) with
  | Some nm => [delete_call nm]
  | None => []
  end.

(** The requests [cleanup] makes on [self] when none of them fails. *)
Definition cleanup_plan (force : bool) (self : TrafficDirectorManager) : list call :=
  deletion force (resource_name self FORWARDING_RULE_NAME)
    (name <$> forwarding_rule self) compute_delete_forwarding_rule ++
  deletion force (resource_name self TARGET_PROXY_NAME)
    (if target_proxy_is_http self then name <$> target_proxy self else None)
    compute_delete_target_http_proxy ++
  deletion force (resource_name self TARGET_PROXY_NAME)
    (if target_proxy_is_http self then None else name <$> target_proxy self)
    compute_delete_target_grpc_proxy ++
  deletion force (resource_name self URL_MAP_NAME)
    (name <$> url_map self) compute_delete_url_map ++
  deletion force (resource_name self BACKEND_SERVICE_NAME)
    (name <$> backend_service self) compute_delete_backend_service ++
  deletion force (resource_name self ALTERNATIVE_BACKEND_SERVICE_NAME)
    (name <$> alternative_backend_service self) compute_delete_backend_service ++
  deletion force (resource_name self AFFINITY_BACKEND_SERVICE_NAME)
    (name <$> affinity_backend_service self) compute_delete_backend_service ++
  deletion force (resource_name self HEALTH_CHECK_NAME)
    (name <$> health_check self) compute_delete_health_check.

Definition appnet_cleanup_plan (force : bool) (self : AppNet.TrafficDirectorAppNetManager) :
  list call :=
  deletion force (resource_name (AppNet.super self) AppNet.ROUTER_NAME)
    (router_name <$> AppNet.router self) netsvc_delete_router ++
  deletion force (resource_name (AppNet.super self) AppNet.GRPC_ROUTE_NAME)
    (route_name <$> AppNet.grpc_route self) netsvc_delete_grpc_route ++
  cleanup_plan force (AppNet.super self).

Definition secure_cleanup_plan (force : bool) (self : Secure.TrafficDirectorSecureManager) :
  list call :=
  cleanup_plan force (Secure.super self) ++
  deletion force (resource_name (Secure.super self) Secure.ENDPOINT_CONFIG_SELECTOR_NAME)
    (ecs_name <$> Secure.ecs self) netsvc_delete_endpoint_config_selector ++
  deletion force (resource_name (Secure.super self) Secure.SERVER_TLS_POLICY_NAME)
    (server_policy_name <$> Secure.server_tls_policy self) netsec_delete_server_tls_policy ++
  deletion force (resource_name (Secure.super self) Secure.CLIENT_TLS_POLICY_NAME)
    (client_policy_name <$> Secure.client_tls_policy self) netsec_delete_client_tls_policy.

(** [m] works through [plan] request by request and stops at the first one
    that fails: the requests made are the first [k] of the plan, a normal
    return means all of them were made, and an exception is the answer to
    the last one made. *)
Definition runs_plan {S} (m : M S unit) (plan : S -> list call) : Prop :=
  forall e w s,
    let r := m e w s in
    exists k : nat,
      (k <= length (plan s))%nat /\
      log (wld r) = log w ++ take k (plan s) /\
      match res r with
      | inr _ => k = length (plan s)
      | inl x =>
          exists c, plan s !! pred k = Some c /\ (0 < k)%nat /\
            failure_of (remote e (log w ++ take (pred k) (plan s)) c) = Some x
      end.

(** The backends found by polling [zones] in order from history [h], up to
    the first poll that fails. *)
Fixpoint poll_zones (e : env) (h : list call) (nm : string) (zones : list string) :
  list ZonalGcpResource :=
  match zones with
  | [] => []
  | zn :: zones =>
      match remote e h (compute_wait_for_network_endpoint_group nm zn) with
      | inr backend =>
          backend :: poll_zones e (h ++ [compute_wait_for_network_endpoint_group nm zn]) nm zones
      | inl _ => []
      end
  end.

(** One round of the loop of [backend_service_add_neg_backends]. *)
Definition poll_body (nm zn : string) : M TrafficDirectorManager unit :=
  backend ← request (compute_wait_for_network_endpoint_group nm zn);
  modify (fun self => set_backends (backends self ∪ {[ backend ]}) self).

(** The kind a create request creates and the kind a delete request deletes.
    The three backend services share their requests and differ by name only. *)
Definition created_kind (c : call) : option ResourceKind :=
  match c with
  | compute_create_health_check _ _ _ => Some KHealthCheck
  | compute_create_backend_service_traffic_director _ _ _ _ => Some KBackendService
  | compute_create_url_map _ _ _ _ => Some KUrlMap
  | compute_create_target_grpc_proxy _ _ | compute_create_target_http_proxy _ _ =>
      Some KTargetProxy
  | compute_create_forwarding_rule _ _ _ _ => Some KForwardingRule
  | netsec_create_server_tls_policy _ _ => Some KServerTlsPolicy
  | netsec_create_client_tls_policy _ _ => Some KClientTlsPolicy
  | netsvc_create_endpoint_config_selector _ _ => Some KEndpointConfigSelector
  | netsvc_create_router _ _ => Some KRouter
  | netsvc_create_grpc_route _ _ => Some KGrpcRoute
  | _ => None
  end.

Definition deleted_kind (c : call) : option ResourceKind :=
  match c with
  | compute_delete_health_check _ => Some KHealthCheck
  | compute_delete_backend_service _ => Some KBackendService
  | compute_delete_url_map _ => Some KUrlMap
  | compute_delete_target_grpc_proxy _ | compute_delete_target_http_proxy _ =>
      Some KTargetProxy
  | compute_delete_forwarding_rule _ => Some KForwardingRule
  | netsec_delete_server_tls_policy _ => Some KServerTlsPolicy
  | netsec_delete_client_tls_policy _ => Some KClientTlsPolicy
  | netsvc_delete_endpoint_config_selector _ => Some KEndpointConfigSelector
  | netsvc_delete_router _ => Some KRouter
  | netsvc_delete_grpc_route _ => Some KGrpcRoute
  | _ => None
  end.

(** The port drawn at the [i]-th attempt of a port search started in world
    [w], and the existence checks of the first [n] attempts. *)
Definition sampled_port (e : env) (w : world) (lo hi : Z) (i : nat) : Z :=
  lo + entropy e (draws w + i) mod (hi - lo + 1).

Definition port_checks (e : env) (w : world) (lo hi : Z) (n : nat) : list call :=
  map (fun i => compute_exists_forwarding_rule (sampled_port e w lo hi i)) (seq 0 n).

Definition is_add_backends (c : call) : bool :=
  match c with compute_backend_service_add_backends _ _ => true | _ => false end.

(** Sample instances: a base manager and a secure manager as constructed, and
    the same after the setup sequences ran against the serving API. *)
Definition sample_manager : TrafficDirectorManager :=
  new_manager "grpc-testing" "psm-interop" (Some "20211101") "default".

Definition sample_manager_set_up : outcome TrafficDirectorManager unit :=
  setup_for_grpc "svc.local" 8080 None None serving fresh_world sample_manager.

Definition sample_secure_manager : Secure.TrafficDirectorSecureManager :=
  Secure.new_manager "grpc-testing" "psm-interop" None "default".

Definition secure_setup : M Secure.TrafficDirectorSecureManager unit :=
  Secure.inherited (setup_for_grpc "svc.local" 8080 None None);;
  Secure.setup_server_security "ns" "server" 8080 true true;;
  Secure.setup_client_security "ns" "server" true true.

Definition sample_secure_manager_set_up : outcome Secure.TrafficDirectorSecureManager unit :=
  secure_setup serving fresh_world sample_secure_manager.

Definition sample_appnet_manager : AppNet.TrafficDirectorAppNetManager :=
  AppNet.new_manager "grpc-testing" "psm-interop" None "default".

(** The route-based manager after a health check, a backend service, a route
    and a router were created against the serving API. *)
Definition appnet_setup : M AppNet.TrafficDirectorAppNetManager unit :=
  AppNet.inherited (setup_backend_for_grpc None None);;
  AppNet.create_grpc_route "svc.local" 8080;;
  AppNet.create_router;;
  mret tt.

Definition sample_appnet_manager_set_up : outcome AppNet.TrafficDirectorAppNetManager unit :=
  appnet_setup serving fresh_world sample_appnet_manager.

(** ** Further methods of TrafficDirectorManager *)

Definition set_alternative_backends (v : gset ZonalGcpResource)
  (self : TrafficDirectorManager) : TrafficDirectorManager :=
  {| project := project self; network := network self; resource_prefix :=
     resource_prefix self; resource_suffix := resource_suffix self; health_check :=
     health_check self; backend_service := backend_service self;
     backend_service_protocol := backend_service_protocol self; url_map := url_map self;
     firewall_rule := firewall_rule self; target_proxy := target_proxy self;
     target_proxy_is_http := target_proxy_is_http self; forwarding_rule :=
     forwarding_rule self; backends := backends self; alternative_backend_service :=
     alternative_backend_service self; alternative_backend_service_protocol :=
     alternative_backend_service_protocol self; alternative_backends := v;
     affinity_backend_service := affinity_backend_service self;
     affinity_backend_service_protocol := affinity_backend_service_protocol self;
     affinity_backends := affinity_backends self; make_resource_name_cache :=
     make_resource_name_cache self |}.

Definition set_affinity_backends (v : gset ZonalGcpResource)
  (self : TrafficDirectorManager) : TrafficDirectorManager :=
  {| project := project self; network := network self; resource_prefix :=
     resource_prefix self; resource_suffix := resource_suffix self; health_check :=
     health_check self; backend_service := backend_service self;
     backend_service_protocol := backend_service_protocol self; url_map := url_map self;
     firewall_rule := firewall_rule self; target_proxy := target_proxy self;
     target_proxy_is_http := target_proxy_is_http self; forwarding_rule :=
     forwarding_rule self; backends := backends self; alternative_backend_service :=
     alternative_backend_service self; alternative_backend_service_protocol :=
     alternative_backend_service_protocol self; alternative_backends :=
     alternative_backends self; affinity_backend_service := affinity_backend_service
     self; affinity_backend_service_protocol := affinity_backend_service_protocol self;
     affinity_backends := v; make_resource_name_cache := make_resource_name_cache self
     |}.

Definition load_alternative_backend_service : M TrafficDirectorManager unit :=
  nm ← make_resource_name ALTERNATIVE_BACKEND_SERVICE_NAME;
  resource ← request (compute_get_backend_service_traffic_director nm);
  modify (set_alternative_backend_service (Some resource)).

Definition alternative_backend_service_add_backends : M TrafficDirectorManager unit :=
  self ← get;
  bs ← deref "name" (alternative_backend_service self);
  request (compute_backend_service_add_backends bs (alternative_backends self)).

Definition alternative_backend_service_add_neg_backends (nm : string) (zones : list string) :
  M TrafficDirectorManager unit :=
  for_each zones (fun zn =>
    backend ← request (compute_wait_for_network_endpoint_group nm zn);
    modify (fun self =>
              set_alternative_backends (alternative_backends self ∪ {[ backend ]}) self));;
  alternative_backend_service_add_backends.

Definition load_affinity_backend_service : M TrafficDirectorManager unit :=
  nm ← make_resource_name AFFINITY_BACKEND_SERVICE_NAME;
  resource ← request (compute_get_backend_service_traffic_director nm);
  modify (set_affinity_backend_service (Some resource)).

Definition affinity_backend_service_add_backends : M TrafficDirectorManager unit :=
  self ← get;
  bs ← deref "name" (affinity_backend_service self);
  request (compute_backend_service_add_backends bs (affinity_backends self)).

Definition affinity_backend_service_add_neg_backends (nm : string) (zones : list string) :
  M TrafficDirectorManager unit :=
  for_each zones (fun zn =>
    backend ← request (compute_wait_for_network_endpoint_group nm zn);
    modify (fun self => set_affinity_backends (affinity_backends self ∪ {[ backend ]}) self));;
  affinity_backend_service_add_backends.

(** ** Further vocabulary *)

(** An API on which no delete request fails. *)
Definition deletes_served (e : env) : Prop :=
  forall h c, is_Some (deleted_kind c) -> failure_of (remote e h c) = None.


(** Whenever [m] starts on an instance satisfying [P] and returns normally,
    it leaves an instance satisfying [Q]. *)
Definition ensures {S A} (P : S -> Prop) (m : M S A) (Q : S -> Prop) : Prop :=
  forall e w s a, P s -> res (m e w s) = inr a -> Q (st (m e w s)).

(** The loop of the three [*_add_neg_backends] methods, over the attribute
    that holds the backends: [held] reads it and [hold] assigns it. *)
Definition poll_into (held : TrafficDirectorManager -> gset ZonalGcpResource)
  (hold : gset ZonalGcpResource -> TrafficDirectorManager -> TrafficDirectorManager)
  (nm zn : string) : M TrafficDirectorManager unit :=
  backend ← request (compute_wait_for_network_endpoint_group nm zn);
  modify (fun self => hold (held self ∪ {[ backend ]}) self).


(** The config that [create_endpoint_config_selector] builds before it looks
    at the server TLS policy. *)
Definition endpoint_config (server_namespace server_name : string) (server_port : Z) :
  list (string * json) :=
  [("type", JStr "GRPC_SERVER");
   ("httpFilters", JDict []);
   ("trafficPortSelector", JDict [("ports", JList [JStr (pretty server_port)])]);
   ("endpointMatcher",
    JDict [("metadataLabelMatcher",
            JDict [("metadataLabelMatchCriteria", JStr "MATCH_ALL");
                   ("metadataLabels",
                    JList [JDict [("labelName", JStr "app");
                                  ("labelValue",
                                   JStr (server_namespace +:+ "-" +:+ server_name))]])])])].

(** The documents of the two TLS policies, by the flags. *)
Definition server_policy_document (tls mtls : bool) : json :=
  JDict ((if tls then [("serverCertificate", Secure._get_certificate_provider)] else []) ++
         (if mtls
          then [("mtlsPolicy",
                 JDict [("clientValidationCa", JList [Secure._get_certificate_provider])])]
          else [])).

Definition client_policy_document (tls mtls : bool) : json :=
  JDict ((if tls
          then [("serverValidationCa", JList [Secure._get_certificate_provider])]
          else []) ++
         (if mtls then [("clientCertificate", Secure._get_certificate_provider)] else [])).

(** The body with which [backend_service_apply_client_mtls_policy] patches
    the backend service. *)
Definition security_settings (policy_url project_id server_namespace server_name : string) :
  json :=
  JDict [("securitySettings",
          JDict [("clientTlsPolicy", JStr policy_url);
                 ("subjectAltNames",
                  JList [JStr ("spiffe://" +:+ project_id +:+ ".svc.id.goog/" +:+
                               "ns/" +:+ server_namespace +:+ "/sa/" +:+ server_name)])])].

(** The world after one more request. *)
Definition after_request (w : world) (c : call) : world :=
  {| log := log w ++ [c]; draws := draws w |}.

(** What follows a finished run: on an exception nothing, on a normal return
    the continuation, from the world and the instance the run left. *)
Definition and_then {S A B} (r : outcome S A) (k : A -> world -> S -> outcome S B) :
  outcome S B :=
  match res r with
  | inl x => {| res := inl x; st := st r; wld := wld r |}
  | inr a => k a (wld r) (st r)
  end.

(** A base manager that records an alternative backend service. *)
Definition sample_manager_with_alternative : TrafficDirectorManager :=
  st (create_alternative_backend_service None serving fresh_world sample_manager).

(** An API on which polling the second zone of a list fails. *)
Definition second_poll_fails : env :=
  {| remote := fun h c =>
       match c return exn + response c with
       | compute_wait_for_network_endpoint_group nm zn =>
           if (length h =? 1)%nat then inl (RemoteError "timeout")
           else inr (served (compute_wait_for_network_endpoint_group nm zn))
       | c => inr (served c)
       end;
     entropy := fun n => Z.of_nat n |}.

(** An API on which ports are taken except the third one sampled. *)
Definition third_port_free : env :=
  {| remote := fun h c =>
       match c return exn + response c with
       | compute_exists_forwarding_rule p => inr (negb (length h =? 2)%nat)
       | c => inr (served c)
       end;
     entropy := fun n => Z.of_nat n |}.

(** * Properties *)

(** ** Running the monad *)

Ltac unfold_monad :=
  unfold mbind, M_bind, mret, M_ret, bind, ret, get, modify, raise, request, deref, lift in *.

Lemma bind_run {S A B} (m : M S A) (k : A -> M S B) e w s :
  (m ≫= k) e w s =
  match res (m e w s) with
  | inl x => {| res := inl x; st := st (m e w s); wld := wld (m e w s) |}
  | inr a => k a e (wld (m e w s)) (st (m e w s))
  end.
Proof. reflexivity. Qed.

Lemma set_cache_same self :
  set_make_resource_name_cache (make_resource_name_cache self) self = self.
Proof. destruct self; reflexivity. Qed.

Lemma make_resource_name_run e w self nm :
  make_resource_name nm e w self =
  {| res := inr (resource_name self nm); st := memoize nm self; wld := w |}.
Proof.
  unfold make_resource_name, memoize, resource_name. unfold_monad. simpl.
  destruct (make_resource_name_cache self !! nm) as [cached|] eqn:Hhit; simpl.
  - rewrite insert_id by exact Hhit. rewrite set_cache_same. reflexivity.
  - reflexivity.
Qed.

Lemma resource_name_memoize self k nm :
  resource_name (memoize k self) nm = resource_name self nm.
Proof.
  unfold resource_name at 1. unfold memoize at 1. simpl.
  destruct (decide (k = nm)) as [->|Hne].
  - rewrite lookup_insert_eq. reflexivity.
  - rewrite lookup_insert_ne by exact Hne. reflexivity.
Qed.

Lemma memoize_twice self nm : memoize nm (memoize nm self) = memoize nm self.
Proof.
  unfold memoize at 1. rewrite resource_name_memoize.
  unfold memoize. simpl. rewrite insert_insert_eq. reflexivity.
Qed.

Lemma new_manager_coherent p prefix suffix net :
  cache_coherent (new_manager p prefix suffix net).
Proof. intros nm. reflexivity. Qed.

Lemma memoize_coherent self nm : cache_coherent self -> cache_coherent (memoize nm self).
Proof. intros H k. rewrite resource_name_memoize. apply H. Qed.

Lemma make_resource_name_body_eq self nm :
  make_resource_name_body self nm =
  if truthy (resource_suffix self)
  then resource_prefix self +:+ "-" +:+ nm +:+ "-" +:+ default "" (resource_suffix self)
  else resource_prefix self +:+ "-" +:+ nm.
Proof.
  unfold make_resource_name_body.
  destruct (truthy (resource_suffix self)); reflexivity.
Qed.

Lemma last_char_append a b : b <> "" -> last_char (a +:+ b) = last_char b.
Proof.
  intros Hb. induction a as [|c a IH]; [reflexivity|].
  change (String c a +:+ b) with (String c (a +:+ b)).
  simpl. rewrite IH.
  destruct (a +:+ b) eqn:Hab; [|reflexivity].
  destruct a; simpl in Hab; [contradiction|discriminate].
Qed.

Lemma base_name_no_trailing_dash k :
  base_name k <> "" /\ last_char (base_name k) <> Some dash.
Proof. destruct k; split; vm_compute; discriminate. Qed.

(** C6. [make_resource_name] makes no request; a repeated call answers with
    the same string and leaves the instance as the first call left it; on an
    instance whose memo table is coherent the answer is the prefix, the
    kind's base name and the suffix joined by dashes, the suffix segment and
    its dash being left out when the suffix is empty or [None], so that the
    name then does not end in a dash. *)
Theorem make_resource_name_stable e w self (k : ResourceKind) :
  cache_coherent self ->
  let first := make_resource_name (base_name k) e w self in
  let second := make_resource_name (base_name k) e (wld first) (st first) in
  wld first = w /\ wld second = w /\
  res second = res first /\ st second = st first /\
  res first =
    inr (if truthy (resource_suffix self)
         then resource_prefix self +:+ "-" +:+ base_name k +:+ "-" +:+
              default "" (resource_suffix self)
         else resource_prefix self +:+ "-" +:+ base_name k) /\
  (truthy (resource_suffix self) = false ->
   res first = inr (resource_prefix self +:+ "-" +:+ base_name k) /\
   last_char (resource_prefix self +:+ "-" +:+ base_name k) <> Some dash).
Proof.
  intros Hcoh first second. subst first second.
  rewrite !make_resource_name_run. simpl.
  rewrite resource_name_memoize, memoize_twice.
  rewrite (Hcoh (base_name k)), make_resource_name_body_eq.
  split; [reflexivity|]. split; [reflexivity|]. split; [reflexivity|].
  split; [reflexivity|]. split; [reflexivity|].
  intros ->. split; [reflexivity|].
  destruct (base_name_no_trailing_dash k) as [Hne Hlast].
  rewrite last_char_append.
  - rewrite last_char_append; assumption.
  - destruct (base_name k); [contradiction|discriminate].
Qed.

Lemma make_resource_name_stable_witness :
  cache_coherent sample_manager /\
  res (make_resource_name (base_name KHealthCheck) serving fresh_world sample_manager)
  = inr "psm-interop-health-check-20211101".
Proof.
  assert (cache_coherent sample_manager) as Hcoh by (intros nm; reflexivity).
  split; [exact Hcoh|].
  destruct (make_resource_name_stable serving fresh_world sample_manager KHealthCheck Hcoh)
    as (_ & _ & _ & _ & Hname & _).
  exact Hname.
Defined.

(** ** Creation *)






(** C5. [create_target_proxy] follows the recorded backend-service protocol:
    for [GRPC] it clears [target_proxy_is_http] and, given a URL map, its one
    request is [create_target_grpc_proxy]; for [HTTP2] it sets the flag and
    the request is [create_target_http_proxy]; the handle answered is
    recorded.  For any other protocol, and for none, it raises [TypeError]
    and has made no request. *)
Theorem create_target_proxy_by_protocol e w self :
  let r := create_target_proxy e w self in
  let nm := resource_name self TARGET_PROXY_NAME in
  match backend_service_protocol self with
  | Some GRPC =>
      target_proxy_is_http (st r) = false /\
      forall um, url_map self = Some um ->
        log (wld r) = log w ++ [compute_create_target_grpc_proxy nm um] /\
        forall proxy, remote e (log w) (compute_create_target_grpc_proxy nm um) = inr proxy ->
          res r = inr tt /\ target_proxy (st r) = Some proxy
  | Some HTTP2 =>
      target_proxy_is_http (st r) = true /\
      forall um, url_map self = Some um ->
        log (wld r) = log w ++ [compute_create_target_http_proxy nm um] /\
        forall proxy, remote e (log w) (compute_create_target_http_proxy nm um) = inr proxy ->
          res r = inr tt /\ target_proxy (st r) = Some proxy
  | _ =>
      res r = inl (TypeError "Unexpected backend service protocol") /\ wld r = w
  end.
Proof.
  intros r nm. subst r nm. unfold create_target_proxy.
  rewrite bind_run, make_resource_name_run. simpl.
  unfold_monad. simpl.
  destruct (backend_service_protocol self) as [[| |other]|] eqn:Hp; simpl.
  - destruct (url_map self) as [um|] eqn:Hum; simpl.
    + destruct (remote e (log w) _) as [x|proxy] eqn:Hr; simpl;
        (split; [reflexivity|]); intros um' [= <-]; (split; [reflexivity|]);
        intros proxy' Hp'; rewrite Hr in Hp'; [discriminate|].
      injection Hp' as <-. split; reflexivity.
    + split; [reflexivity|]. intros um' [=].
  - destruct (url_map self) as [um|] eqn:Hum; simpl.
    + destruct (remote e (log w) _) as [x|proxy] eqn:Hr; simpl;
        (split; [reflexivity|]); intros um' [= <-]; (split; [reflexivity|]);
        intros proxy' Hp'; rewrite Hr in Hp'; [discriminate|].
      injection Hp' as <-. split; reflexivity.
    + split; [reflexivity|]. intros um' [=].
  - split; reflexivity.
  - split; reflexivity.
Qed.

Lemma create_target_proxy_by_protocol_witness :
  log (wld (create_target_proxy serving fresh_world (st sample_manager_set_up))) =
  [compute_create_target_grpc_proxy "psm-interop-target-proxy-20211101"
     {| name := "psm-interop-url-map-20211101"; url := "global/psm-interop-url-map-20211101" |}].
Proof.
  pose proof (create_target_proxy_by_protocol serving fresh_world (st sample_manager_set_up))
    as H.
  vm_compute in H. destruct H as [_ H].
  destruct (H _ eq_refl) as [Hlog _]. exact Hlog.
Defined.

(** ** Skipped creations *)

(** C9. With [tls] and [mtls] both false, [create_server_tls_policy] and
    [create_client_tls_policy] return without a request; the only change to
    the instance is the memoized policy name, so the policy attribute keeps
    its value, [None] where it was [None]. *)
Theorem tls_policy_creation_skipped e w self :
  Secure.create_server_tls_policy false false e w self =
    {| res := inr tt;
       st := Secure.set_super (memoize Secure.SERVER_TLS_POLICY_NAME (Secure.super self)) self;
       wld := w |} /\
  Secure.create_client_tls_policy false false e w self =
    {| res := inr tt;
       st := Secure.set_super (memoize Secure.CLIENT_TLS_POLICY_NAME (Secure.super self)) self;
       wld := w |} /\
  Secure.server_tls_policy
    (st (Secure.create_server_tls_policy false false e w self)) =
    Secure.server_tls_policy self /\
  Secure.client_tls_policy
    (st (Secure.create_client_tls_policy false false e w self)) =
    Secure.client_tls_policy self.
Proof.
  unfold Secure.create_server_tls_policy, Secure.create_client_tls_policy, Secure.inherited.
  rewrite !bind_run. unfold lift. rewrite !make_resource_name_run. simpl.
  repeat split.
Qed.

(** C10. Without a recorded client TLS policy,
    [backend_service_apply_client_mtls_policy] makes no request and leaves
    the instance untouched; it returns normally when a backend service is
    recorded (its log line reads the service's name).  With a recorded policy
    and backend service, its one request is the patch of that service with
    the policy's URL. *)
Theorem client_mtls_policy_patch_needs_policy e w self server_namespace server_name :
  let r := Secure.backend_service_apply_client_mtls_policy
             server_namespace server_name e w self in
  (Secure.client_tls_policy self = None ->
     wld r = w /\ st r = self /\
     forall bs, backend_service (Secure.super self) = Some bs -> res r = inr tt) /\
  (forall policy bs,
     Secure.client_tls_policy self = Some policy ->
     backend_service (Secure.super self) = Some bs ->
     log (wld r) =
     log w ++
     [compute_patch_backend_service bs
        (JDict [("securitySettings",
                 JDict [("clientTlsPolicy", JStr (client_policy_url policy));
                        ("subjectAltNames",
                         JList [JStr ("spiffe://" +:+ project (Secure.super self) +:+
                                      ".svc.id.goog/" +:+ "ns/" +:+ server_namespace +:+
                                      "/sa/" +:+ server_name)])])])]).
Proof.
  intros r. subst r. unfold Secure.backend_service_apply_client_mtls_policy.
  unfold_monad. simpl. split.
  - intros ->. destruct (backend_service (Secure.super self)); simpl.
    + repeat split.
    + split; [reflexivity|]. split; [reflexivity|]. intros bs [=].
  - intros policy bs -> ->. reflexivity.
Qed.

(** Without a recorded backend service the skipped branch raises, still
    without a request. *)
Lemma client_mtls_policy_no_backend_service e w self server_namespace server_name :
  Secure.client_tls_policy self = None ->
  backend_service (Secure.super self) = None ->
  Secure.backend_service_apply_client_mtls_policy server_namespace server_name e w self =
  {| res := inl (AttributeError "'NoneType' object has no attribute 'name'");
     st := self; wld := w |}.
Proof.
  intros Hc Hb. unfold Secure.backend_service_apply_client_mtls_policy.
  unfold_monad. simpl. rewrite Hc, Hb. reflexivity.
Qed.

(** ** Cleanup of an instance that records nothing *)

Lemma delete_resource_untracked {S} (make_name : string -> M S string) base_name
  (tracked : S -> option string) delete_call forget e w s :
  tracked s = None ->
  delete_resource make_name base_name tracked delete_call forget false e w s =
  {| res := inr tt; st := s; wld := w |}.
Proof. intros H. unfold delete_resource. unfold_monad. simpl. rewrite H. reflexivity. Qed.

Lemma cleanup_nothing_recorded e w self :
  nothing_recorded self -> cleanup false e w self = {| res := inr tt; st := self; wld := w |}.
Proof.
  intros (Hfr & Htp & Hum & Hbs & Halt & Haff & Hhc).
  unfold cleanup, delete_forwarding_rule, delete_target_http_proxy, delete_target_grpc_proxy,
    delete_url_map, delete_backend_service, delete_alternative_backend_service,
    delete_affinity_backend_service, delete_health_check.
  repeat (rewrite bind_run, delete_resource_untracked;
          [simpl | first [ by rewrite ?Hfr, ?Htp, ?Hum, ?Hbs, ?Halt, ?Haff, ?Hhc
                         | by rewrite Htp; destruct (target_proxy_is_http self) ]]).
  apply delete_resource_untracked. by rewrite Hhc.
Qed.

(** C8. A non-forced [cleanup] of an instance that records no resource, in
    each of the three manager classes, returns normally, makes no request and
    leaves the instance exactly as it was. *)
Theorem cleanup_of_nothing e w self appnet secure :
  nothing_recorded self ->
  appnet_nothing_recorded appnet ->
  secure_nothing_recorded secure ->
  cleanup false e w self = {| res := inr tt; st := self; wld := w |} /\
  AppNet.cleanup false e w appnet = {| res := inr tt; st := appnet; wld := w |} /\
  Secure.cleanup false e w secure = {| res := inr tt; st := secure; wld := w |}.
Proof.
  intros Hbase (Hrouter & Hroute & Hsuper) (Hecs & Hserver & Hclient & Hsuper').
  split; [exact (cleanup_nothing_recorded e w self Hbase)|]. split.
  - destruct appnet as [sup route rtr]. simpl in Hrouter, Hroute, Hsuper. subst route rtr.
    unfold AppNet.cleanup, AppNet.delete_router, AppNet.delete_grpc_route, AppNet.inherited.
    rewrite bind_run, delete_resource_untracked by reflexivity. simpl.
    rewrite bind_run, delete_resource_untracked by reflexivity. simpl.
    unfold lift. simpl. rewrite (cleanup_nothing_recorded e w _ Hsuper). reflexivity.
  - destruct secure as [sup server selector client].
    simpl in Hecs, Hserver, Hclient, Hsuper'. subst server selector client.
    unfold Secure.cleanup, Secure.delete_endpoint_config_selector,
      Secure.delete_server_tls_policy, Secure.delete_client_tls_policy, Secure.inherited.
    rewrite bind_run. unfold lift at 1 2 3. simpl.
    rewrite (cleanup_nothing_recorded e w _ Hsuper'). simpl.
    rewrite bind_run, delete_resource_untracked by reflexivity. simpl.
    rewrite bind_run, delete_resource_untracked by reflexivity. simpl.
    apply delete_resource_untracked. reflexivity.
Qed.

Lemma cleanup_of_nothing_witness :
  cleanup false serving fresh_world sample_manager =
    {| res := inr tt; st := sample_manager; wld := fresh_world |} /\
  AppNet.cleanup false serving fresh_world sample_appnet_manager =
    {| res := inr tt; st := sample_appnet_manager; wld := fresh_world |} /\
  Secure.cleanup false serving fresh_world sample_secure_manager =
    {| res := inr tt; st := sample_secure_manager; wld := fresh_world |}.
Proof.
  apply cleanup_of_nothing; repeat split.
Defined.

Lemma client_mtls_policy_patch_needs_policy_witness :
  res (Secure.backend_service_apply_client_mtls_policy "ns" "server" serving fresh_world
         (Secure.set_super (st sample_manager_set_up) sample_secure_manager)) = inr tt.
Proof.
  destruct (client_mtls_policy_patch_needs_policy serving fresh_world
              (Secure.set_super (st sample_manager_set_up) sample_secure_manager)
              "ns" "server") as [Hskip _].
  destruct (Hskip eq_refl) as (_ & _ & Hres).
  exact (Hres _ eq_refl).
Defined.

(** ** Port search *)

Lemma new_calls_app {S A} (w : world) (r : outcome S A) k :
  log (wld r) = log w ++ k -> new_calls w r = k.
Proof. intros H. unfold new_calls. rewrite H. apply drop_app_length. Qed.

Lemma find_unused_loop_returns e self lo hi n : forall w port,
  res (find_unused_forwarding_rule_port_loop n lo hi e w self) = inr port ->
  lo <= port <= hi /\
  exists h,
    log (wld (find_unused_forwarding_rule_port_loop n lo hi e w self)) =
      h ++ [compute_exists_forwarding_rule port] /\
    remote e h (compute_exists_forwarding_rule port) = inr false.
Proof.
  induction n as [|n IH]; intros w port; simpl.
  - discriminate.
  - rewrite bind_run. unfold randint.
    destruct (hi <? lo) eqn:Hrange; simpl; [discriminate|].
    apply Z.ltb_ge in Hrange.
    rewrite bind_run. unfold request at 1 2 3. simpl.
    set (p := lo + entropy e (draws w) `mod` (hi - lo + 1)).
    destruct (remote e (log w) (compute_exists_forwarding_rule p)) as [x|[|]] eqn:Hanswer;
      simpl.
    + discriminate.
    + apply IH.
    + unfold_monad. simpl. intros [= <-]. split.
      * pose proof (Z.mod_pos_bound (entropy e (draws w)) (hi - lo + 1)). lia.
      * exists (log w). split; [reflexivity|exact Hanswer].
Qed.

Lemma port_checks_step e w lo hi n :
  port_checks e w lo hi (Datatypes.S n) =
  compute_exists_forwarding_rule (sampled_port e w lo hi 0) ::
  port_checks e
    {| log := log w ++ [compute_exists_forwarding_rule (sampled_port e w lo hi 0)];
       draws := Datatypes.S (draws w) |} lo hi n.
Proof.
  unfold port_checks. simpl. f_equal.
  rewrite <- seq_shift, map_map. apply map_ext. intros i.
  unfold sampled_port. simpl. rewrite Nat.add_succ_r. reflexivity.
Qed.

Lemma find_unused_loop_exhausted e self lo hi n :
  lo <= hi ->
  forall w,
    (forall i, (i < n)%nat ->
       remote e (log w ++ port_checks e w lo hi i)
         (compute_exists_forwarding_rule (sampled_port e w lo hi i)) = inr true) ->
    let r := find_unused_forwarding_rule_port_loop n lo hi e w self in
    res r = inl (RuntimeError "Couldn't find unused forwarding rule port") /\
    st r = self /\
    log (wld r) = log w ++ port_checks e w lo hi n.
Proof.
  intros Hrange. induction n as [|n IH]; intros w Htaken; simpl.
  - split; [reflexivity|]. split; [reflexivity|].
    unfold port_checks. simpl. rewrite app_nil_r. reflexivity.
  - rewrite bind_run. unfold randint.
    destruct (hi <? lo) eqn:Hlt; [apply Z.ltb_lt in Hlt; lia|]. simpl.
    rewrite bind_run. unfold request at 1 2 3 4 5. simpl.
    pose proof (Htaken O ltac:(lia)) as Hfirst.
    unfold port_checks in Hfirst. simpl in Hfirst. rewrite app_nil_r in Hfirst.
    unfold sampled_port in Hfirst. rewrite Nat.add_0_r in Hfirst.
    rewrite Hfirst. simpl.
    rewrite port_checks_step.
    unfold sampled_port at 1 2. rewrite Nat.add_0_r.
    match goal with
    | |- context [find_unused_forwarding_rule_port_loop n lo hi e ?w' self] =>
        destruct (IH w') as (Hres & Hst & Hlog)
    end.
    + intros i Hi. pose proof (Htaken (Datatypes.S i) ltac:(lia)) as Hnext.
      rewrite port_checks_step in Hnext.
      unfold sampled_port at 1 2 in Hnext. rewrite Nat.add_0_r in Hnext.
      simpl. rewrite <- app_assoc. simpl.
      replace (sampled_port e
                 {| log := log w ++
                      [compute_exists_forwarding_rule
                         (lo + entropy e (draws w) `mod` (hi - lo + 1))];
                    draws := Datatypes.S (draws w) |} lo hi i)
        with (sampled_port e w lo hi (Datatypes.S i))
        by (unfold sampled_port; simpl; rewrite Nat.add_succ_r; reflexivity).
      exact Hnext.
    + split; [exact Hres|]. split; [exact Hst|].
      rewrite Hlog. simpl. rewrite <- app_assoc. reflexivity.
Qed.

(** C7. [find_unused_forwarding_rule_port] returns only a port of [lo, hi]
    whose existence check, the last request made, was answered [False]; and
    when the check of every one of its attempts is answered [True], it makes
    exactly these checks and then raises [RuntimeError] instead of
    returning, leaving the instance as it was. *)
Theorem find_unused_port_never_occupied e w self lo hi attempts :
  let r := find_unused_forwarding_rule_port lo hi attempts e w self in
  (forall port, res r = inr port ->
     lo <= port <= hi /\
     exists h, log (wld r) = h ++ [compute_exists_forwarding_rule port] /\
               remote e h (compute_exists_forwarding_rule port) = inr false) /\
  (lo <= hi ->
   (forall i, (i < Z.to_nat attempts)%nat ->
      remote e (log w ++ port_checks e w lo hi i)
        (compute_exists_forwarding_rule (sampled_port e w lo hi i)) = inr true) ->
   res r = inl (RuntimeError "Couldn't find unused forwarding rule port") /\
   st r = self /\
   new_calls w r = port_checks e w lo hi (Z.to_nat attempts) /\
   length (new_calls w r) = Z.to_nat attempts).
Proof.
  intros r. subst r. unfold find_unused_forwarding_rule_port. split.
  - intros port. apply find_unused_loop_returns.
  - intros Hrange Htaken.
    destruct (find_unused_loop_exhausted e self lo hi (Z.to_nat attempts) Hrange w Htaken)
      as (Hres & Hst & Hlog).
    split; [exact Hres|]. split; [exact Hst|].
    rewrite (new_calls_app _ _ _ Hlog). split; [reflexivity|].
    unfold port_checks. rewrite length_map, length_seq. reflexivity.
Qed.

Lemma find_unused_port_never_occupied_witness :
  (1024 <= 1024 <= 65535 /\
   exists h,
     log (wld (find_unused_forwarding_rule_port 1024 65535 25 serving fresh_world
                 sample_manager)) = h ++ [compute_exists_forwarding_rule 1024] /\
     remote serving h (compute_exists_forwarding_rule 1024) = inr false) /\
  (res (find_unused_forwarding_rule_port 1024 65535 25 all_ports_taken fresh_world
          sample_manager) = inl (RuntimeError "Couldn't find unused forwarding rule port") /\
   st (find_unused_forwarding_rule_port 1024 65535 25 all_ports_taken fresh_world
         sample_manager) = sample_manager /\
   new_calls fresh_world
     (find_unused_forwarding_rule_port 1024 65535 25 all_ports_taken fresh_world
        sample_manager) = port_checks all_ports_taken fresh_world 1024 65535 (Z.to_nat 25) /\
   length (new_calls fresh_world
             (find_unused_forwarding_rule_port 1024 65535 25 all_ports_taken fresh_world
                sample_manager)) = Z.to_nat 25).
Proof.
  split.
  - apply (proj1 (find_unused_port_never_occupied serving fresh_world sample_manager
                    1024 65535 25)).
    reflexivity.
  - apply (proj2 (find_unused_port_never_occupied all_ports_taken fresh_world sample_manager
                    1024 65535 25)).
    + lia.
    + intros i Hi. reflexivity.
Defined.

(** ** Backend attachment *)

Lemma poll_body_run nm zn e w self :
  poll_body nm zn e w self =
  match remote e (log w) (compute_wait_for_network_endpoint_group nm zn) with
  | inl x =>
      {| res := inl x; st := self;
         wld := {| log := log w ++ [compute_wait_for_network_endpoint_group nm zn];
                   draws := draws w |} |}
  | inr backend =>
      {| res := inr tt; st := set_backends (backends self ∪ {[ backend ]}) self;
         wld := {| log := log w ++ [compute_wait_for_network_endpoint_group nm zn];
                   draws := draws w |} |}
  end.
Proof.
  unfold poll_body. unfold_monad. simpl.
  destruct (remote e (log w) _); reflexivity.
Qed.

Lemma set_backends_same self : set_backends (backends self) self = self.
Proof. destruct self; reflexivity. Qed.

Lemma filter_add_backends_polls nm zones :
  List.filter is_add_backends (map (compute_wait_for_network_endpoint_group nm) zones) = [].
Proof. induction zones as [|zn zones IH]; [reflexivity|exact IH]. Qed.

Lemma poll_loop_resolved e nm zones :
  (forall h zn, exists backend,
      remote e h (compute_wait_for_network_endpoint_group nm zn) = inr backend) ->
  forall w self,
    for_each zones (poll_body nm) e w self =
    {| res := inr tt;
       st := set_backends (backends self ∪ list_to_set (poll_zones e (log w) nm zones)) self;
       wld := {| log := log w ++ map (compute_wait_for_network_endpoint_group nm) zones;
                 draws := draws w |} |} /\
    length (poll_zones e (log w) nm zones) = length zones.
Proof.
  intros Hvisible. induction zones as [|zn zones IH]; intros w self; simpl.
  - unfold_monad. rewrite app_nil_r, (right_id_L ∅ (∪)), set_backends_same.
    destruct w; split; reflexivity.
  - rewrite bind_run, poll_body_run.
    destruct (Hvisible (log w) zn) as [backend Hbackend]. rewrite Hbackend. simpl.
    match goal with
    | |- for_each zones _ e ?w' ?s' = _ /\ _ => destruct (IH w' s') as [Hrun Hlen]
    end.
    simpl in Hrun, Hlen. rewrite Hrun, Hlen. split; [|reflexivity].
    rewrite <- app_assoc. simpl.
    rewrite <- (assoc_L (∪)). reflexivity.
Qed.

Lemma poll_loop_polls_only e nm zones : forall w self,
  let r := for_each zones (poll_body nm) e w self in
  exists k, log (wld r) =
            log w ++ map (compute_wait_for_network_endpoint_group nm) (take k zones).
Proof.
  induction zones as [|zn zones IH]; intros w self; simpl.
  - exists O. simpl. rewrite app_nil_r. reflexivity.
  - rewrite bind_run, poll_body_run.
    destruct (remote e (log w) (compute_wait_for_network_endpoint_group nm zn))
      as [x|backend]; simpl.
    + exists 1%nat. reflexivity.
    + match goal with
      | |- context [for_each zones _ e ?w' ?s'] => destruct (IH w' s') as [k Hk]
      end.
      exists (Datatypes.S k). simpl in *. rewrite Hk, <- app_assoc. reflexivity.
Qed.

(** C4. [backend_service_add_neg_backends] never makes more than one
    [backend_service_add_backends] request.  When a backend service is
    recorded and every poll resolves, it polls the zones in the given order,
    adds each backend found to [self.backends], and then makes exactly one
    [backend_service_add_backends] request, its last, carrying the backends
    held before together with all those found. *)
Theorem add_neg_backends_single_call e w self nm zones :
  let r := backend_service_add_neg_backends nm zones e w self in
  let found := poll_zones e (log w) nm zones in
  let polls := map (compute_wait_for_network_endpoint_group nm) zones in
  (length (List.filter is_add_backends (new_calls w r)) <= 1)%nat /\
  forall bs,
    backend_service self = Some bs ->
    (forall h zn, exists backend,
        remote e h (compute_wait_for_network_endpoint_group nm zn) = inr backend) ->
    length found = length zones /\
    backends (st r) = backends self ∪ list_to_set found /\
    new_calls w r =
      polls ++ [compute_backend_service_add_backends bs (backends self ∪ list_to_set found)] /\
    length (List.filter is_add_backends (new_calls w r)) = 1%nat /\
    res r = remote e (log w ++ polls)
              (compute_backend_service_add_backends bs (backends self ∪ list_to_set found)).
Proof.
  intros r found polls. subst r found polls.
  unfold backend_service_add_neg_backends. fold (poll_body nm). split.
  - rewrite bind_run.
    destruct (poll_loop_polls_only e nm zones w self) as [k Hk]. simpl in Hk.
    destruct (res (for_each zones (poll_body nm) e w self)) as [x|[]]; simpl.
    + erewrite new_calls_app by (simpl; exact Hk).
      rewrite filter_add_backends_polls. simpl. lia.
    + unfold backend_service_add_backends. unfold_monad. simpl.
      destruct (backend_service (st (for_each zones (poll_body nm) e w self))); simpl.
      * erewrite new_calls_app
          by (simpl; rewrite Hk, <- app_assoc; reflexivity).
        rewrite List.filter_app, filter_add_backends_polls. simpl. lia.
      * erewrite new_calls_app by (simpl; exact Hk).
        rewrite filter_add_backends_polls. simpl. lia.
  - intros bs Hbs Hvisible.
    destruct (poll_loop_resolved e nm zones Hvisible w self) as [Hrun Hlen].
    rewrite bind_run, Hrun. simpl.
    unfold backend_service_add_backends. unfold_monad. simpl. rewrite Hbs. simpl.
    split; [exact Hlen|]. split; [reflexivity|].
    assert (forall A (r : outcome TrafficDirectorManager A) k,
               log (wld r) = (log w ++ map (compute_wait_for_network_endpoint_group nm) zones)
                             ++ k ->
               new_calls w r = map (compute_wait_for_network_endpoint_group nm) zones ++ k)
      as Hnew.
    { intros A r k Hr. apply new_calls_app. rewrite Hr, <- app_assoc. reflexivity. }
    erewrite Hnew by reflexivity.
    split; [reflexivity|]. split; [|reflexivity].
    rewrite List.filter_app, filter_add_backends_polls. reflexivity.
Qed.

Lemma add_neg_backends_single_call_witness :
  new_calls fresh_world
    (backend_service_add_neg_backends "neg" ["us-central1-a"; "us-central1-b"]
       serving fresh_world (st sample_manager_set_up)) =
  [compute_wait_for_network_endpoint_group "neg" "us-central1-a";
   compute_wait_for_network_endpoint_group "neg" "us-central1-b";
   compute_backend_service_add_backends
     {| name := "psm-interop-backend-service-20211101";
        url := "global/psm-interop-backend-service-20211101" |}
     (list_to_set
        [ {| zonal_name := "neg"; zonal_url := "zones/us-central1-a/neg";
             zone := "us-central1-a" |};
          {| zonal_name := "neg"; zonal_url := "zones/us-central1-b/neg";
             zone := "us-central1-b" |} ])].
Proof.
  destruct (add_neg_backends_single_call serving fresh_world (st sample_manager_set_up)
              "neg" ["us-central1-a"; "us-central1-b"]) as [_ H].
  destruct (H {| name := "psm-interop-backend-service-20211101";
                 url := "global/psm-interop-backend-service-20211101" |})
    as (_ & _ & Hcalls & _).
  - reflexivity.
  - intros h zn. eexists. reflexivity.
  - rewrite Hcalls. vm_compute. reflexivity.
Defined.

(** ** Deletion and cleanup *)

Section delete_resource.
Context {S : Type} (make_name : string -> M S string) (base : string).
Context (derived : S -> string) (memo : S -> S).
Hypothesis make_name_run : forall e w s,
  make_name base e w s = {| res := inr (derived s); st := memo s; wld := w |}.
Context (tracked : S -> option string) (delete_call : string -> call) (forget : S -> S).

Lemma delete_resource_run force e w s :
  delete_resource make_name base tracked delete_call forget force e w s =
  match (if force then Some (derived s) else tracked s) with
  | None => {| res := inr tt; st := s; wld := w |}
  | Some nm =>
      let s' := if force then memo s else s in
      let w' := {| log := log w ++ [delete_call nm]; draws := draws w |} in
      match remote e (log w) (delete_call nm) with
      | inl x => {| res := inl x; st := s'; wld := w' |}
      | inr _ => {| res := inr tt; st := forget s'; wld := w' |}
      end
  end.
Proof.
  unfold delete_resource. rewrite bind_run. unfold get at 1 2 3. simpl.
  destruct force.
  - rewrite !bind_run, make_name_run. simpl. unfold_monad. simpl.
    destruct (remote e (log w) (delete_call (derived s))); reflexivity.
  - rewrite bind_run. unfold_monad. simpl.
    destruct (tracked s) as [nm|]; [|reflexivity]. simpl.
    destruct (remote e (log w) (delete_call nm)); reflexivity.
Qed.

Lemma delete_resource_plan force :
  runs_plan (delete_resource make_name base tracked delete_call forget force)
    (fun s => deletion force (derived s) (tracked s) delete_call).
Proof.
  intros e w s r. subst r. rewrite delete_resource_run. unfold deletion.
  destruct (if force then Some (derived s) else tracked s) as [nm|]; simpl.
  - exists 1%nat. simpl. rewrite app_nil_r.
    destruct (remote e (log w) (delete_call nm)) as [x|a] eqn:Hanswer; simpl.
    + split; [lia|]. split; [reflexivity|].
      exists (delete_call nm). rewrite Hanswer. repeat split. lia.
    + split; [lia|]. split; reflexivity.
  - exists O. simpl. rewrite app_nil_r. split; [lia|]. split; reflexivity.
Qed.

(** What a successful deletion leaves unchanged: anything that neither
    memoizing the name nor forgetting the handle changes. *)
Lemma delete_resource_observes {X} (f : S -> X) force e w s :
  (forall s, f (memo s) = f s) -> (forall s, f (forget s) = f s) ->
  f (st (delete_resource make_name base tracked delete_call forget force e w s)) = f s.
Proof.
  intros Hmemo Hforget. rewrite delete_resource_run.
  destruct force; simpl.
  - destruct (remote e (log w) _); simpl; rewrite ?Hforget, ?Hmemo; reflexivity.
  - destruct (tracked s) as [nm|]; simpl; [|reflexivity].
    destruct (remote e (log w) _); simpl; rewrite ?Hforget; reflexivity.
Qed.

End delete_resource.

Lemma runs_plan_seq {S} (m1 m2 : M S unit) (p1 p2 p2' : S -> list call) :
  runs_plan m1 p1 -> runs_plan m2 p2 ->
  (forall e w s, res (m1 e w s) = inr tt -> p2 (st (m1 e w s)) = p2' s) ->
  runs_plan (m1;; m2) (fun s => p1 s ++ p2' s).
Proof.
  intros H1 H2 Hframe e w s r. subst r. rewrite bind_run.
  destruct (H1 e w s) as (k1 & Hk1 & Hlog1 & Hres1).
  destruct (res (m1 e w s)) as [x|[]] eqn:Hr1; simpl.
  - exists k1. rewrite length_app. split; [lia|].
    rewrite take_app_le by lia. split; [exact Hlog1|].
    destruct Hres1 as (c & Hc & Hpos & Hfail).
    exists c. rewrite take_app_le by lia.
    rewrite lookup_app_l by lia. repeat split; assumption.
  - subst k1. rewrite take_ge in Hlog1 by lia.
    destruct (H2 e (wld (m1 e w s)) (st (m1 e w s))) as (k2 & Hk2 & Hlog2 & Hres2).
    rewrite (Hframe e w s Hr1) in Hk2, Hlog2, Hres2.
    exists (length (p1 s) + k2)%nat. rewrite length_app. split; [lia|].
    rewrite take_app_add. split; [rewrite Hlog2, Hlog1, <- app_assoc; reflexivity|].
    destruct (res (m2 e (wld (m1 e w s)) (st (m1 e w s)))) as [x|a].
    + destruct Hres2 as (c & Hc & Hpos & Hfail).
      exists c.
      replace (pred (length (p1 s) + k2)) with (length (p1 s) + pred k2)%nat by lia.
      rewrite lookup_app_r by lia.
      replace (length (p1 s) + pred k2 - length (p1 s))%nat with (pred k2) by lia.
      split; [exact Hc|]. split; [lia|].
      rewrite take_app_add, app_assoc, <- Hlog1. exact Hfail.
    + lia.
Qed.

Lemma runs_plan_seq_framed {S} (m1 m2 : M S unit) (p1 p2 : S -> list call) :
  runs_plan m1 p1 -> runs_plan m2 p2 ->
  (forall e w s, p2 (st (m1 e w s)) = p2 s) ->
  runs_plan (m1;; m2) (fun s => p1 s ++ p2 s).
Proof. intros H1 H2 Hframe. apply (runs_plan_seq m1 m2 p1 p2 p2); auto. Qed.

Lemma runs_plan_lift {S T} (proj : T -> S) (inj : S -> T -> T) m p :
  runs_plan m p -> runs_plan (lift proj inj m) (fun t => p (proj t)).
Proof. intros H e w t. exact (H e w (proj t)). Qed.

Lemma base_delete_plan base tracked delete_call forget force :
  runs_plan (delete_resource make_resource_name base tracked delete_call forget force)
    (fun s => deletion force (resource_name s base) (tracked s) delete_call).
Proof.
  apply (delete_resource_plan _ _ (fun s => resource_name s base) (memoize base)).
  intros. apply make_resource_name_run.
Qed.

Lemma base_delete_observes {X} (f : TrafficDirectorManager -> X)
  base tracked delete_call forget force e w s :
  (forall k s, f (memoize k s) = f s) -> (forall s, f (forget s) = f s) ->
  f (st (delete_resource make_resource_name base tracked delete_call forget force e w s))
  = f s.
Proof.
  intros Hmemo Hforget.
  apply (delete_resource_observes _ _ (fun s => resource_name s base) (memoize base));
    [intros; apply make_resource_name_run | apply Hmemo | apply Hforget].
Qed.

#[local] Arguments resource_name : simpl never.
#[local] Arguments memoize : simpl never.

Lemma base_delete_keeps_resource_name base tracked delete_call forget force e w s nm :
  (forall s nm, resource_name (forget s) nm = resource_name s nm) ->
  resource_name
    (st (delete_resource make_resource_name base tracked delete_call forget force e w s)) nm
  = resource_name s nm.
Proof.
  intros Hforget.
  apply (base_delete_observes (fun s => resource_name s nm)); intros; cbv beta.
  - apply resource_name_memoize.
  - apply Hforget.
Qed.

Ltac unfold_deletes :=
  unfold delete_forwarding_rule, delete_target_http_proxy, delete_target_grpc_proxy,
    delete_url_map, delete_backend_service, delete_alternative_backend_service,
    delete_affinity_backend_service, delete_health_check.

(** The plan of the deletions still to come reads the same on the instance
    that one deletion leaves behind. *)
Ltac plan_frame :=
  intros; unfold_deletes; cbv beta;
  rewrite ?base_delete_keeps_resource_name by (intros; reflexivity);
  repeat match goal with
    | |- context [?f (st (delete_resource make_resource_name ?b ?t ?c ?fg ?force ?e ?w ?s))] =>
        rewrite (base_delete_observes f b t c fg force e w s) by (intros; reflexivity)
    end;
  reflexivity.

Lemma http_proxy_frame force (tail : TrafficDirectorManager -> list call) :
  (forall k s, tail (memoize k s) = tail s) ->
  (forall s, tail (set_target_proxy_is_http false (set_target_proxy None s)) = tail s) ->
  forall e w s,
    res (delete_target_http_proxy force e w s) = inr tt ->
    (fun s => deletion force (resource_name s TARGET_PROXY_NAME) (name <$> target_proxy s)
                compute_delete_target_grpc_proxy ++ tail s)
      (st (delete_target_http_proxy force e w s)) =
    deletion force (resource_name s TARGET_PROXY_NAME)
      (if target_proxy_is_http s then None else name <$> target_proxy s)
      compute_delete_target_grpc_proxy ++ tail s.
Proof.
  intros Hmemo Hforget e w s. unfold delete_target_http_proxy.
  rewrite (delete_resource_run make_resource_name TARGET_PROXY_NAME
             (fun s => resource_name s TARGET_PROXY_NAME) (memoize TARGET_PROXY_NAME))
    by (intros; apply make_resource_name_run).
  cbv beta. unfold deletion. destruct force.
  - cbv zeta. destruct (remote e (log w) _); [discriminate|]. intros _.
    cbn [st]. rewrite Hforget, Hmemo.
    change (resource_name
              (set_target_proxy_is_http false
                 (set_target_proxy None (memoize TARGET_PROXY_NAME s))) TARGET_PROXY_NAME)
      with (resource_name (memoize TARGET_PROXY_NAME s) TARGET_PROXY_NAME).
    rewrite resource_name_memoize. reflexivity.
  - destruct (target_proxy_is_http s) eqn:Hhttp.
    + destruct (target_proxy s) as [proxy|] eqn:Hproxy; cbn [fmap option_fmap option_map].
      * cbv zeta. destruct (remote e (log w) _); [discriminate|]. intros _.
        cbn [st]. rewrite Hforget. reflexivity.
      * intros _. cbn [st]. rewrite Hproxy. reflexivity.
    + intros _. cbn [st]. reflexivity.
Qed.

Lemma proxy_deletions_plan force (rest : M TrafficDirectorManager unit)
  (tail : TrafficDirectorManager -> list call) :
  runs_plan rest tail ->
  (forall k s, tail (memoize k s) = tail s) ->
  (forall s, tail (set_target_proxy_is_http false (set_target_proxy None s)) = tail s) ->
  runs_plan (delete_target_http_proxy force;; delete_target_grpc_proxy force;; rest)
    (fun s =>
       deletion force (resource_name s TARGET_PROXY_NAME)
         (if target_proxy_is_http s then name <$> target_proxy s else None)
         compute_delete_target_http_proxy ++
       deletion force (resource_name s TARGET_PROXY_NAME)
         (if target_proxy_is_http s then None else name <$> target_proxy s)
         compute_delete_target_grpc_proxy ++
       tail s).
Proof.
  intros Hrest Hmemo Hforget.
  apply (runs_plan_seq _ _ _
           (fun s => deletion force (resource_name s TARGET_PROXY_NAME)
                       (name <$> target_proxy s) compute_delete_target_grpc_proxy ++ tail s)).
  - apply base_delete_plan.
  - apply runs_plan_seq_framed; [apply base_delete_plan | exact Hrest |].
    intros. unfold delete_target_grpc_proxy. apply (base_delete_observes tail); assumption.
  - apply http_proxy_frame; assumption.
Qed.

Lemma cleanup_runs_plan force : runs_plan (cleanup force) (cleanup_plan force).
Proof.
  unfold cleanup, cleanup_plan.
  apply runs_plan_seq_framed; [apply base_delete_plan | | plan_frame].
  apply proxy_deletions_plan;
    [ | intros; rewrite ?resource_name_memoize; reflexivity | intros; reflexivity ].
  do 4 (apply runs_plan_seq_framed; [apply base_delete_plan | | plan_frame]).
  apply base_delete_plan.
Qed.

Lemma cleanup_plan_memoize force k s : cleanup_plan force (memoize k s) = cleanup_plan force s.
Proof. unfold cleanup_plan. rewrite !resource_name_memoize. reflexivity. Qed.

Lemma cleanup_keeps_resource_name force e w s nm :
  resource_name (st (cleanup force e w s)) nm = resource_name s nm.
Proof.
  revert e w s. unfold cleanup.
  assert (forall (m1 m2 : M TrafficDirectorManager unit),
             (forall e w s, resource_name (st (m1 e w s)) nm = resource_name s nm) ->
             (forall e w s, resource_name (st (m2 e w s)) nm = resource_name s nm) ->
             forall e w s, resource_name (st ((m1;; m2) e w s)) nm = resource_name s nm)
    as Hseq.
  { intros m1 m2 H1 H2 e w s. rewrite bind_run.
    destruct (res (m1 e w s)); simpl; [apply H1|]. rewrite H2. apply H1. }
  repeat (apply Hseq;
          [unfold_deletes; intros; apply base_delete_keeps_resource_name; reflexivity|]).
  unfold_deletes. intros. apply base_delete_keeps_resource_name. reflexivity.
Qed.

Lemma appnet_make_resource_name_run nm e w s :
  AppNet.inherited (make_resource_name nm) e w s =
  {| res := inr (resource_name (AppNet.super s) nm);
     st := AppNet.set_super (memoize nm (AppNet.super s)) s; wld := w |}.
Proof. unfold AppNet.inherited, lift. rewrite make_resource_name_run. reflexivity. Qed.

Lemma secure_make_resource_name_run nm e w s :
  Secure.inherited (make_resource_name nm) e w s =
  {| res := inr (resource_name (Secure.super s) nm);
     st := Secure.set_super (memoize nm (Secure.super s)) s; wld := w |}.
Proof. unfold Secure.inherited, lift. rewrite make_resource_name_run. reflexivity. Qed.

Lemma appnet_delete_plan base tracked delete_call forget force :
  runs_plan
    (delete_resource (fun nm => AppNet.inherited (make_resource_name nm)) base
       tracked delete_call forget force)
    (fun s => deletion force (resource_name (AppNet.super s) base) (tracked s) delete_call).
Proof.
  apply (delete_resource_plan _ _ (fun s => resource_name (AppNet.super s) base)
           (fun s => AppNet.set_super (memoize base (AppNet.super s)) s)).
  intros. apply appnet_make_resource_name_run.
Qed.

Lemma appnet_delete_observes {X} (f : AppNet.TrafficDirectorAppNetManager -> X)
  base tracked delete_call forget force e w s :
  (forall k s, f (AppNet.set_super (memoize k (AppNet.super s)) s) = f s) ->
  (forall s, f (forget s) = f s) ->
  f (st (delete_resource (fun nm => AppNet.inherited (make_resource_name nm)) base
           tracked delete_call forget force e w s)) = f s.
Proof.
  intros Hmemo Hforget.
  apply (delete_resource_observes _ _ (fun s => resource_name (AppNet.super s) base)
           (fun s => AppNet.set_super (memoize base (AppNet.super s)) s));
    [intros; apply appnet_make_resource_name_run | apply Hmemo | apply Hforget].
Qed.

Lemma secure_delete_plan base tracked delete_call forget force :
  runs_plan
    (delete_resource (fun nm => Secure.inherited (make_resource_name nm)) base
       tracked delete_call forget force)
    (fun s => deletion force (resource_name (Secure.super s) base) (tracked s) delete_call).
Proof.
  apply (delete_resource_plan _ _ (fun s => resource_name (Secure.super s) base)
           (fun s => Secure.set_super (memoize base (Secure.super s)) s)).
  intros. apply secure_make_resource_name_run.
Qed.

Lemma secure_delete_observes {X} (f : Secure.TrafficDirectorSecureManager -> X)
  base tracked delete_call forget force e w s :
  (forall k s, f (Secure.set_super (memoize k (Secure.super s)) s) = f s) ->
  (forall s, f (forget s) = f s) ->
  f (st (delete_resource (fun nm => Secure.inherited (make_resource_name nm)) base
           tracked delete_call forget force e w s)) = f s.
Proof.
  intros Hmemo Hforget.
  apply (delete_resource_observes _ _ (fun s => resource_name (Secure.super s) base)
           (fun s => Secure.set_super (memoize base (Secure.super s)) s));
    [intros; apply secure_make_resource_name_run | apply Hmemo | apply Hforget].
Qed.

Lemma appnet_cleanup_runs_plan force :
  runs_plan (AppNet.cleanup force) (appnet_cleanup_plan force).
Proof.
  unfold AppNet.cleanup, appnet_cleanup_plan, AppNet.delete_router, AppNet.delete_grpc_route.
  apply runs_plan_seq_framed; [apply appnet_delete_plan | |].
  - apply runs_plan_seq_framed; [apply appnet_delete_plan | |].
    + apply (runs_plan_lift AppNet.super AppNet.set_super). apply cleanup_runs_plan.
    + intros. apply (appnet_delete_observes (fun s => cleanup_plan force (AppNet.super s))).
      * intros. simpl. apply cleanup_plan_memoize.
      * intros. reflexivity.
  - intros.
    apply (appnet_delete_observes
             (fun s => deletion force (resource_name (AppNet.super s) AppNet.GRPC_ROUTE_NAME)
                         (route_name <$> AppNet.grpc_route s) netsvc_delete_grpc_route ++
                       cleanup_plan force (AppNet.super s))).
    + intros. simpl. rewrite cleanup_plan_memoize, resource_name_memoize. reflexivity.
    + intros. reflexivity.
Qed.

Lemma secure_cleanup_runs_plan force :
  runs_plan (Secure.cleanup force) (secure_cleanup_plan force).
Proof.
  unfold Secure.cleanup, secure_cleanup_plan, Secure.delete_endpoint_config_selector,
    Secure.delete_server_tls_policy, Secure.delete_client_tls_policy.
  apply runs_plan_seq_framed.
  - apply (runs_plan_lift Secure.super Secure.set_super). apply cleanup_runs_plan.
  - apply runs_plan_seq_framed; [apply secure_delete_plan | |].
    + apply runs_plan_seq_framed; [apply secure_delete_plan | apply secure_delete_plan |].
      intros.
      apply (secure_delete_observes
               (fun s => deletion force
                           (resource_name (Secure.super s) Secure.CLIENT_TLS_POLICY_NAME)
                           (client_policy_name <$> Secure.client_tls_policy s)
                           netsec_delete_client_tls_policy)).
      * intros. simpl. rewrite resource_name_memoize. reflexivity.
      * intros. reflexivity.
    + intros.
      apply (secure_delete_observes
               (fun s => deletion force
                           (resource_name (Secure.super s) Secure.SERVER_TLS_POLICY_NAME)
                           (server_policy_name <$> Secure.server_tls_policy s)
                           netsec_delete_server_tls_policy ++
                         deletion force
                           (resource_name (Secure.super s) Secure.CLIENT_TLS_POLICY_NAME)
                           (client_policy_name <$> Secure.client_tls_policy s)
                           netsec_delete_client_tls_policy)).
      * intros. simpl. rewrite !resource_name_memoize. reflexivity.
      * intros. reflexivity.
  - intros. unfold Secure.inherited, lift. simpl.
    rewrite !cleanup_keeps_resource_name. reflexivity.
Qed.



(** ** Order of cleanup *)

(** C3 fails on the secure manager. After [setup_for_grpc],
    [setup_server_security] and [setup_client_security] ran against the
    serving API, [cleanup] deletes the five base resources first and the
    endpoint config selector and the two TLS policies after them, although
    they were created last: the order of deletion is not the reverse of the
    order of creation. *)
Theorem secure_cleanup_deletes_base_first :
  let set_up := sample_secure_manager_set_up in
  let r := Secure.cleanup false serving (wld set_up) (st set_up) in
  let created := omap created_kind (log (wld set_up)) in
  let deleted := omap deleted_kind (new_calls (wld set_up) r) in
  res set_up = inr tt /\ res r = inr tt /\
  created = [KHealthCheck; KBackendService; KUrlMap; KTargetProxy; KForwardingRule;
             KServerTlsPolicy; KEndpointConfigSelector; KClientTlsPolicy] /\
  deleted = [KForwardingRule; KTargetProxy; KUrlMap; KBackendService; KHealthCheck;
             KEndpointConfigSelector; KServerTlsPolicy; KClientTlsPolicy] /\
  deleted <> reverse created.
Proof.
  cbv zeta.
  split; [vm_compute; reflexivity|].
  split; [vm_compute; reflexivity|].
  split; [vm_compute; reflexivity|].
  split; [vm_compute; reflexivity|].
  vm_compute. discriminate.
Qed.

(** The route-based manager, by contrast, deletes its router and route before
    the base resources: its deletions are the creations reversed. *)
Lemma appnet_cleanup_reverses_creation :
  let set_up := sample_appnet_manager_set_up in
  let r := AppNet.cleanup false serving (wld set_up) (st set_up) in
  let created := omap created_kind (log (wld set_up)) in
  let deleted := omap deleted_kind (new_calls (wld set_up) r) in
  res set_up = inr tt /\ res r = inr tt /\
  created = [KHealthCheck; KBackendService; KGrpcRoute; KRouter] /\
  deleted = reverse created.
Proof.
  cbv zeta.
  split; [vm_compute; reflexivity|].
  split; [vm_compute; reflexivity|].
  split; vm_compute; reflexivity.
Qed.

(** ** Name derivation is an invariant of the methods *)

Lemma same_naming_refl s : same_naming s s.
Proof. repeat split. Qed.

Lemma same_naming_trans s1 s2 s3 : same_naming s1 s2 -> same_naming s2 s3 -> same_naming s1 s3.
Proof.
  intros (Hp & Hs & Hn) (Hp' & Hs' & Hn'). split; [congruence|]. split; [congruence|].
  intros nm. rewrite Hn'. apply Hn.
Qed.

Lemma same_naming_coherent s s' : same_naming s s' -> cache_coherent s -> cache_coherent s'.
Proof.
  intros (Hp & Hs & Hn) Hcoh nm. rewrite Hn, Hcoh.
  unfold make_resource_name_body. rewrite Hp, Hs. reflexivity.
Qed.

Lemma keeps_naming_ret {A} (a : A) : keeps_naming (mret a).
Proof. intros e w s. apply same_naming_refl. Qed.

Lemma keeps_naming_raise {A} x : keeps_naming (raise (A := A) x).
Proof. intros e w s. apply same_naming_refl. Qed.

Lemma keeps_naming_get : keeps_naming get.
Proof. intros e w s. apply same_naming_refl. Qed.

Lemma keeps_naming_request c : keeps_naming (request c).
Proof. intros e w s. apply same_naming_refl. Qed.

Lemma keeps_naming_randint lo hi : keeps_naming (randint lo hi).
Proof. intros e w s. unfold randint. destruct (hi <? lo); apply same_naming_refl. Qed.

Lemma keeps_naming_deref {R} field (x : option R) : keeps_naming (deref field x).
Proof. intros e w s. destruct x; apply same_naming_refl. Qed.

Lemma keeps_naming_modify f : (forall s, same_naming s (f s)) -> keeps_naming (modify f).
Proof. intros H e w s. apply H. Qed.

Lemma keeps_naming_bind {A B} (m : M TrafficDirectorManager A) (k : A -> M _ B) :
  keeps_naming m -> (forall a, keeps_naming (k a)) -> keeps_naming (m ≫= k).
Proof.
  intros Hm Hk e w s. rewrite bind_run.
  destruct (res (m e w s)) as [x|a]; simpl; [apply Hm|].
  eapply same_naming_trans; [apply Hm|apply Hk].
Qed.

Lemma keeps_naming_make_resource_name nm : keeps_naming (make_resource_name nm).
Proof.
  intros e w s. rewrite make_resource_name_run. simpl.
  split; [reflexivity|]. split; [reflexivity|]. intros k. apply resource_name_memoize.
Qed.

Lemma keeps_naming_for_each {A} (xs : list A) body :
  (forall x, keeps_naming (body x)) -> keeps_naming (for_each xs body).
Proof.
  intros Hbody. induction xs as [|x xs IH]; simpl.
  - apply keeps_naming_ret.
  - apply keeps_naming_bind; [apply Hbody|intros _; exact IH].
Qed.

Ltac keeps_naming_step :=
  match goal with
  | |- keeps_naming (_ ≫= _) => apply keeps_naming_bind; [|intros ?]
  | |- keeps_naming (mret _) => apply keeps_naming_ret
  | |- keeps_naming (raise _) => apply keeps_naming_raise
  | |- keeps_naming get => apply keeps_naming_get
  | |- keeps_naming (request ?c) => exact (keeps_naming_request c)
  | |- keeps_naming (randint _ _) => apply keeps_naming_randint
  | |- keeps_naming (deref _ _) => apply keeps_naming_deref
  | |- keeps_naming (make_resource_name _) => apply keeps_naming_make_resource_name
  | |- keeps_naming (modify _) => apply keeps_naming_modify; intros ?; repeat split
  | |- keeps_naming (for_each _ _) => apply keeps_naming_for_each; intros ?
  | |- keeps_naming (match ?x with _ => _ end) => destruct x
  | |- keeps_naming (if ?x then _ else _) => destruct x
  end.

Lemma keeps_naming_delete base tracked delete_call forget force :
  (forall s, same_naming s (forget s)) ->
  keeps_naming (delete_resource make_resource_name base tracked delete_call forget force).
Proof. intros Hforget. unfold delete_resource. repeat keeps_naming_step; apply Hforget. Qed.

Lemma keeps_naming_cleanup force : keeps_naming (cleanup force).
Proof.
  unfold cleanup. unfold_deletes.
  repeat (apply keeps_naming_bind; [|intros _]);
    apply keeps_naming_delete; intros s; repeat split.
Qed.

Lemma keeps_naming_create_target_proxy : keeps_naming create_target_proxy.
Proof. unfold create_target_proxy, create_proxy_fn. repeat keeps_naming_step. Qed.

Lemma keeps_naming_setup_for_grpc host port protocol health_check_port :
  keeps_naming (setup_for_grpc host port protocol health_check_port).
Proof.
  unfold setup_for_grpc, setup_backend_for_grpc, setup_routing_rule_map_for_grpc,
    create_health_check, create_backend_service, create_url_map, create_forwarding_rule.
  repeat first [apply keeps_naming_create_target_proxy | keeps_naming_step].
Qed.

Lemma keeps_naming_backend_service_add_neg_backends nm zones :
  keeps_naming (backend_service_add_neg_backends nm zones).
Proof.
  unfold backend_service_add_neg_backends, backend_service_add_backends.
  repeat keeps_naming_step.
Qed.

Lemma keeps_naming_find_unused_forwarding_rule_port lo hi attempts :
  keeps_naming (find_unused_forwarding_rule_port lo hi attempts).
Proof.
  unfold find_unused_forwarding_rule_port.
  induction (Z.to_nat attempts) as [|n IH]; simpl.
  - apply keeps_naming_raise.
  - do 2 (apply keeps_naming_bind; [keeps_naming_step|intros ?]).
    destruct (negb _); [apply keeps_naming_ret|exact IH].
Qed.

(** Coherence of the memo table, which holds on a new instance, is kept by
    setup and by cleanup. *)
Lemma cache_coherent_kept {A} (m : M TrafficDirectorManager A) e w s :
  keeps_naming m -> cache_coherent s -> cache_coherent (st (m e w s)).
Proof. intros Hm. apply same_naming_coherent, Hm. Qed.

(** * Further properties *)

(** ** Running the create methods *)

(** Assignments to the managed attributes do not change a derived name. *)
Lemma resource_name_assigned s nm :
  (forall v, resource_name (set_health_check v s) nm = resource_name s nm) /\
  (forall v, resource_name (set_backend_service v s) nm = resource_name s nm) /\
  (forall v, resource_name (set_backend_service_protocol v s) nm = resource_name s nm) /\
  (forall v, resource_name (set_url_map v s) nm = resource_name s nm) /\
  (forall v, resource_name (set_target_proxy v s) nm = resource_name s nm) /\
  (forall v, resource_name (set_target_proxy_is_http v s) nm = resource_name s nm) /\
  (forall v, resource_name (set_forwarding_rule v s) nm = resource_name s nm) /\
  (forall v, resource_name (set_backends v s) nm = resource_name s nm) /\
  (forall v, resource_name (set_alternative_backend_service v s) nm = resource_name s nm) /\
  (forall v, resource_name (set_alternative_backend_service_protocol v s) nm = resource_name s nm) /\
  (forall v, resource_name (set_affinity_backend_service v s) nm = resource_name s nm) /\
  (forall v, resource_name (set_affinity_backend_service_protocol v s) nm = resource_name s nm).
Proof. repeat split. Qed.

Ltac same_names :=
  repeat first
    [ rewrite resource_name_memoize
    | rewrite (proj1 (resource_name_assigned _ _))
    | rewrite (proj1 (proj2 (resource_name_assigned _ _)))
    | rewrite (proj1 (proj2 (proj2 (resource_name_assigned _ _))))
    | rewrite (proj1 (proj2 (proj2 (proj2 (resource_name_assigned _ _)))))
    | rewrite (proj1 (proj2 (proj2 (proj2 (proj2 (resource_name_assigned _ _))))))
    | rewrite (proj1 (proj2 (proj2 (proj2 (proj2 (proj2 (resource_name_assigned _ _)))))))
    | rewrite (proj1 (proj2 (proj2 (proj2 (proj2 (proj2 (proj2 (resource_name_assigned _ _))))))))
    | rewrite (proj1 (proj2 (proj2 (proj2 (proj2 (proj2 (proj2 (proj2 (resource_name_assigned _ _)))))))))
    | rewrite (proj1 (proj2 (proj2 (proj2 (proj2 (proj2 (proj2 (proj2 (proj2 (resource_name_assigned _ _))))))))))
    | rewrite (proj1 (proj2 (proj2 (proj2 (proj2 (proj2 (proj2 (proj2 (proj2 (proj2 (resource_name_assigned _ _)))))))))))
    | rewrite (proj1 (proj2 (proj2 (proj2 (proj2 (proj2 (proj2 (proj2 (proj2 (proj2 (proj2 (resource_name_assigned _ _))))))))))))
    | rewrite (proj2 (proj2 (proj2 (proj2 (proj2 (proj2 (proj2 (proj2 (proj2 (proj2 (proj2 (resource_name_assigned _ _))))))))))))
    ].


Lemma create_health_check_run e w self protocol port :
  health_check self = None ->
  create_health_check protocol port e w self =
  match remote e (log w)
          (compute_create_health_check (resource_name self HEALTH_CHECK_NAME)
             (default _HealthCheckGRPC protocol) port) with
  | inl x =>
      {| res := inl x; st := memoize HEALTH_CHECK_NAME self;
         wld := after_request w
                  (compute_create_health_check (resource_name self HEALTH_CHECK_NAME)
                     (default _HealthCheckGRPC protocol) port) |}
  | inr hc =>
      {| res := inr tt; st := set_health_check (Some hc) (memoize HEALTH_CHECK_NAME self);
         wld := after_request w
                  (compute_create_health_check (resource_name self HEALTH_CHECK_NAME)
                     (default _HealthCheckGRPC protocol) port) |}
  end.
Proof.
  intros Hnone. unfold create_health_check.
  rewrite bind_run. unfold get at 1 2 3. cbn [res st wld]. rewrite Hnone.
  rewrite bind_run, make_resource_name_run. cbn [res st wld].
  unfold_monad. cbn [res st wld log draws].
  destruct (remote e (log w) _); reflexivity.
Qed.



Lemma create_url_map_needs_backend_service e w self host port :
  backend_service self = None ->
  create_url_map host port e w self =
  {| res := inl (AttributeError "'NoneType' object has no attribute 'name'");
     st := memoize URL_MAP_PATH_MATCHER_NAME (memoize URL_MAP_NAME self); wld := w |}.
Proof.
  intros Hbs. unfold create_url_map.
  rewrite bind_run, make_resource_name_run. cbn [res st wld].
  rewrite bind_run, make_resource_name_run. cbn [res st wld].
  unfold_monad. cbn [res st wld log draws].
  change (backend_service (memoize URL_MAP_PATH_MATCHER_NAME (memoize URL_MAP_NAME self)))
    with (backend_service self).
  rewrite Hbs. reflexivity.
Qed.



Lemma create_target_proxy_unsupported e w self :
  backend_service_protocol self <> Some GRPC ->
  backend_service_protocol self <> Some HTTP2 ->
  create_target_proxy e w self =
  {| res := inl (TypeError "Unexpected backend service protocol");
     st := memoize TARGET_PROXY_NAME self; wld := w |}.
Proof.
  intros Hg Hh. unfold create_target_proxy.
  rewrite bind_run, make_resource_name_run. cbn [res st wld].
  unfold_monad. cbn [res st wld log draws].
  change (backend_service_protocol (memoize TARGET_PROXY_NAME self))
    with (backend_service_protocol self).
  destruct (backend_service_protocol self) as [[| |other]|]; try congruence; reflexivity.
Qed.


Lemma create_forwarding_rule_needs_target_proxy e w self port :
  target_proxy self = None ->
  create_forwarding_rule port e w self =
  {| res := inl (AttributeError "'NoneType' object has no attribute 'url'");
     st := memoize FORWARDING_RULE_NAME self; wld := w |}.
Proof.
  intros Htp. unfold create_forwarding_rule.
  rewrite bind_run, make_resource_name_run. cbn [res st wld].
  unfold_monad. cbn [res st wld log draws].
  change (target_proxy (memoize FORWARDING_RULE_NAME self)) with (target_proxy self).
  rewrite Htp. reflexivity.
Qed.

(** ** Setup *)








(** ** Cleanup after setup *)

Lemma deletion_deletes force derived tracked delete_call :
  (forall nm, is_Some (deleted_kind (delete_call nm))) ->
  Forall (fun c => is_Some (deleted_kind c)) (deletion force derived tracked delete_call).
Proof.
  intros Hdel. unfold deletion.
  destruct (if force then Some derived else tracked); repeat constructor. apply Hdel.
Qed.

Lemma cleanup_plan_deletes force s :
  Forall (fun c => is_Some (deleted_kind c)) (cleanup_plan force s).
Proof.
  unfold cleanup_plan.
  repeat (apply Forall_app; split);
    apply deletion_deletes; intros nm; eexists; reflexivity.
Qed.

(** A plan whose requests are all served is run to its end. *)
Lemma runs_plan_served {S} (m : M S unit) plan e w s :
  runs_plan m plan ->
  Forall (fun c => forall h, failure_of (remote e h c) = None) (plan s) ->
  res (m e w s) = inr tt /\ log (wld (m e w s)) = log w ++ plan s.
Proof.
  intros Hruns Hserved.
  destruct (Hruns e w s) as (k & Hk & Hlog & Hres).
  destruct (res (m e w s)) as [x|[]].
  - destruct Hres as (c & Hc & _ & Hfail). exfalso.
    rewrite Forall_forall in Hserved.
    assert (c ∈ plan s) as Hin by (eapply list_elem_of_lookup_2; exact Hc).
    rewrite (Hserved c Hin) in Hfail. discriminate.
  - subst k. rewrite take_ge in Hlog by lia. split; [reflexivity|exact Hlog].
Qed.

Lemma cleanup_served force e w s :
  deletes_served e ->
  res (cleanup force e w s) = inr tt /\
  new_calls w (cleanup force e w s) = cleanup_plan force s.
Proof.
  intros Hserved.
  destruct (runs_plan_served (cleanup force) (cleanup_plan force) e w s) as [Hres Hlog].
  - apply cleanup_runs_plan.
  - eapply Forall_impl; [apply cleanup_plan_deletes|].
    intros c Hc h. apply Hserved, Hc.
  - split; [exact Hres|]. apply new_calls_app, Hlog.
Qed.




(** X3. A forced [cleanup] whose requests are served makes the same eight
    delete requests whatever the instance records: by derived name, the
    forwarding rule, the target proxy once as HTTP and once as GRPC proxy,
    the URL map, the three backend services and the health check. *)
Theorem forced_cleanup_deletes_by_derived_name e w self :
  deletes_served e ->
  res (cleanup true e w self) = inr tt /\
  new_calls w (cleanup true e w self) =
    [compute_delete_forwarding_rule (resource_name self FORWARDING_RULE_NAME);
     compute_delete_target_http_proxy (resource_name self TARGET_PROXY_NAME);
     compute_delete_target_grpc_proxy (resource_name self TARGET_PROXY_NAME);
     compute_delete_url_map (resource_name self URL_MAP_NAME);
     compute_delete_backend_service (resource_name self BACKEND_SERVICE_NAME);
     compute_delete_backend_service (resource_name self ALTERNATIVE_BACKEND_SERVICE_NAME);
     compute_delete_backend_service (resource_name self AFFINITY_BACKEND_SERVICE_NAME);
     compute_delete_health_check (resource_name self HEALTH_CHECK_NAME)].
Proof.
  intros Hserved. destruct (cleanup_served true e w self Hserved) as [Hres Hcalls].
  split; [exact Hres|]. rewrite Hcalls. reflexivity.
Qed.

Lemma forced_cleanup_deletes_by_derived_name_witness :
  deletes_served serving /\
  length (new_calls fresh_world (cleanup true serving fresh_world sample_manager)) = 8%nat.
Proof.
  assert (deletes_served serving) as Hserved by (intros h c _; reflexivity).
  split; [exact Hserved|].
  destruct (forced_cleanup_deletes_by_derived_name serving fresh_world sample_manager Hserved)
    as [_ Hcalls].
  rewrite Hcalls. reflexivity.
Defined.

(** ** What cleanup leaves behind *)

Lemma ensures_seq {S A B} (P Q R : S -> Prop) (m1 : M S A) (m2 : M S B) :
  ensures P m1 Q -> ensures Q m2 R -> ensures P (m1;; m2) R.
Proof.
  intros H1 H2 e w s b HP. rewrite bind_run.
  destruct (res (m1 e w s)) as [x|a] eqn:Hr1; [discriminate|].
  intros Hr2. eapply H2; [|exact Hr2]. eapply H1; [exact HP|exact Hr1].
Qed.

Lemma ensures_lift {S T A} (proj : T -> S) (inj : S -> T -> T) (m : M S A)
  (P Q : S -> Prop) (R : T -> Prop) :
  (forall s t, proj (inj s t) = s) ->
  (forall s t, R t -> R (inj s t)) ->
  ensures P m Q ->
  ensures (fun t => R t /\ P (proj t)) (lift proj inj m) (fun t => R t /\ Q (proj t)).
Proof.
  intros Hproj HR Hm e w t a [HRt HP] Hres. unfold lift in *. cbn [st res] in *.
  rewrite Hproj. split; [apply HR, HRt|]. eapply Hm; [exact HP|exact Hres].
Qed.

Section delete_resource_ensures.
Context {S : Type} (make_name : string -> M S string) (base : string).
Context (derived : S -> string) (memo : S -> S).
Hypothesis make_name_run : forall e w s,
  make_name base e w s = {| res := inr (derived s); st := memo s; wld := w |}.
Context (tracked : S -> option string) (delete_call : string -> call) (forget : S -> S).

Lemma delete_resource_ensures (P Q : S -> Prop) force :
  (forall s, P s -> Q (forget (memo s))) ->
  (forall s, P s -> Q (forget s)) ->
  (forall s, P s -> tracked s = None -> Q s) ->
  ensures P (delete_resource make_name base tracked delete_call forget force) Q.
Proof.
  intros Hforced Hforget Hskip e w s a HP.
  rewrite (delete_resource_run make_name base derived memo make_name_run).
  destruct force; cbv zeta.
  - destruct (remote e (log w) _); [discriminate|]. intros _. apply Hforced, HP.
  - destruct (tracked s) as [nm|] eqn:Htracked.
    + destruct (remote e (log w) _); [discriminate|]. intros _. apply Hforget, HP.
    + intros _. apply Hskip; assumption.
Qed.

End delete_resource_ensures.

Lemma base_delete_ensures (P Q : TrafficDirectorManager -> Prop)
  base tracked delete_call forget force :
  (forall k s, P s -> Q (forget (memoize k s))) ->
  (forall s, P s -> Q (forget s)) ->
  (forall s, P s -> tracked s = None -> Q s) ->
  ensures P (delete_resource make_resource_name base tracked delete_call forget force) Q.
Proof.
  intros Hforced Hforget Hskip.
  apply (delete_resource_ensures _ _ (fun s => resource_name s base) (memoize base));
    [intros; apply make_resource_name_run | apply Hforced | apply Hforget | apply Hskip].
Qed.

(** Discharges the side conditions of a deletion step: the attributes named
    in the pre- and postcondition are read off the instance. *)
Ltac recorded_none :=
  intros; unfold memoize in *; cbn in *;
  repeat match goal with
    | H : _ /\ _ |- _ => destruct H
    | H : name <$> ?x = None |- _ => destruct x; [discriminate H|clear H]
    | H : (if ?b then name <$> ?x else None) = None |- _ => clear H
    end;
  repeat split; try assumption; try reflexivity.

Lemma cleanup_ensures_nothing_recorded force :
  ensures (fun _ => True) (cleanup force) nothing_recorded.
Proof.
  unfold cleanup, nothing_recorded. unfold_deletes.
  apply (ensures_seq _ (fun s => forwarding_rule s = None));
    [apply base_delete_ensures; recorded_none|].
  apply (ensures_seq _ (fun s => forwarding_rule s = None));
    [apply base_delete_ensures; recorded_none|].
  apply (ensures_seq _ (fun s => forwarding_rule s = None /\ target_proxy s = None));
    [apply base_delete_ensures; recorded_none|].
  apply (ensures_seq _ (fun s => forwarding_rule s = None /\ target_proxy s = None /\
                                 url_map s = None));
    [apply base_delete_ensures; recorded_none|].
  apply (ensures_seq _ (fun s => forwarding_rule s = None /\ target_proxy s = None /\
                                 url_map s = None /\ backend_service s = None));
    [apply base_delete_ensures; recorded_none|].
  apply (ensures_seq _ (fun s => forwarding_rule s = None /\ target_proxy s = None /\
                                 url_map s = None /\ backend_service s = None /\
                                 alternative_backend_service s = None));
    [apply base_delete_ensures; recorded_none|].
  apply (ensures_seq _ (fun s => forwarding_rule s = None /\ target_proxy s = None /\
                                 url_map s = None /\ backend_service s = None /\
                                 alternative_backend_service s = None /\
                                 affinity_backend_service s = None));
    [apply base_delete_ensures; recorded_none|].
  apply base_delete_ensures; recorded_none.
Qed.

Lemma ensures_weaken {S A} (P P' Q Q' : S -> Prop) (m : M S A) :
  (forall s, P' s -> P s) -> (forall s, Q s -> Q' s) ->
  ensures P m Q -> ensures P' m Q'.
Proof. intros HP HQ Hm e w s a HP' Hres. apply HQ. eapply Hm; [apply HP, HP'|exact Hres]. Qed.

Lemma appnet_delete_ensures (P Q : AppNet.TrafficDirectorAppNetManager -> Prop)
  base tracked delete_call forget force :
  (forall k s, P s -> Q (forget (AppNet.set_super (memoize k (AppNet.super s)) s))) ->
  (forall s, P s -> Q (forget s)) ->
  (forall s, P s -> tracked s = None -> Q s) ->
  ensures P (delete_resource (fun nm => AppNet.inherited (make_resource_name nm)) base
               tracked delete_call forget force) Q.
Proof.
  intros Hforced Hforget Hskip.
  apply (delete_resource_ensures _ _ (fun s => resource_name (AppNet.super s) base)
           (fun s => AppNet.set_super (memoize base (AppNet.super s)) s));
    [intros; apply appnet_make_resource_name_run | apply Hforced | apply Hforget
    | apply Hskip].
Qed.

Lemma secure_delete_ensures (P Q : Secure.TrafficDirectorSecureManager -> Prop)
  base tracked delete_call forget force :
  (forall k s, P s -> Q (forget (Secure.set_super (memoize k (Secure.super s)) s))) ->
  (forall s, P s -> Q (forget s)) ->
  (forall s, P s -> tracked s = None -> Q s) ->
  ensures P (delete_resource (fun nm => Secure.inherited (make_resource_name nm)) base
               tracked delete_call forget force) Q.
Proof.
  intros Hforced Hforget Hskip.
  apply (delete_resource_ensures _ _ (fun s => resource_name (Secure.super s) base)
           (fun s => Secure.set_super (memoize base (Secure.super s)) s));
    [intros; apply secure_make_resource_name_run | apply Hforced | apply Hforget
    | apply Hskip].
Qed.

Ltac recorded_none_sub :=
  intros; unfold nothing_recorded, memoize in *; cbn in *;
  repeat match goal with
    | H : _ /\ _ |- _ => destruct H
    | H : _ <$> ?x = None |- _ => destruct x; [discriminate H|clear H]
    end;
  repeat split; try assumption; try reflexivity.

Lemma appnet_cleanup_ensures_nothing_recorded force :
  ensures (fun _ => True) (AppNet.cleanup force) appnet_nothing_recorded.
Proof.
  unfold AppNet.cleanup, appnet_nothing_recorded, AppNet.delete_router,
    AppNet.delete_grpc_route, AppNet.inherited.
  apply (ensures_seq _ (fun s => AppNet.router s = None));
    [apply appnet_delete_ensures; recorded_none_sub|].
  apply (ensures_seq _ (fun s => (AppNet.router s = None /\ AppNet.grpc_route s = None) /\
                                 True));
    [apply appnet_delete_ensures; recorded_none_sub|].
  eapply ensures_weaken;
    [ | | apply (ensures_lift AppNet.super AppNet.set_super (cleanup force)
                   (fun _ => True) nothing_recorded
                   (fun t => AppNet.router t = None /\ AppNet.grpc_route t = None));
          [reflexivity | intros s t Ht; exact Ht
          | apply cleanup_ensures_nothing_recorded] ].
  - intros s Hs. exact Hs.
  - intros s [[Hr Hg] Hn]. split; [exact Hr|]. split; [exact Hg|exact Hn].
Qed.

Lemma secure_cleanup_ensures_nothing_recorded force :
  ensures (fun _ => True) (Secure.cleanup force) secure_nothing_recorded.
Proof.
  unfold Secure.cleanup, secure_nothing_recorded, Secure.delete_endpoint_config_selector,
    Secure.delete_server_tls_policy, Secure.delete_client_tls_policy, Secure.inherited.
  apply (ensures_seq _ (fun s => nothing_recorded (Secure.super s))).
  { eapply ensures_weaken;
      [ | | apply (ensures_lift Secure.super Secure.set_super (cleanup force)
                     (fun _ => True) nothing_recorded (fun _ => True));
            [reflexivity | intros; exact I | apply cleanup_ensures_nothing_recorded] ].
    - intros s _. split; exact I.
    - intros s [_ Hn]. exact Hn. }
  apply (ensures_seq _ (fun s => Secure.ecs s = None /\ nothing_recorded (Secure.super s)));
    [apply secure_delete_ensures; recorded_none_sub|].
  apply (ensures_seq _ (fun s => Secure.ecs s = None /\ Secure.server_tls_policy s = None /\
                                 nothing_recorded (Secure.super s)));
    [apply secure_delete_ensures; recorded_none_sub|].
  apply secure_delete_ensures; recorded_none_sub.
Qed.

Lemma runs_plan_nil {S} (m : M S unit) plan e w s :
  runs_plan m plan -> plan s = [] ->
  res (m e w s) = inr tt /\ new_calls w (m e w s) = [].
Proof.
  intros Hruns Hnil.
  destruct (runs_plan_served m plan e w s Hruns) as [Hres Hlog].
  - rewrite Hnil. constructor.
  - split; [exact Hres|]. apply new_calls_app. rewrite Hlog, Hnil. reflexivity.
Qed.

Lemma cleanup_plan_nothing_recorded s : nothing_recorded s -> cleanup_plan false s = [].
Proof.
  intros (Hfr & Htp & Hum & Hbs & Halt & Haff & Hhc).
  unfold cleanup_plan, deletion. rewrite Hfr, Htp, Hum, Hbs, Halt, Haff, Hhc.
  destruct (target_proxy_is_http s); reflexivity.
Qed.

(** X4. A [cleanup] that returns normally, forced or not, leaves no handle
    recorded for any kind it deletes, in each of the three manager classes;
    a non-forced [cleanup] run after it therefore returns normally without a
    request, against any API. *)
Theorem cleanup_leaves_nothing_recorded force e w :
  (forall self, res (cleanup force e w self) = inr tt ->
     nothing_recorded (st (cleanup force e w self)) /\
     forall e' w',
       res (cleanup false e' w' (st (cleanup force e w self))) = inr tt /\
       new_calls w' (cleanup false e' w' (st (cleanup force e w self))) = []) /\
  (forall self, res (AppNet.cleanup force e w self) = inr tt ->
     appnet_nothing_recorded (st (AppNet.cleanup force e w self)) /\
     forall e' w',
       res (AppNet.cleanup false e' w' (st (AppNet.cleanup force e w self))) = inr tt /\
       new_calls w' (AppNet.cleanup false e' w' (st (AppNet.cleanup force e w self))) = []) /\
  (forall self, res (Secure.cleanup force e w self) = inr tt ->
     secure_nothing_recorded (st (Secure.cleanup force e w self)) /\
     forall e' w',
       res (Secure.cleanup false e' w' (st (Secure.cleanup force e w self))) = inr tt /\
       new_calls w' (Secure.cleanup false e' w' (st (Secure.cleanup force e w self))) = []).
Proof.
  split; [|split]; intros self Hres.
  - pose proof (cleanup_ensures_nothing_recorded force e w self tt I Hres) as Hnone.
    split; [exact Hnone|]. intros e' w'.
    apply (runs_plan_nil _ _ _ _ _ (cleanup_runs_plan false)).
    apply cleanup_plan_nothing_recorded, Hnone.
  - pose proof (appnet_cleanup_ensures_nothing_recorded force e w self tt I Hres) as Hnone.
    split; [exact Hnone|]. intros e' w'.
    apply (runs_plan_nil _ _ _ _ _ (appnet_cleanup_runs_plan false)).
    destruct Hnone as (Hr & Hg & Hn). unfold appnet_cleanup_plan, deletion.
    rewrite Hr, Hg, (cleanup_plan_nothing_recorded _ Hn). reflexivity.
  - pose proof (secure_cleanup_ensures_nothing_recorded force e w self tt I Hres) as Hnone.
    split; [exact Hnone|]. intros e' w'.
    apply (runs_plan_nil _ _ _ _ _ (secure_cleanup_runs_plan false)).
    destruct Hnone as (He & Hs & Hc & Hn). unfold secure_cleanup_plan, deletion.
    rewrite He, Hs, Hc, (cleanup_plan_nothing_recorded _ Hn). reflexivity.
Qed.

Lemma cleanup_leaves_nothing_recorded_witness :
  res (cleanup false serving (wld sample_manager_set_up) (st sample_manager_set_up))
    = inr tt /\
  nothing_recorded
    (st (cleanup false serving (wld sample_manager_set_up) (st sample_manager_set_up))).
Proof.
  assert (res (cleanup false serving (wld sample_manager_set_up)
                 (st sample_manager_set_up)) = inr tt) as Hres
    by (vm_compute; reflexivity).
  split; [exact Hres|].
  exact (proj1 (proj1 (cleanup_leaves_nothing_recorded false serving
                         (wld sample_manager_set_up)) _ Hres)).
Defined.

(** ** What cleanup leaves alone *)

Lemma cleanup_observes {X} (f : TrafficDirectorManager -> X) force e w s :
  (forall k s, f (memoize k s) = f s) ->
  (forall v s, f (set_forwarding_rule v s) = f s) ->
  (forall v s, f (set_target_proxy v s) = f s) ->
  (forall v s, f (set_target_proxy_is_http v s) = f s) ->
  (forall v s, f (set_url_map v s) = f s) ->
  (forall v s, f (set_backend_service v s) = f s) ->
  (forall v s, f (set_alternative_backend_service v s) = f s) ->
  (forall v s, f (set_affinity_backend_service v s) = f s) ->
  (forall v s, f (set_health_check v s) = f s) ->
  f (st (cleanup force e w s)) = f s.
Proof.
  intros Hmemo Hfr Htp Hhttp Hum Hbs Halt Haff Hhc. revert e w s. unfold cleanup.
  assert (forall (m1 m2 : M TrafficDirectorManager unit),
             (forall e w s, f (st (m1 e w s)) = f s) ->
             (forall e w s, f (st (m2 e w s)) = f s) ->
             forall e w s, f (st ((m1;; m2) e w s)) = f s) as Hseq.
  { intros m1 m2 H1 H2 e w s. rewrite bind_run.
    destruct (res (m1 e w s)); cbn [st]; [apply H1|]. rewrite H2. apply H1. }
  unfold_deletes.
  repeat (apply Hseq;
          [intros; apply base_delete_observes; [exact Hmemo|];
           intros; rewrite ?Hhttp; auto|]).
  intros; apply base_delete_observes; [exact Hmemo|]. intros; auto.
Qed.

(** X5. [cleanup], forced or not and whatever the API answers, never changes
    the recorded firewall rule, the three sets of backends or the three
    recorded backend-service protocols: a deleted backend service leaves its
    protocol and its backends behind. *)
Theorem cleanup_leaves_alone force e w self :
  let s' := st (cleanup force e w self) in
  firewall_rule s' = firewall_rule self /\
  backends s' = backends self /\
  alternative_backends s' = alternative_backends self /\
  affinity_backends s' = affinity_backends self /\
  backend_service_protocol s' = backend_service_protocol self /\
  alternative_backend_service_protocol s' = alternative_backend_service_protocol self /\
  affinity_backend_service_protocol s' = affinity_backend_service_protocol self.
Proof.
  cbv zeta. repeat split; apply cleanup_observes; reflexivity.
Qed.

(** ** Delete, then create again *)

(** X6. After a [delete_health_check] that returned normally, forced or not,
    no health check is recorded, so that [create_health_check] is let
    through again: it makes its one request, for the same derived name. *)
Theorem delete_health_check_unlocks_create force e w self :
  res (delete_health_check force e w self) = inr tt ->
  health_check (st (delete_health_check force e w self)) = None /\
  forall e' w' protocol port,
    new_calls w' (create_health_check protocol port e' w'
                    (st (delete_health_check force e w self))) =
    [compute_create_health_check (resource_name self HEALTH_CHECK_NAME)
       (default _HealthCheckGRPC protocol) port].
Proof.
  intros Hres.
  assert (health_check (st (delete_health_check force e w self)) = None) as Hnone.
  { apply (base_delete_ensures (fun _ => True) (fun s => health_check s = None)
             HEALTH_CHECK_NAME (fun s => name <$> health_check s)
             compute_delete_health_check (set_health_check None) force) with (a := tt);
      [recorded_none | recorded_none | recorded_none | exact I | exact Hres]. }
  split; [exact Hnone|]. intros e' w' protocol port.
  rewrite create_health_check_run by exact Hnone.
  assert (resource_name (st (delete_health_check force e w self)) HEALTH_CHECK_NAME =
          resource_name self HEALTH_CHECK_NAME) as ->
    by (apply base_delete_keeps_resource_name; reflexivity).
  destruct (remote e' (log w') _); apply new_calls_app; reflexivity.
Qed.

Lemma delete_health_check_unlocks_create_witness :
  res (delete_health_check false serving (wld sample_manager_set_up)
         (st sample_manager_set_up)) = inr tt /\
  new_calls fresh_world
    (create_health_check None None serving fresh_world
       (st (delete_health_check false serving (wld sample_manager_set_up)
              (st sample_manager_set_up)))) =
  [compute_create_health_check "psm-interop-health-check-20211101" HealthCheckGRPC None].
Proof.
  assert (res (delete_health_check false serving (wld sample_manager_set_up)
                 (st sample_manager_set_up)) = inr tt) as Hres
    by (vm_compute; reflexivity).
  split; [exact Hres|].
  destruct (delete_health_check_unlocks_create false serving (wld sample_manager_set_up)
              (st sample_manager_set_up) Hres) as [_ Hcreate].
  rewrite Hcreate. vm_compute. reflexivity.
Defined.

(** ** Creating out of order *)

Lemma create_target_proxy_needs_url_map e w self protocol :
  backend_service_protocol self = Some protocol ->
  protocol = GRPC \/ protocol = HTTP2 ->
  url_map self = None ->
  create_target_proxy e w self =
  {| res := inl (AttributeError "'NoneType' object has no attribute 'name'");
     st := set_target_proxy_is_http
             (match protocol with HTTP2 => true | _ => false end)
             (memoize TARGET_PROXY_NAME self);
     wld := w |}.
Proof.
  intros Hp Hflavour Hum. unfold create_target_proxy.
  rewrite bind_run, make_resource_name_run. cbn [res st wld].
  unfold_monad. cbn [res st wld log draws].
  change (backend_service_protocol (memoize TARGET_PROXY_NAME self))
    with (backend_service_protocol self).
  rewrite Hp.
  destruct Hflavour as [-> | ->]; unfold_monad; cbn [res st wld log draws].
  - change (url_map (set_target_proxy_is_http false (memoize TARGET_PROXY_NAME self)))
      with (url_map self).
    rewrite Hum. reflexivity.
  - change (url_map (set_target_proxy_is_http true (memoize TARGET_PROXY_NAME self)))
      with (url_map self).
    rewrite Hum. reflexivity.
Qed.

(** X7. The create methods that build on an earlier handle raise
    [AttributeError] before any request when that handle is not recorded:
    [create_url_map] and [AppNet.create_grpc_route] without a backend
    service, [create_target_proxy] without a URL map (it has by then already
    assigned [target_proxy_is_http]), [create_forwarding_rule] without a
    target proxy and [AppNet.create_router] without a route. *)
Theorem create_needs_earlier_handle e w :
  (forall self host port,
     backend_service self = None ->
     exists msg, res (create_url_map host port e w self) = inl (AttributeError msg) /\
                 wld (create_url_map host port e w self) = w /\
                 url_map (st (create_url_map host port e w self)) = url_map self) /\
  (forall self protocol,
     backend_service_protocol self = Some protocol ->
     protocol = GRPC \/ protocol = HTTP2 ->
     url_map self = None ->
     exists msg, res (create_target_proxy e w self) = inl (AttributeError msg) /\
                 wld (create_target_proxy e w self) = w /\
                 target_proxy (st (create_target_proxy e w self)) = target_proxy self /\
                 target_proxy_is_http (st (create_target_proxy e w self)) =
                   match protocol with HTTP2 => true | _ => false end) /\
  (forall self port,
     target_proxy self = None ->
     exists msg, res (create_forwarding_rule port e w self) = inl (AttributeError msg) /\
                 wld (create_forwarding_rule port e w self) = w /\
                 forwarding_rule (st (create_forwarding_rule port e w self)) =
                   forwarding_rule self) /\
  (forall self host port,
     backend_service (AppNet.super self) = None ->
     exists msg,
       AppNet.create_grpc_route host port e w self =
       {| res := inl (AttributeError msg); st := self; wld := w |}) /\
  (forall self,
     AppNet.grpc_route self = None ->
     exists msg, res (AppNet.create_router e w self) = inl (AttributeError msg) /\
                 wld (AppNet.create_router e w self) = w /\
                 AppNet.router (st (AppNet.create_router e w self)) = AppNet.router self).
Proof.
  split; [|split; [|split; [|split]]].
  - intros self host port Hbs. eexists.
    rewrite create_url_map_needs_backend_service by exact Hbs. repeat split.
  - intros self protocol Hp Hflavour Hum. eexists.
    rewrite (create_target_proxy_needs_url_map e w self protocol) by assumption.
    repeat split.
  - intros self port Htp. eexists.
    rewrite create_forwarding_rule_needs_target_proxy by exact Htp. repeat split.
  - intros self host port Hbs. eexists.
    unfold AppNet.create_grpc_route. unfold_monad. cbn [res st wld]. rewrite Hbs.
    reflexivity.
  - intros self Hroute. eexists.
    unfold AppNet.create_router.
    rewrite bind_run, appnet_make_resource_name_run. cbn [res st wld].
    unfold_monad. cbn [res st wld AppNet.grpc_route AppNet.set_super]. rewrite Hroute.
    repeat split.
Qed.

Lemma create_needs_earlier_handle_witness :
  (exists msg,
      res (create_url_map "svc.local" 8080 serving fresh_world sample_manager) =
      inl (AttributeError msg)) /\
  (exists msg,
      res (create_forwarding_rule 8080 serving fresh_world sample_manager) =
      inl (AttributeError msg)) /\
  (exists msg,
      res (AppNet.create_router serving fresh_world sample_appnet_manager) =
      inl (AttributeError msg)).
Proof.
  destruct (create_needs_earlier_handle serving fresh_world)
    as (Hum & _ & Hfr & _ & Hrouter).
  split; [|split].
  - destruct (Hum sample_manager "svc.local" 8080 eq_refl) as (msg & Hres & _).
    exists msg. exact Hres.
  - destruct (Hfr sample_manager 8080 eq_refl) as (msg & Hres & _).
    exists msg. exact Hres.
  - destruct (Hrouter sample_appnet_manager eq_refl) as (msg & Hres & _).
    exists msg. exact Hres.
Defined.

(** ** Loading *)

(** X8. [load_backend_service] records the handle that the API answers for
    the derived name and nothing else: a non-forced
    [delete_backend_service] then deletes it by the name the API reported,
    but the protocol stays as it was, so that on an instance without a
    recorded protocol [create_target_proxy] still raises [TypeError] before
    any request. *)
Theorem load_backend_service_records_handle_only e w self loaded :
  remote e (log w)
    (compute_get_backend_service_traffic_director
       (resource_name self BACKEND_SERVICE_NAME)) = inr loaded ->
  let r := load_backend_service e w self in
  res r = inr tt /\
  new_calls w r =
    [compute_get_backend_service_traffic_director (resource_name self BACKEND_SERVICE_NAME)] /\
  backend_service (st r) = Some loaded /\
  backend_service_protocol (st r) = backend_service_protocol self /\
  (forall e' w',
     new_calls w' (delete_backend_service false e' w' (st r)) =
     [compute_delete_backend_service (name loaded)]) /\
  (backend_service_protocol self = None ->
   forall e' w',
     res (create_target_proxy e' w' (st r)) =
       inl (TypeError "Unexpected backend service protocol") /\
     wld (create_target_proxy e' w' (st r)) = w').
Proof.
  intros Hloaded r.
  assert (r = {| res := inr tt;
                 st := set_backend_service (Some loaded) (memoize BACKEND_SERVICE_NAME self);
                 wld := after_request w
                          (compute_get_backend_service_traffic_director
                             (resource_name self BACKEND_SERVICE_NAME)) |}) as ->.
  { subst r. unfold load_backend_service.
    rewrite bind_run, make_resource_name_run. cbn [res st wld].
    unfold_monad. cbn [res st wld log draws]. rewrite Hloaded. reflexivity. }
  cbn [res st wld].
  split; [reflexivity|]. split; [apply new_calls_app; reflexivity|].
  split; [reflexivity|]. split; [reflexivity|]. split.
  - intros e' w'. unfold delete_backend_service.
    rewrite (delete_resource_run make_resource_name BACKEND_SERVICE_NAME
               (fun s => resource_name s BACKEND_SERVICE_NAME)
               (memoize BACKEND_SERVICE_NAME))
      by (intros; apply make_resource_name_run).
    cbv zeta.
    change (name <$> backend_service
              (set_backend_service (Some loaded) (memoize BACKEND_SERVICE_NAME self)))
      with (Some (name loaded)).
    cbv iota.
    destruct (remote e' (log w') _); apply new_calls_app; reflexivity.
  - intros Hnone e' w'.
    rewrite create_target_proxy_unsupported; [split; reflexivity| |];
      intros Heq;
      [ change (backend_service_protocol self = Some GRPC) in Heq
      | change (backend_service_protocol self = Some HTTP2) in Heq ];
      congruence.
Qed.

Lemma load_backend_service_records_handle_only_witness :
  res (load_backend_service serving fresh_world sample_manager) = inr tt /\
  res (create_target_proxy serving fresh_world
         (st (load_backend_service serving fresh_world sample_manager))) =
  inl (TypeError "Unexpected backend service protocol").
Proof.
  destruct (load_backend_service_records_handle_only serving fresh_world sample_manager
              (served (compute_get_backend_service_traffic_director
                         (resource_name sample_manager BACKEND_SERVICE_NAME))) eq_refl)
    as (Hres & _ & _ & _ & _ & Hproxy).
  split; [exact Hres|].
  exact (proj1 (Hproxy eq_refl serving fresh_world)).
Defined.

(** ** Port search: the first free sample, and the degenerate ranges *)

Lemma find_unused_loop_first_free e self lo hi :
  lo <= hi ->
  forall (i n : nat) w,
    (i < n)%nat ->
    (forall j, (j < i)%nat ->
       remote e (log w ++ port_checks e w lo hi j)
         (compute_exists_forwarding_rule (sampled_port e w lo hi j)) = inr true) ->
    remote e (log w ++ port_checks e w lo hi i)
      (compute_exists_forwarding_rule (sampled_port e w lo hi i)) = inr false ->
    find_unused_forwarding_rule_port_loop n lo hi e w self =
    {| res := inr (sampled_port e w lo hi i); st := self;
       wld := {| log := log w ++ port_checks e w lo hi (Datatypes.S i);
                 draws := (draws w + Datatypes.S i)%nat |} |}.
Proof.
  intros Hrange. induction i as [|i IH]; intros n w Hin Htaken Hfree;
    (destruct n as [|n]; [lia|]); simpl.
  - rewrite bind_run. unfold randint.
    destruct (hi <? lo) eqn:Hlt; [apply Z.ltb_lt in Hlt; lia|]. simpl.
    rewrite bind_run. unfold request at 1 2 3 4 5. simpl.
    unfold port_checks in Hfree. simpl in Hfree. rewrite app_nil_r in Hfree.
    unfold sampled_port in Hfree. rewrite Nat.add_0_r in Hfree.
    rewrite Hfree. simpl. unfold_monad.
    unfold port_checks, sampled_port. simpl.
    rewrite Nat.add_0_r, Nat.add_1_r. reflexivity.
  - rewrite bind_run. unfold randint.
    destruct (hi <? lo) eqn:Hlt; [apply Z.ltb_lt in Hlt; lia|]. simpl.
    rewrite bind_run. unfold request at 1 2 3 4 5. simpl.
    pose proof (Htaken O ltac:(lia)) as Hfirst.
    unfold port_checks in Hfirst. simpl in Hfirst. rewrite app_nil_r in Hfirst.
    unfold sampled_port in Hfirst. rewrite Nat.add_0_r in Hfirst.
    rewrite Hfirst. simpl.
    assert (forall j,
               sampled_port e
                 {| log := log w ++
                      [compute_exists_forwarding_rule
                         (lo + entropy e (draws w) `mod` (hi - lo + 1))];
                    draws := Datatypes.S (draws w) |} lo hi j =
               sampled_port e w lo hi (Datatypes.S j)) as Hshift
      by (intros j; unfold sampled_port; simpl; rewrite Nat.add_succ_r; reflexivity).
    assert (forall j,
               log w ++ port_checks e w lo hi (Datatypes.S j) =
               (log w ++ [compute_exists_forwarding_rule
                            (lo + entropy e (draws w) `mod` (hi - lo + 1))]) ++
               port_checks e
                 {| log := log w ++
                      [compute_exists_forwarding_rule
                         (lo + entropy e (draws w) `mod` (hi - lo + 1))];
                    draws := Datatypes.S (draws w) |} lo hi j) as Hlogs.
    { intros j. rewrite port_checks_step. unfold sampled_port at 1 2.
      rewrite Nat.add_0_r, <- app_assoc. reflexivity. }
    rewrite IH.
    + rewrite Hshift. simpl. rewrite <- Hlogs.
      rewrite <- Nat.add_succ_r. reflexivity.
    + lia.
    + intros j Hj. simpl. rewrite Hshift, <- Hlogs. apply Htaken. lia.
    + simpl. rewrite Hshift, <- Hlogs. exact Hfree.
Qed.

(** X9. [find_unused_forwarding_rule_port] returns the first sample whose
    existence check is answered [False]: when the checks of the attempts
    before the [i]-th are answered [True] and that of the [i]-th [False],
    with [i] within the budget, it returns the [i]-th sampled port after
    exactly these checks, and the instance is as it was. *)
Theorem find_unused_port_returns_first_free e w self lo hi attempts (i : nat) :
  lo <= hi ->
  (i < Z.to_nat attempts)%nat ->
  (forall j, (j < i)%nat ->
     remote e (log w ++ port_checks e w lo hi j)
       (compute_exists_forwarding_rule (sampled_port e w lo hi j)) = inr true) ->
  remote e (log w ++ port_checks e w lo hi i)
    (compute_exists_forwarding_rule (sampled_port e w lo hi i)) = inr false ->
  let r := find_unused_forwarding_rule_port lo hi attempts e w self in
  res r = inr (sampled_port e w lo hi i) /\
  new_calls w r = port_checks e w lo hi (Datatypes.S i) /\
  st r = self.
Proof.
  intros Hrange Hi Htaken Hfree r. subst r. unfold find_unused_forwarding_rule_port.
  rewrite (find_unused_loop_first_free e self lo hi Hrange i _ w Hi Htaken Hfree).
  split; [reflexivity|]. split; [|reflexivity]. apply new_calls_app. reflexivity.
Qed.

Lemma find_unused_port_returns_first_free_witness :
  res (find_unused_forwarding_rule_port 1024 65535 25 third_port_free fresh_world
         sample_manager) = inr 1026 /\
  length (new_calls fresh_world
            (find_unused_forwarding_rule_port 1024 65535 25 third_port_free fresh_world
               sample_manager)) = 3%nat.
Proof.
  destruct (find_unused_port_returns_first_free third_port_free fresh_world sample_manager
              1024 65535 25 2) as (Hres & Hcalls & _).
  - lia.
  - vm_compute. lia.
  - intros j Hj. destruct j as [|[|j]]; [reflexivity|reflexivity|lia].
  - reflexivity.
  - split; [exact Hres|]. rewrite Hcalls. reflexivity.
Defined.

(** X10. With no attempt allowed ([attempts <= 0])
    [find_unused_forwarding_rule_port] raises [RuntimeError] at once, and
    with an empty range ([hi < lo]) and at least one attempt it raises the
    [ValueError] of [random.randint]; in both cases no port is sampled, no
    request is made and the instance is as it was. *)
Theorem find_unused_port_degenerate e w self lo hi attempts :
  (attempts <= 0 ->
   find_unused_forwarding_rule_port lo hi attempts e w self =
   {| res := inl (RuntimeError "Couldn't find unused forwarding rule port");
      st := self; wld := w |}) /\
  (0 < attempts -> hi < lo ->
   exists msg,
     find_unused_forwarding_rule_port lo hi attempts e w self =
     {| res := inl (ValueError msg); st := self; wld := w |}).
Proof.
  unfold find_unused_forwarding_rule_port. split.
  - intros Hnone. rewrite Z2Nat.nonpos by exact Hnone. reflexivity.
  - intros Hsome Hempty.
    destruct (Z.to_nat attempts) as [|n] eqn:Hn; [lia|]. simpl.
    rewrite bind_run. unfold randint.
    destruct (hi <? lo) eqn:Hlt; [|apply Z.ltb_ge in Hlt; lia].
    eexists. reflexivity.
Qed.

Lemma find_unused_port_degenerate_witness :
  find_unused_forwarding_rule_port 1024 65535 0 serving fresh_world sample_manager =
    {| res := inl (RuntimeError "Couldn't find unused forwarding rule port");
       st := sample_manager; wld := fresh_world |} /\
  exists msg,
    find_unused_forwarding_rule_port 65535 1024 25 serving fresh_world sample_manager =
    {| res := inl (ValueError msg); st := sample_manager; wld := fresh_world |}.
Proof.
  split.
  - apply (proj1 (find_unused_port_degenerate serving fresh_world sample_manager
                    1024 65535 0)). lia.
  - apply (proj2 (find_unused_port_degenerate serving fresh_world sample_manager
                    65535 1024 25)); lia.
Defined.

(** ** Backend attachment: a failing poll, and the three services apart *)

Section poll_into.
Context (held : TrafficDirectorManager -> gset ZonalGcpResource).
Context (hold : gset ZonalGcpResource -> TrafficDirectorManager -> TrafficDirectorManager).
Hypothesis held_hold : forall v s, held (hold v s) = v.
Hypothesis hold_hold : forall v v' s, hold v (hold v' s) = hold v s.
Hypothesis hold_held : forall s, hold (held s) s = s.

Lemma poll_into_run nm zn e w self :
  poll_into held hold nm zn e w self =
  match remote e (log w) (compute_wait_for_network_endpoint_group nm zn) with
  | inl x =>
      {| res := inl x; st := self;
         wld := after_request w (compute_wait_for_network_endpoint_group nm zn) |}
  | inr backend =>
      {| res := inr tt; st := hold (held self ∪ {[ backend ]}) self;
         wld := after_request w (compute_wait_for_network_endpoint_group nm zn) |}
  end.
Proof.
  unfold poll_into. unfold_monad. simpl.
  destruct (remote e (log w) _); reflexivity.
Qed.

Lemma poll_into_resolved e nm zones :
  (forall h zn, exists backend,
      remote e h (compute_wait_for_network_endpoint_group nm zn) = inr backend) ->
  forall w self,
    for_each zones (poll_into held hold nm) e w self =
    {| res := inr tt;
       st := hold (held self ∪ list_to_set (poll_zones e (log w) nm zones)) self;
       wld := {| log := log w ++ map (compute_wait_for_network_endpoint_group nm) zones;
                 draws := draws w |} |}.
Proof.
  intros Hvisible. induction zones as [|zn zones IH]; intros w self; simpl.
  - unfold_monad. rewrite app_nil_r, (right_id_L ∅ (∪)), hold_held.
    destruct w; reflexivity.
  - rewrite bind_run, poll_into_run.
    destruct (Hvisible (log w) zn) as [backend Hbackend]. rewrite Hbackend.
    cbn [res st wld]. rewrite IH. cbn [log draws after_request].
    rewrite held_hold, hold_hold, <- app_assoc, <- (assoc_L (∪)). reflexivity.
Qed.

Lemma poll_into_failed e nm zones : forall w self,
  (length (poll_zones e (log w) nm zones) < length zones)%nat ->
  let found := poll_zones e (log w) nm zones in
  let r := for_each zones (poll_into held hold nm) e w self in
  exists x zn,
    zones !! length found = Some zn /\
    failure_of
      (remote e (log w ++ map (compute_wait_for_network_endpoint_group nm)
                            (take (length found) zones))
         (compute_wait_for_network_endpoint_group nm zn)) = Some x /\
    res r = inl x /\
    st r = hold (held self ∪ list_to_set found) self /\
    log (wld r) = log w ++ map (compute_wait_for_network_endpoint_group nm)
                             (take (Datatypes.S (length found)) zones).
Proof.
  induction zones as [|zn zones IH]; intros w self; simpl; [lia|].
  rewrite bind_run, poll_into_run.
  destruct (remote e (log w) (compute_wait_for_network_endpoint_group nm zn))
    as [x|backend] eqn:Hanswer; cbn [res st wld]; intros Hshort.
  - exists x, zn. simpl. rewrite app_nil_r, Hanswer, (right_id_L ∅ (∪)), hold_held.
    repeat split.
  - simpl in Hshort.
    destruct (IH (after_request w (compute_wait_for_network_endpoint_group nm zn))
                (hold (held self ∪ {[ backend ]}) self))
      as (x & zn' & Hzn & Hfail & Hres & Hst & Hlog).
    { cbn [log after_request]. lia. }
    unfold after_request in *. cbn [log] in *.
    exists x, zn'. simpl. split; [exact Hzn|].
    split; [rewrite <- app_assoc in Hfail; exact Hfail|].
    split; [exact Hres|]. split.
    + etransitivity; [exact Hst|].
      rewrite held_hold, hold_hold, <- (assoc_L (∪)). reflexivity.
    + etransitivity; [exact Hlog|]. rewrite <- app_assoc. reflexivity.
Qed.

End poll_into.

Lemma set_alternative_backends_same self :
  set_alternative_backends (alternative_backends self) self = self.
Proof. destruct self; reflexivity. Qed.

Lemma set_affinity_backends_same self :
  set_affinity_backends (affinity_backends self) self = self.
Proof. destruct self; reflexivity. Qed.

(** X11. When a poll of [backend_service_add_neg_backends] fails, the
    exception of that poll is raised and no later zone is polled; the
    backends found in the zones before it have been added to
    [self.backends] and stay there, and no [backend_service_add_backends]
    request is made. *)
Theorem add_neg_backends_failed_poll e w self nm zones :
  let found := poll_zones e (log w) nm zones in
  let r := backend_service_add_neg_backends nm zones e w self in
  (length found < length zones)%nat ->
  exists x zn,
    zones !! length found = Some zn /\
    failure_of
      (remote e (log w ++ map (compute_wait_for_network_endpoint_group nm)
                            (take (length found) zones))
         (compute_wait_for_network_endpoint_group nm zn)) = Some x /\
    res r = inl x /\
    new_calls w r =
      map (compute_wait_for_network_endpoint_group nm)
        (take (Datatypes.S (length found)) zones) /\
    backends (st r) = backends self ∪ list_to_set found /\
    backend_service (st r) = backend_service self.
Proof.
  intros found r Hshort. subst found r.
  destruct (poll_into_failed backends set_backends
              ltac:(reflexivity) ltac:(reflexivity) set_backends_same
              e nm zones w self Hshort)
    as (x & zn & Hzn & Hfail & Hres & Hst & Hlog).
  exists x, zn. split; [exact Hzn|]. split; [exact Hfail|].
  unfold backend_service_add_neg_backends.
  change (fun zn0 : string =>
            backend ← request (compute_wait_for_network_endpoint_group nm zn0);
            modify (fun self0 => set_backends (backends self0 ∪ {[ backend ]}) self0))
    with (poll_into backends set_backends nm).
  rewrite bind_run, Hres. cbn [res st wld].
  split; [reflexivity|]. split; [apply new_calls_app, Hlog|].
  rewrite Hst. split; reflexivity.
Qed.

Lemma add_neg_backends_failed_poll_witness :
  res (backend_service_add_neg_backends "neg" ["zone-a"; "zone-b"; "zone-c"]
         second_poll_fails fresh_world (st sample_manager_set_up)) =
    inl (RemoteError "timeout") /\
  new_calls fresh_world
    (backend_service_add_neg_backends "neg" ["zone-a"; "zone-b"; "zone-c"]
       second_poll_fails fresh_world (st sample_manager_set_up)) =
    [compute_wait_for_network_endpoint_group "neg" "zone-a";
     compute_wait_for_network_endpoint_group "neg" "zone-b"].
Proof.
  destruct (add_neg_backends_failed_poll second_poll_fails fresh_world
              (st sample_manager_set_up) "neg" ["zone-a"; "zone-b"; "zone-c"])
    as (x & zn & Hzn & Hfail & Hres & Hcalls & _).
  - vm_compute. lia.
  - vm_compute in Hzn, Hfail. injection Hzn as <-. injection Hfail as <-.
    split; [exact Hres|]. rewrite Hcalls. reflexivity.
Defined.

(** X12. The alternative and the affinity backend service keep backends of
    their own: with its service recorded and every poll resolving,
    [alternative_backend_service_add_neg_backends] (and likewise the affinity
    method) polls the zones in order and then makes one add-backends request
    for its own service with its own set and the backends found, and leaves
    the sets of the other two services as they were. *)
Theorem other_services_keep_backends_apart e w self nm zones bs :
  (forall h zn, exists backend,
      remote e h (compute_wait_for_network_endpoint_group nm zn) = inr backend) ->
  let found := poll_zones e (log w) nm zones in
  let polls := map (compute_wait_for_network_endpoint_group nm) zones in
  (alternative_backend_service self = Some bs ->
   let r := alternative_backend_service_add_neg_backends nm zones e w self in
   new_calls w r =
     polls ++ [compute_backend_service_add_backends bs
                 (alternative_backends self ∪ list_to_set found)] /\
   alternative_backends (st r) = alternative_backends self ∪ list_to_set found /\
   backends (st r) = backends self /\
   affinity_backends (st r) = affinity_backends self) /\
  (affinity_backend_service self = Some bs ->
   let r := affinity_backend_service_add_neg_backends nm zones e w self in
   new_calls w r =
     polls ++ [compute_backend_service_add_backends bs
                 (affinity_backends self ∪ list_to_set found)] /\
   affinity_backends (st r) = affinity_backends self ∪ list_to_set found /\
   backends (st r) = backends self /\
   alternative_backends (st r) = alternative_backends self).
Proof.
  intros Hvisible found polls. subst found polls. split; intros Hbs r; subst r.
  - unfold alternative_backend_service_add_neg_backends.
    change (fun zn0 : string =>
              backend ← request (compute_wait_for_network_endpoint_group nm zn0);
              modify (fun self0 =>
                        set_alternative_backends
                          (alternative_backends self0 ∪ {[ backend ]}) self0))
      with (poll_into alternative_backends set_alternative_backends nm).
    rewrite bind_run.
    rewrite (poll_into_resolved alternative_backends set_alternative_backends
               ltac:(reflexivity) ltac:(reflexivity) set_alternative_backends_same
               e nm zones Hvisible).
    cbn [res st wld]. unfold alternative_backend_service_add_backends.
    unfold_monad. cbn [res st wld log draws].
    change (alternative_backend_service (set_alternative_backends _ self))
      with (alternative_backend_service self).
    rewrite Hbs. unfold_monad. cbn [res st wld log draws].
    split; [apply new_calls_app; cbn [wld log]; rewrite <- app_assoc; reflexivity|].
    repeat split.
  - unfold affinity_backend_service_add_neg_backends.
    change (fun zn0 : string =>
              backend ← request (compute_wait_for_network_endpoint_group nm zn0);
              modify (fun self0 =>
                        set_affinity_backends (affinity_backends self0 ∪ {[ backend ]}) self0))
      with (poll_into affinity_backends set_affinity_backends nm).
    rewrite bind_run.
    rewrite (poll_into_resolved affinity_backends set_affinity_backends
               ltac:(reflexivity) ltac:(reflexivity) set_affinity_backends_same
               e nm zones Hvisible).
    cbn [res st wld]. unfold affinity_backend_service_add_backends.
    unfold_monad. cbn [res st wld log draws].
    change (affinity_backend_service (set_affinity_backends _ self))
      with (affinity_backend_service self).
    rewrite Hbs. unfold_monad. cbn [res st wld log draws].
    split; [apply new_calls_app; cbn [wld log]; rewrite <- app_assoc; reflexivity|].
    repeat split.
Qed.

Lemma other_services_keep_backends_apart_witness :
  alternative_backend_service sample_manager_with_alternative =
    Some {| name := "psm-interop-backend-service-alt-20211101";
            url := "global/psm-interop-backend-service-alt-20211101" |} /\
  backends (st (alternative_backend_service_add_neg_backends "neg" ["zone-a"; "zone-b"]
                  serving fresh_world sample_manager_with_alternative)) =
  backends sample_manager_with_alternative.
Proof.
  assert (alternative_backend_service sample_manager_with_alternative =
          Some {| name := "psm-interop-backend-service-alt-20211101";
                  url := "global/psm-interop-backend-service-alt-20211101" |}) as Hbs
    by (vm_compute; reflexivity).
  split; [exact Hbs|].
  destruct (other_services_keep_backends_apart serving fresh_world
              sample_manager_with_alternative "neg" ["zone-a"; "zone-b"]
              {| name := "psm-interop-backend-service-alt-20211101";
                 url := "global/psm-interop-backend-service-alt-20211101" |}
              ltac:(intros h zn; eexists; reflexivity)) as [Halt _].
  destruct (Halt Hbs) as (_ & _ & Hkept & _). exact Hkept.
Defined.

(** ** The security setups *)

Lemma create_server_tls_policy_run e w self tls mtls :
  tls || mtls = true ->
  Secure.create_server_tls_policy tls mtls e w self =
  and_then
    (request (netsec_create_server_tls_policy
                (resource_name (Secure.super self) Secure.SERVER_TLS_POLICY_NAME)
                (server_policy_document tls mtls)) e w
       (Secure.set_super (memoize Secure.SERVER_TLS_POLICY_NAME (Secure.super self)) self))
    (fun _ w1 s1 =>
       and_then
         (request (netsec_get_server_tls_policy
                     (resource_name (Secure.super self) Secure.SERVER_TLS_POLICY_NAME))
            e w1 s1)
         (fun loaded w2 s2 =>
            {| res := inr tt; st := Secure.set_server_tls_policy (Some loaded) s2;
               wld := w2 |})).
Proof.
  intros Hflags. unfold Secure.create_server_tls_policy.
  rewrite bind_run, secure_make_resource_name_run. cbn [res st wld].
  destruct tls, mtls; try discriminate Hflags; cbn [negb andb];
    unfold and_then, server_policy_document, dict_set; unfold_monad;
    cbn [res st wld log draws app];
    repeat match goal with |- context [remote ?e ?h ?c] => destruct (remote e h c) end;
    reflexivity.
Qed.

Lemma create_client_tls_policy_run e w self tls mtls :
  tls || mtls = true ->
  Secure.create_client_tls_policy tls mtls e w self =
  and_then
    (request (netsec_create_client_tls_policy
                (resource_name (Secure.super self) Secure.CLIENT_TLS_POLICY_NAME)
                (client_policy_document tls mtls)) e w
       (Secure.set_super (memoize Secure.CLIENT_TLS_POLICY_NAME (Secure.super self)) self))
    (fun _ w1 s1 =>
       and_then
         (request (netsec_get_client_tls_policy
                     (resource_name (Secure.super self) Secure.CLIENT_TLS_POLICY_NAME))
            e w1 s1)
         (fun loaded w2 s2 =>
            {| res := inr tt; st := Secure.set_client_tls_policy (Some loaded) s2;
               wld := w2 |})).
Proof.
  intros Hflags. unfold Secure.create_client_tls_policy.
  rewrite bind_run, secure_make_resource_name_run. cbn [res st wld].
  destruct tls, mtls; try discriminate Hflags; cbn [negb andb];
    unfold and_then, client_policy_document, dict_set; unfold_monad;
    cbn [res st wld log draws app];
    repeat match goal with |- context [remote ?e ?h ?c] => destruct (remote e h c) end;
    reflexivity.
Qed.

Lemma create_server_tls_policy_off e w self :
  Secure.create_server_tls_policy false false e w self =
  {| res := inr tt;
     st := Secure.set_super (memoize Secure.SERVER_TLS_POLICY_NAME (Secure.super self)) self;
     wld := w |}.
Proof.
  unfold Secure.create_server_tls_policy.
  rewrite bind_run, secure_make_resource_name_run. reflexivity.
Qed.

Lemma create_client_tls_policy_off e w self :
  Secure.create_client_tls_policy false false e w self =
  {| res := inr tt;
     st := Secure.set_super (memoize Secure.CLIENT_TLS_POLICY_NAME (Secure.super self)) self;
     wld := w |}.
Proof.
  unfold Secure.create_client_tls_policy.
  rewrite bind_run, secure_make_resource_name_run. reflexivity.
Qed.

Lemma create_endpoint_config_selector_log e w self ns nm port :
  log (wld (Secure.create_endpoint_config_selector ns nm port e w self)) =
  log w ++
  netsvc_create_endpoint_config_selector
    (resource_name (Secure.super self) Secure.ENDPOINT_CONFIG_SELECTOR_NAME)
    (JDict (endpoint_config ns nm port ++
            match Secure.server_tls_policy self with
            | Some policy => [("serverTlsPolicy", JStr (server_policy_name policy))]
            | None => []
            end)) ::
  match remote e (log w)
          (netsvc_create_endpoint_config_selector
             (resource_name (Secure.super self) Secure.ENDPOINT_CONFIG_SELECTOR_NAME)
             (JDict (endpoint_config ns nm port ++
                     match Secure.server_tls_policy self with
                     | Some policy => [("serverTlsPolicy", JStr (server_policy_name policy))]
                     | None => []
                     end))) with
  | inl _ => []
  | inr _ =>
      [netsvc_get_endpoint_config_selector
         (resource_name (Secure.super self) Secure.ENDPOINT_CONFIG_SELECTOR_NAME)]
  end.
Proof.
  unfold Secure.create_endpoint_config_selector.
  rewrite bind_run, secure_make_resource_name_run. cbn [res st wld].
  unfold_monad. cbn [res st wld log draws Secure.server_tls_policy Secure.set_super].
  unfold endpoint_config, dict_set.
  destruct (Secure.server_tls_policy self) as [policy|]; cbn [app];
    (destruct (remote e (log w) _); cbn [res st wld log draws];
     [reflexivity|]);
    (destruct (remote e _ (netsvc_get_endpoint_config_selector _));
     cbn [res st wld log draws]; rewrite <- app_assoc; reflexivity).
Qed.

Lemma create_endpoint_config_selector_keeps_policies e w self ns nm port :
  Secure.server_tls_policy (st (Secure.create_endpoint_config_selector ns nm port e w self)) =
    Secure.server_tls_policy self /\
  Secure.client_tls_policy (st (Secure.create_endpoint_config_selector ns nm port e w self)) =
    Secure.client_tls_policy self.
Proof.
  unfold Secure.create_endpoint_config_selector.
  rewrite bind_run, secure_make_resource_name_run. cbn [res st wld].
  unfold_monad. cbn [res st wld log draws].
  destruct (remote e (log w) _); cbn [res st wld log draws]; [split; reflexivity|].
  destruct (remote e _ (netsvc_get_endpoint_config_selector _));
    cbn [res st wld log draws]; split; reflexivity.
Qed.

Lemma create_server_tls_policy_loaded e w self tls mtls (policy : ServerTlsPolicy) :
  let policy_name := resource_name (Secure.super self) Secure.SERVER_TLS_POLICY_NAME in
  let create_policy :=
    netsec_create_server_tls_policy policy_name (server_policy_document tls mtls) in
  tls || mtls = true ->
  remote e (log w) create_policy = inr tt ->
  remote e (log w ++ [create_policy]) (netsec_get_server_tls_policy policy_name) =
    inr policy ->
  Secure.create_server_tls_policy tls mtls e w self =
  {| res := inr tt;
     st := Secure.set_server_tls_policy (Some policy)
             (Secure.set_super (memoize Secure.SERVER_TLS_POLICY_NAME (Secure.super self))
                self);
     wld := {| log := (log w ++ [create_policy]) ++
                      [netsec_get_server_tls_policy policy_name];
               draws := draws w |} |}.
Proof.
  intros policy_name create_policy Hflags Hcreate Hget.
  subst policy_name create_policy.
  rewrite (create_server_tls_policy_run e w self tls mtls Hflags).
  unfold and_then, request. cbn [res st wld log draws].
  rewrite Hcreate. cbn [res st wld log draws].
  rewrite Hget. reflexivity.
Qed.

(** X13. When [setup_server_security] is asked for TLS or mTLS and the policy
    is created and loaded, the endpoint config selector is created next, and
    its config names the policy by the name the API reported for it, not by
    the derived name; the loaded policy is recorded. *)
Theorem setup_server_security_attaches_loaded_policy
  e w self ns nm port tls mtls (policy : ServerTlsPolicy) :
  let policy_name := resource_name (Secure.super self) Secure.SERVER_TLS_POLICY_NAME in
  let create_policy :=
    netsec_create_server_tls_policy policy_name (server_policy_document tls mtls) in
  tls || mtls = true ->
  remote e (log w) create_policy = inr tt ->
  remote e (log w ++ [create_policy]) (netsec_get_server_tls_policy policy_name) =
    inr policy ->
  let r := Secure.setup_server_security ns nm port tls mtls e w self in
  Secure.server_tls_policy (st r) = Some policy /\
  take 3 (new_calls w r) =
    [create_policy;
     netsec_get_server_tls_policy policy_name;
     netsvc_create_endpoint_config_selector
       (resource_name (Secure.super self) Secure.ENDPOINT_CONFIG_SELECTOR_NAME)
       (JDict (endpoint_config ns nm port ++
               [("serverTlsPolicy", JStr (server_policy_name policy))]))].
Proof.
  intros policy_name create_policy Hflags Hcreate Hget r.
  subst policy_name create_policy r.
  unfold Secure.setup_server_security. rewrite bind_run.
  rewrite (create_server_tls_policy_loaded e w self tls mtls policy Hflags Hcreate Hget).
  cbn [res st wld].
  split.
  - rewrite (proj1 (create_endpoint_config_selector_keeps_policies _ _ _ _ _ _)).
    reflexivity.
  - unfold new_calls. rewrite create_endpoint_config_selector_log.
    cbn [log Secure.server_tls_policy Secure.set_server_tls_policy Secure.super
           Secure.set_super].
    rewrite !resource_name_memoize, <- !app_assoc, drop_app_length. reflexivity.
Qed.

Lemma setup_server_security_attaches_loaded_policy_witness :
  take 3 (new_calls fresh_world
            (Secure.setup_server_security "ns" "server" 8080 true false
               serving fresh_world sample_secure_manager)) =
  [netsec_create_server_tls_policy "psm-interop-server-tls-policy"
     (JDict [("serverCertificate", Secure._get_certificate_provider)]);
   netsec_get_server_tls_policy "psm-interop-server-tls-policy";
   netsvc_create_endpoint_config_selector "psm-interop-endpoint-policy"
     (JDict (endpoint_config "ns" "server" 8080 ++
             [("serverTlsPolicy", JStr "psm-interop-server-tls-policy")]))].
Proof.
  exact (proj2 (setup_server_security_attaches_loaded_policy
                  serving fresh_world sample_secure_manager "ns" "server" 8080 true false
                  {| server_policy_name := "psm-interop-server-tls-policy";
                     server_policy_url := "global/psm-interop-server-tls-policy" |}
                  eq_refl eq_refl eq_refl)).
Defined.

(** X14. With neither TLS nor mTLS asked for, [setup_server_security] still
    creates the endpoint config selector, and first of all: its config names
    whatever server TLS policy the instance records from before and has no
    [serverTlsPolicy] key when none is recorded. *)
Theorem setup_server_security_without_tls e w self ns nm port :
  let r := Secure.setup_server_security ns nm port false false e w self in
  Secure.server_tls_policy (st r) = Secure.server_tls_policy self /\
  take 1 (new_calls w r) =
    [netsvc_create_endpoint_config_selector
       (resource_name (Secure.super self) Secure.ENDPOINT_CONFIG_SELECTOR_NAME)
       (JDict (endpoint_config ns nm port ++
               match Secure.server_tls_policy self with
               | Some policy => [("serverTlsPolicy", JStr (server_policy_name policy))]
               | None => []
               end))].
Proof.
  intros r. subst r. unfold Secure.setup_server_security. rewrite bind_run.
  rewrite create_server_tls_policy_off. cbn [res st wld].
  split.
  - rewrite (proj1 (create_endpoint_config_selector_keeps_policies _ _ _ _ _ _)).
    reflexivity.
  - unfold new_calls. rewrite create_endpoint_config_selector_log.
    cbn [log Secure.server_tls_policy Secure.super Secure.set_super].
    rewrite !resource_name_memoize, drop_app_length. reflexivity.
Qed.

Lemma create_client_tls_policy_loaded e w self tls mtls (policy : ClientTlsPolicy) :
  let policy_name := resource_name (Secure.super self) Secure.CLIENT_TLS_POLICY_NAME in
  let create_policy :=
    netsec_create_client_tls_policy policy_name (client_policy_document tls mtls) in
  tls || mtls = true ->
  remote e (log w) create_policy = inr tt ->
  remote e (log w ++ [create_policy]) (netsec_get_client_tls_policy policy_name) =
    inr policy ->
  Secure.create_client_tls_policy tls mtls e w self =
  {| res := inr tt;
     st := Secure.set_client_tls_policy (Some policy)
             (Secure.set_super (memoize Secure.CLIENT_TLS_POLICY_NAME (Secure.super self))
                self);
     wld := {| log := (log w ++ [create_policy]) ++
                      [netsec_get_client_tls_policy policy_name];
               draws := draws w |} |}.
Proof.
  intros policy_name create_policy Hflags Hcreate Hget.
  subst policy_name create_policy.
  rewrite (create_client_tls_policy_run e w self tls mtls Hflags).
  unfold and_then, request. cbn [res st wld log draws].
  rewrite Hcreate. cbn [res st wld log draws].
  rewrite Hget. reflexivity.
Qed.

Lemma apply_client_mtls_policy_run e w self ns nm bs :
  backend_service (Secure.super self) = Some bs ->
  Secure.backend_service_apply_client_mtls_policy ns nm e w self =
  match Secure.client_tls_policy self with
  | None => {| res := inr tt; st := self; wld := w |}
  | Some policy =>
      request (compute_patch_backend_service bs
                 (security_settings (client_policy_url policy)
                    (project (Secure.super self)) ns nm)) e w self
  end.
Proof.
  intros Hbs. unfold Secure.backend_service_apply_client_mtls_policy, security_settings.
  unfold_monad. cbn [res st wld].
  destruct (Secure.client_tls_policy self) as [policy|]; rewrite Hbs; reflexivity.
Qed.

(** X15. When [setup_client_security] is asked for TLS or mTLS on an instance
    that records a backend service, and the policy is created and loaded, it
    makes exactly three requests: the creation, the load, and a patch of the
    recorded backend service whose security settings carry the URL the API
    reported for the policy and the SPIFFE id of the server in the instance's
    project. *)
Theorem setup_client_security_patches_backend_service
  e w self ns nm tls mtls (policy : ClientTlsPolicy) bs :
  let policy_name := resource_name (Secure.super self) Secure.CLIENT_TLS_POLICY_NAME in
  let create_policy :=
    netsec_create_client_tls_policy policy_name (client_policy_document tls mtls) in
  tls || mtls = true ->
  backend_service (Secure.super self) = Some bs ->
  remote e (log w) create_policy = inr tt ->
  remote e (log w ++ [create_policy]) (netsec_get_client_tls_policy policy_name) =
    inr policy ->
  let r := Secure.setup_client_security ns nm tls mtls e w self in
  Secure.client_tls_policy (st r) = Some policy /\
  new_calls w r =
    [create_policy;
     netsec_get_client_tls_policy policy_name;
     compute_patch_backend_service bs
       (security_settings (client_policy_url policy) (project (Secure.super self)) ns nm)].
Proof.
  intros policy_name create_policy Hflags Hbs Hcreate Hget r.
  subst policy_name create_policy r.
  unfold Secure.setup_client_security. rewrite bind_run.
  rewrite (create_client_tls_policy_loaded e w self tls mtls policy Hflags Hcreate Hget).
  cbn [res st wld].
  rewrite (apply_client_mtls_policy_run _ _ _ ns nm bs) by exact Hbs.
  cbn [Secure.client_tls_policy Secure.set_client_tls_policy Secure.super Secure.set_super].
  unfold request. cbn [st wld log]. split; [reflexivity|].
  apply new_calls_app. cbn [wld log]. rewrite <- !app_assoc. reflexivity.
Qed.

Lemma setup_client_security_patches_backend_service_witness :
  new_calls fresh_world
    (Secure.setup_client_security "ns" "server" true true serving fresh_world
       (Secure.set_super (st sample_manager_set_up) sample_secure_manager)) =
  [netsec_create_client_tls_policy "psm-interop-client-tls-policy-20211101"
     (client_policy_document true true);
   netsec_get_client_tls_policy "psm-interop-client-tls-policy-20211101";
   compute_patch_backend_service
     {| name := "psm-interop-backend-service-20211101";
        url := "global/psm-interop-backend-service-20211101" |}
     (security_settings "global/psm-interop-client-tls-policy-20211101" "grpc-testing"
        "ns" "server")].
Proof.
  exact (proj2 (setup_client_security_patches_backend_service
                  serving fresh_world
                  (Secure.set_super (st sample_manager_set_up) sample_secure_manager)
                  "ns" "server" true true
                  {| client_policy_name := "psm-interop-client-tls-policy-20211101";
                     client_policy_url := "global/psm-interop-client-tls-policy-20211101" |}
                  {| name := "psm-interop-backend-service-20211101";
                     url := "global/psm-interop-backend-service-20211101" |}
                  eq_refl eq_refl eq_refl eq_refl)).
Defined.

(** X16. With neither TLS nor mTLS asked for, [setup_client_security] on an
    instance that records a backend service creates nothing and leaves the
    recorded client TLS policy as it was; a policy recorded from before is
    nevertheless attached to the backend service again, by the one patch
    request, and without a recorded policy no request is made. *)
Theorem setup_client_security_without_tls e w self ns nm bs :
  backend_service (Secure.super self) = Some bs ->
  let r := Secure.setup_client_security ns nm false false e w self in
  Secure.client_tls_policy (st r) = Secure.client_tls_policy self /\
  new_calls w r =
    match Secure.client_tls_policy self with
    | Some policy =>
        [compute_patch_backend_service bs
           (security_settings (client_policy_url policy) (project (Secure.super self))
              ns nm)]
    | None => []
    end.
Proof.
  intros Hbs r. subst r. unfold Secure.setup_client_security. rewrite bind_run.
  rewrite create_client_tls_policy_off. cbn [res st wld].
  rewrite (apply_client_mtls_policy_run _ _ _ ns nm bs) by exact Hbs.
  cbn [Secure.client_tls_policy Secure.super Secure.set_super].
  destruct (Secure.client_tls_policy self) as [policy|] eqn:Hpolicy.
  - unfold request. cbn [st wld log]. split; [exact Hpolicy|].
    apply new_calls_app. reflexivity.
  - cbn [st wld]. split; [exact Hpolicy|].
    apply new_calls_app. symmetry. apply app_nil_r.
Qed.

Lemma setup_client_security_without_tls_witness :
  new_calls (wld sample_secure_manager_set_up)
    (Secure.setup_client_security "ns" "server" false false serving
       (wld sample_secure_manager_set_up) (st sample_secure_manager_set_up)) =
  [compute_patch_backend_service
     {| name := "psm-interop-backend-service";
        url := "global/psm-interop-backend-service" |}
     (security_settings "global/psm-interop-client-tls-policy" "grpc-testing"
        "ns" "server")].
Proof.
  exact (proj2 (setup_client_security_without_tls
                  serving (wld sample_secure_manager_set_up)
                  (st sample_secure_manager_set_up) "ns" "server"
                  {| name := "psm-interop-backend-service";
                     url := "global/psm-interop-backend-service" |}
                  eq_refl)).
Defined.

(** ** Routes and routers *)

Lemma create_grpc_route_run e w self host port bs :
  backend_service (AppNet.super self) = Some bs ->
  AppNet.create_grpc_route host port e w self =
  and_then
    (request (netsvc_create_grpc_route
                (resource_name (AppNet.super self) AppNet.GRPC_ROUTE_NAME)
                (JDict [("hostnames", JStr (host_port host port));
                        ("rules",
                         JList [JDict [("action",
                           JDict [("destination",
                                   JDict [("serviceName", JStr (name bs))])])]])]))
       e w (AppNet.set_super (memoize AppNet.GRPC_ROUTE_NAME (AppNet.super self)) self))
    (fun resource w1 s1 =>
       and_then (request (netsvc_get_grpc_route
                            (resource_name (AppNet.super self) AppNet.GRPC_ROUTE_NAME))
                   e w1 s1)
         (fun loaded w2 s2 =>
            {| res := inr resource; st := AppNet.set_grpc_route (Some loaded) s2;
               wld := w2 |})).
Proof.
  intros Hbs. unfold AppNet.create_grpc_route.
  rewrite bind_run. unfold get at 1 2 3. cbn [res st wld].
  rewrite Hbs, bind_run. unfold deref, ret. cbn [res st wld].
  rewrite bind_run, appnet_make_resource_name_run. cbn [res st wld].
  unfold and_then. unfold_monad. cbn [res st wld log draws].
  repeat match goal with |- context [remote ?e ?h ?c] => destruct (remote e h c) end;
    reflexivity.
Qed.

Lemma create_router_run e w self route :
  AppNet.grpc_route self = Some route ->
  AppNet.create_router e w self =
  and_then
    (request (netsvc_create_router
                (resource_name (AppNet.super self) AppNet.ROUTER_NAME)
                (JDict [("type", JStr "PROXYLESS_GRPC");
                        ("routes", JList [JStr (route_url route)]);
                        ("network", JStr "default")]))
       e w (AppNet.set_super (memoize AppNet.ROUTER_NAME (AppNet.super self)) self))
    (fun resource w1 s1 =>
       and_then (request (netsvc_get_router
                            (resource_name (AppNet.super self) AppNet.ROUTER_NAME))
                   e w1 s1)
         (fun loaded w2 s2 =>
            {| res := inr resource; st := AppNet.set_router (Some loaded) s2;
               wld := w2 |})).
Proof.
  intros Hroute. unfold AppNet.create_router.
  rewrite bind_run, appnet_make_resource_name_run. cbn [res st wld].
  rewrite bind_run. unfold get at 1 2 3. cbn [res st wld AppNet.grpc_route AppNet.set_super].
  rewrite Hroute, bind_run. unfold deref, ret. cbn [res st wld].
  unfold and_then. unfold_monad. cbn [res st wld log draws].
  repeat match goal with |- context [remote ?e ?h ?c] => destruct (remote e h c) end;
    reflexivity.
Qed.

(** X17. [create_grpc_route] on an instance with a backend service sends the
    route for the host and port, with the recorded backend service's name as
    destination, and then loads it: it returns what the create request
    answered but records what the load answered. A following
    [create_router] sends a router that refers to the URL of the loaded
    route, on the network [default] whatever network the instance was made
    for. *)
Theorem router_refers_to_loaded_route e w self host port bs
  (created : GcpResource) (loaded : GrpcRoute) :
  let route_name := resource_name (AppNet.super self) AppNet.GRPC_ROUTE_NAME in
  let create_route :=
    netsvc_create_grpc_route route_name
      (JDict [("hostnames", JStr (host_port host port));
              ("rules",
               JList [JDict [("action",
                 JDict [("destination", JDict [("serviceName", JStr (name bs))])])]])]) in
  backend_service (AppNet.super self) = Some bs ->
  remote e (log w) create_route = inr created ->
  remote e (log w ++ [create_route]) (netsvc_get_grpc_route route_name) = inr loaded ->
  let r := AppNet.create_grpc_route host port e w self in
  res r = inr created /\
  AppNet.grpc_route (st r) = Some loaded /\
  new_calls w r = [create_route; netsvc_get_grpc_route route_name] /\
  forall e' w',
    take 1 (new_calls w' (AppNet.create_router e' w' (st r))) =
    [netsvc_create_router (resource_name (AppNet.super self) AppNet.ROUTER_NAME)
       (JDict [("type", JStr "PROXYLESS_GRPC");
               ("routes", JList [JStr (route_url loaded)]);
               ("network", JStr "default")])].
Proof.
  intros route_name create_route Hbs Hcreate Hget r. subst route_name create_route r.
  assert (AppNet.create_grpc_route host port e w self =
          {| res := inr created;
             st := AppNet.set_grpc_route (Some loaded)
                     (AppNet.set_super (memoize AppNet.GRPC_ROUTE_NAME (AppNet.super self))
                        self);
             wld := {| log := (log w ++ [netsvc_create_grpc_route
                         (resource_name (AppNet.super self) AppNet.GRPC_ROUTE_NAME)
                         (JDict [("hostnames", JStr (host_port host port));
                                 ("rules",
                                  JList [JDict [("action",
                                    JDict [("destination",
                                            JDict [("serviceName", JStr (name bs))])])]])])]) ++
                        [netsvc_get_grpc_route
                           (resource_name (AppNet.super self) AppNet.GRPC_ROUTE_NAME)];
                       draws := draws w |} |}) as Hrun.
  { rewrite (create_grpc_route_run e w self host port bs Hbs).
    unfold and_then, request. cbn [res st wld log draws].
    rewrite Hcreate. cbn [res st wld log draws].
    rewrite Hget. reflexivity. }
  rewrite Hrun. cbn [res st wld].
  split; [reflexivity|]. split; [reflexivity|].
  split; [apply new_calls_app; cbn [wld log]; rewrite <- app_assoc; reflexivity|].
  intros e' w'.
  rewrite (create_router_run e' w' _ loaded) by reflexivity.
  cbn [AppNet.super AppNet.set_grpc_route AppNet.set_super].
  rewrite resource_name_memoize.
  unfold new_calls, and_then, request. cbn [res st wld log draws].
  destruct (remote e' (log w') _); cbn [res st wld log draws].
  - rewrite drop_app_length. reflexivity.
  - destruct (remote e' _ (netsvc_get_router _)); cbn [res st wld log draws];
      rewrite <- app_assoc, drop_app_length; reflexivity.
Qed.

Lemma router_refers_to_loaded_route_witness :
  take 1 (new_calls fresh_world
            (AppNet.create_router serving fresh_world
               (st (AppNet.create_grpc_route "svc.local" 8080 serving fresh_world
                      (AppNet.set_super (st sample_manager_set_up) sample_appnet_manager))))) =
  [netsvc_create_router "psm-interop-router-20211101"
     (JDict [("type", JStr "PROXYLESS_GRPC");
             ("routes", JList [JStr "global/psm-interop-grpc-route-20211101"]);
             ("network", JStr "default")])].
Proof.
  exact (proj2 (proj2 (proj2
           (router_refers_to_loaded_route serving fresh_world
              (AppNet.set_super (st sample_manager_set_up) sample_appnet_manager)
              "svc.local" 8080
              {| name := "psm-interop-backend-service-20211101";
                 url := "global/psm-interop-backend-service-20211101" |}
              {| name := "psm-interop-grpc-route-20211101";
                 url := "global/psm-interop-grpc-route-20211101" |}
              {| route_name := "psm-interop-grpc-route-20211101";
                 route_url := "global/psm-interop-grpc-route-20211101" |}
              eq_refl eq_refl eq_refl))) serving fresh_world).
Defined.

(** ** Forced cleanup after setup *)

(** X18. However [setup_for_grpc] ended, normally or with an exception part
    of the way, a forced [cleanup] of the instance it left, with its requests
    served, returns normally after the eight delete requests for the names
    derived on the instance as it was before setup: setup does not change
    how names are derived, and forced deletion does not depend on what was
    recorded. *)
Theorem forced_cleanup_after_setup e w self host port protocol hc_port e' w' :
  deletes_served e' ->
  let r := setup_for_grpc host port protocol hc_port e w self in
  let c := cleanup true e' w' (st r) in
  res c = inr tt /\
  new_calls w' c =
    [compute_delete_forwarding_rule (resource_name self FORWARDING_RULE_NAME);
     compute_delete_target_http_proxy (resource_name self TARGET_PROXY_NAME);
     compute_delete_target_grpc_proxy (resource_name self TARGET_PROXY_NAME);
     compute_delete_url_map (resource_name self URL_MAP_NAME);
     compute_delete_backend_service (resource_name self BACKEND_SERVICE_NAME);
     compute_delete_backend_service (resource_name self ALTERNATIVE_BACKEND_SERVICE_NAME);
     compute_delete_backend_service (resource_name self AFFINITY_BACKEND_SERVICE_NAME);
     compute_delete_health_check (resource_name self HEALTH_CHECK_NAME)].
Proof.
  intros Hserved r c. subst c.
  destruct (cleanup_served true e' w' (st r) Hserved) as [Hres Hcalls].
  split; [exact Hres|]. rewrite Hcalls.
  destruct (keeps_naming_setup_for_grpc host port protocol hc_port e w self)
    as (_ & _ & Hnames).
  fold r in Hnames. unfold cleanup_plan, deletion. rewrite !Hnames. reflexivity.
Qed.

Lemma forced_cleanup_after_setup_witness :
  deletes_served serving /\
  new_calls fresh_world (cleanup true serving fresh_world (st sample_manager_set_up)) =
  [compute_delete_forwarding_rule "psm-interop-forwarding-rule-20211101";
   compute_delete_target_http_proxy "psm-interop-target-proxy-20211101";
   compute_delete_target_grpc_proxy "psm-interop-target-proxy-20211101";
   compute_delete_url_map "psm-interop-url-map-20211101";
   compute_delete_backend_service "psm-interop-backend-service-20211101";
   compute_delete_backend_service "psm-interop-backend-service-alt-20211101";
   compute_delete_backend_service "psm-interop-backend-service-affinity-20211101";
   compute_delete_health_check "psm-interop-health-check-20211101"].
Proof.
  assert (deletes_served serving) as Hserved by (intros h c _; reflexivity).
  split; [exact Hserved|].
  exact (proj2 (forced_cleanup_after_setup serving fresh_world sample_manager
                  "svc.local" 8080 None None serving fresh_world Hserved)).
Defined.
